(** * mqtt4netatmo: the Netatmo client and its telemetry normalizer

    A shallow embedding of the class [NetatmoClient] (lib/netatmo.js):
    the token store ([connect], [checkAndSetAccesToken], [setToken], the two
    grants), the request executor ([request]), the telemetry normalizer
    ([processMeasure], [processStation], [processAircare]), the domain API
    ([getHomesData], [getHomeStatus], [getStationsData], [getMeasure],
    [getHomeCoachData]) and the poller ([pollData], [startPolling]).

    Conventions of the embedding.
    - JSON payloads are values of [Js.value]; a JS object is an association
      list with the keys in insertion order.
    - JS numbers are exact rationals ([Q]); the payloads carry no NaN and no
      infinity, and numbers are only copied, compared ([===], [>], [<]) or
      added, on magnitudes (seconds, milliseconds, status codes) that doubles
      represent exactly. Where an operator converts a value to a number, the
      conversion is ToNumber of the language, with the exact value of a
      numeric literal.
    - A string is the sequence of its code units, each below 256.
    - A thrown [Error] keeps the interpolated parts of its message apart
      instead of one rendered string.
    - [async] functions are modelled by their completion: a rejected promise
      that is awaited is a throw. *)

From Stdlib Require Import String Ascii List Bool ZArith QArith Qround Lia.
From Stdlib Require Import DecimalString.
Import ListNotations.
Local Open Scope string_scope.
Local Open Scope list_scope.

(* ===================================================================== *)
(** ** JS values *)
(* ===================================================================== *)

Module Js.

#[local] Set Warnings "-register-all".

Inductive value : Type :=
| VUndefined
| VNull
| VBool (b : bool)
| VNum (q : Q)
| VStr (s : string)
| VArr (items : list value)
| VObj (fields : list (string * value)).

(** An object: own enumerable properties, in insertion order. *)
Definition obj : Type := list (string * value).

(** [if (v)], [!v], [v && ...]: ToBoolean. *)
Definition truthy (v : value) : bool :=
  match v with
  | VUndefined | VNull => false
  | VBool b => b
  | VNum q => negb (Qeq_bool q 0)
  | VStr s => negb (String.eqb s "")
  | VArr _ | VObj _ => true
  end.

(** [v == null]. *)
Definition nullish (v : value) : bool :=
  match v with
  | VUndefined | VNull => true
  | _ => false
  end.

Fixpoint obj_lookup (k : string) (o : obj) : option value :=
  match o with
  | [] => None
  | (k', v) :: rest => if String.eqb k k' then Some v else obj_lookup k rest
  end.

(** [o.k = v]: an existing property keeps its place, a new one goes last. *)
Fixpoint obj_set (k : string) (v : value) (o : obj) : obj :=
  match o with
  | [] => [(k, v)]
  | (k', v') :: rest =>
      if String.eqb k k' then (k, v) :: rest else (k', v') :: obj_set k v rest
  end.

Definition keys (o : obj) : list string := map fst o.

(** The property key of the array index [i]. *)
Definition index_key (i : nat) : string :=
  NilEmpty.string_of_uint (Nat.to_uint i).

Definition is_index_below (n : nat) (k : string) : bool :=
  existsb (fun i => String.eqb k (index_key i)) (seq 0 n).

(** [v.k] on a value that is neither [undefined] nor [null] (on those the
    read throws a TypeError, which each caller handles first), for the
    property names the client reads: none is an array index or a property
    of a prototype, so that an object gives its own property or [undefined],
    and an array or a string gives [undefined] except for [length]. *)
Definition get (v : value) (k : string) : value :=
  match v with
  | VObj o => match obj_lookup k o with Some x => x | None => VUndefined end
  | VArr l => if String.eqb k "length" then VNum (inject_Z (Z.of_nat (List.length l)))
              else VUndefined
  | VStr s => if String.eqb k "length" then VNum (inject_Z (Z.of_nat (String.length s)))
              else VUndefined
  | _ => VUndefined
  end.

(** [Object.prototype.hasOwnProperty.call(v, k)] for [v] neither
    [undefined] nor [null]. *)
Definition hasOwnProperty (v : value) (k : string) : bool :=
  match v with
  | VObj o => match obj_lookup k o with Some _ => true | None => false end
  | VArr l => String.eqb k "length" || is_index_below (List.length l) k
  | VStr s => String.eqb k "length" || is_index_below (String.length s) k
  | _ => false
  end.

Fixpoint chars (s : string) : list value :=
  match s with
  | EmptyString => []
  | String c rest => VStr (String c EmptyString) :: chars rest
  end.

(** *** ToNumber

    A number as an operator of JS computes it: the payloads carry finite
    numbers, a conversion also gives NaN and the infinities. *)
Inductive number : Type :=
| Finite (q : Q)
| NaN
| PlusInfinity
| MinusInfinity.

Definition code_unit (c : ascii) : Z := Z.of_nat (nat_of_ascii c).

(** WhiteSpace and LineTerminator, among the code units of a string of the
    embedding: TAB, LF, VT, FF, CR, SP and NBSP. *)
Definition StrWhiteSpaceChar (c : ascii) : bool :=
  existsb (Z.eqb (code_unit c)) [9; 10; 11; 12; 13; 32; 160]%Z.

Fixpoint skip_white_space (s : list ascii) : list ascii :=
  match s with
  | c :: rest => if StrWhiteSpaceChar c then skip_white_space rest else s
  | [] => []
  end.

Definition trim (s : list ascii) : list ascii :=
  rev (skip_white_space (rev (skip_white_space s))).

(** The value of a digit of a numeral in [base], which is 2, 8, 10 or 16. *)
Definition digit (base : Z) (c : ascii) : option Z :=
  let n := code_unit c in
  let d := (if (48 <=? n) && (n <=? 57) then n - 48
            else if (97 <=? n) && (n <=? 102) then n - 87
            else if (65 <=? n) && (n <=? 70) then n - 55
            else base)%Z in
  if (d <? base)%Z then Some d else None.

Fixpoint digits (base acc : Z) (s : list ascii) : option Z :=
  match s with
  | [] => Some acc
  | c :: rest =>
      match digit base c with
      | Some d => digits base (acc * base + d)%Z rest
      | None => None
      end
  end.

(** One digit or more. *)
Definition numeral (base : Z) (s : list ascii) : option Z :=
  match s with
  | [] => None
  | _ => digits base 0%Z s
  end.

Fixpoint split_at (separator : ascii -> bool) (s : list ascii)
    : list ascii * option (list ascii) :=
  match s with
  | [] => ([], None)
  | c :: rest =>
      if separator c then ([], Some rest)
      else let (before, after) := split_at separator rest in (c :: before, after)
  end.

Definition is_char (c : string) (x : ascii) : bool :=
  String.eqb c (String x EmptyString).

Definition SignedInteger (s : list ascii) : option Z :=
  match s with
  | c :: rest =>
      if is_char "+" c then numeral 10%Z rest
      else if is_char "-" c then option_map Z.opp (numeral 10%Z rest)
      else numeral 10%Z s
  | [] => None
  end.

(** Digits with an optional fraction and an optional exponent: [12],
    [12.], [12.5], [.5], each possibly followed by [e] or [E] and a signed
    integer. *)
Definition StrUnsignedDecimalLiteral (s : list ascii) : option Q :=
  let (mantissa, exponent_part) := split_at (fun c => is_char "e" c || is_char "E" c) s in
  let (integer, fraction_part) := split_at (is_char ".") mantissa in
  let fraction := match fraction_part with Some f => f | None => [] end in
  let exponent := match exponent_part with Some e => SignedInteger e | None => Some 0%Z end in
  match integer, fraction with
  | [], [] => None
  | _, _ =>
      match digits 10%Z 0%Z integer, digits 10%Z 0%Z fraction, exponent with
      | Some i, Some f, Some e =>
          let places := Z.of_nat (List.length fraction) in
          Some (inject_Z (i * 10 ^ places + f)%Z * Qpower 10 (e - places)%Z)
      | _, _, _ => None
      end
  end.

Definition StrDecimalLiteral (s : list ascii) : number :=
  let (negative, unsigned) :=
    match s with
    | c :: rest =>
        if is_char "-" c then (true, rest)
        else if is_char "+" c then (false, rest)
        else (false, s)
    | [] => (false, s)
    end in
  if String.eqb (string_of_list_ascii unsigned) "Infinity" then
    if negative then MinusInfinity else PlusInfinity
  else
    match StrUnsignedDecimalLiteral unsigned with
    | Some q => Finite (if negative then - q else q)
    | None => NaN
    end.

(** The base of [0x], [0o] and [0b], in either case. *)
Definition radix (c : ascii) : option Z :=
  if is_char "x" c || is_char "X" c then Some 16%Z
  else if is_char "o" c || is_char "O" c then Some 8%Z
  else if is_char "b" c || is_char "B" c then Some 2%Z
  else None.

(** ToNumber of a string (StringToNumber): white space around the literal
    is dropped, the empty text is 0, a text that is no numeric literal is
    NaN. *)
Definition StringToNumber (s : string) : number :=
  let text := trim (list_ascii_of_string s) in
  match text with
  | [] => Finite 0
  | zero :: c :: rest =>
      match (if is_char "0" zero then radix c else None) with
      | Some base =>
          match numeral base rest with
          | Some n => Finite (inject_Z n)
          | None => NaN
          end
      | None => StrDecimalLiteral text
      end
  | _ => StrDecimalLiteral text
  end.

(** ToNumber. An array is converted through its text, the texts of its
    elements joined by commas: the empty array reads as 0, an array of two
    elements or more has a comma and is NaN, and an array of one element
    reads as the text of that element, which is empty for [undefined] and
    [null], ['true'] or ['false'] for a boolean, and for a number a text
    that reads back as the number. An object has the text
    ['[object Object]']. *)
Fixpoint ToNumber (v : value) : number :=
  match v with
  | VUndefined => NaN
  | VNull => Finite 0
  | VBool b => Finite (if b then 1 else 0)
  | VNum q => Finite q
  | VStr s => StringToNumber s
  | VArr [] => Finite 0
  | VArr [x] =>
      match x with
      | VUndefined | VNull => Finite 0
      | VBool _ => NaN
      | _ => ToNumber x
      end
  | VArr _ => NaN
  | VObj _ => NaN
  end.

(** The elements [v[0], v[1], ...] visited by
    [for (let m = 0, mlen = v.length; m < mlen; m++)]. An array gives its
    items and a string its characters. An object is read through its own
    [length] property, which [m < mlen] converts to a number: without one,
    or with one that is NaN, the test fails at once; a finite one counts the
    indices looked up, those the object lacks reading [undefined]. With an
    infinite one the loop goes on until its body throws, which the loops of
    the client do at the first index the object lacks; [length] being one of
    its keys, that index is below the number of its keys. *)
Definition array_like_items (v : value) : list value :=
  match v with
  | VArr l => l
  | VStr s => chars s
  | VObj o =>
      let at_index i := get v (index_key i) in
      match obj_lookup "length" o with
      | Some mlen =>
          match ToNumber mlen with
          | Finite n => map at_index (seq 0 (Z.to_nat (Qceiling n)))
          | PlusInfinity => map at_index (seq 0 (List.length o))
          | NaN | MinusInfinity => []
          end
      | None => []
      end
  | _ => []
  end.

End Js.
Import Js.

(* ===================================================================== *)
(** ** lodash *)
(* ===================================================================== *)

Module Lodash.

(** [_.isEmpty(value)]: [null] and [undefined] are empty; an array or a
    string is empty when its length is 0; an object when it has no own
    enumerable property; a number or a boolean has none and is empty. *)
Definition isEmpty (v : value) : bool :=
  match v with
  | VUndefined | VNull => true
  | VBool _ | VNum _ => true
  | VStr s => String.eqb s ""
  | VArr l => match l with [] => true | _ => false end
  | VObj o => match o with [] => true | _ => false end
  end.

End Lodash.

(* ===================================================================== *)
(** ** Errors and completions *)
(* ===================================================================== *)

(** A piece of text interpolated in a message. *)
Inductive text : Type :=
| Text (s : string)
| ToString (v : value)          (* `${v}` of a value that is not a string *)
| JSONstringify (v : value).    (* JSON.stringify(v) *)

(** `${v}` *)
Definition template (v : value) : text :=
  match v with
  | VStr s => Text s
  | _ => ToString v
  end.

Inductive exn : Type :=
| TypeError
    (* reading a property of, or converting to an object, undefined or null *)
| MissingAccessToken
    (* new Error('Access token must be provided') *)
| MissingRefreshToken
    (* new Error('Refresh token must be provided') *)
| InvalidToken
    (* new Error('Invalid Netatmo token') *)
| RequestFailed (path : string) (message : text) (status : option Z).
    (* new Error(`HTTP request ${path} failed: ${message} (${status})`), and
       without status `HTTP request ${path} failed: ${message}` *)

Definition error_message (e : exn) : option string :=
  match e with
  | MissingAccessToken => Some "Access token must be provided"
  | MissingRefreshToken => Some "Refresh token must be provided"
  | InvalidToken => Some "Invalid Netatmo token"
  | _ => None
  end.

Inductive completion (A : Type) : Type :=
| Normal (a : A)
| Thrown (e : exn).
Arguments Normal {A} a.
Arguments Thrown {A} e.

(* ===================================================================== *)
(** ** Telemetry normalizer *)
(* ===================================================================== *)

Module Normalizer.

(** The [hasOwnProperty] tests of [processMeasure], in source order: the
    property tested and the property of [data] it is copied to. *)
Definition rename_table : list (string * string) :=
  [ ("Temperature", "temperature");
    ("temp_trend", "temptrend");
    ("Pressure", "pressure");
    ("AbsolutePressure", "pressureabs");
    ("pressure_trend", "pressuretrend");
    ("Humidity", "humidity");
    ("CO2", "co2");
    ("Noise", "noise");
    ("Rain", "rain");
    ("sum_rain_1", "sumrain1");
    ("sum_rain_24", "sumrain24");
    ("WindStrength", "windstrength");
    ("WindAngle", "windangle");
    ("GustStrength", "guststrength");
    ("GustAngle", "gustangle");
    ("health_idx", "healthidx") ].

(** One statement
    [if (Object.prototype.hasOwnProperty.call(measure, src)) { data.dst = measure.src }]. *)
Definition copy_if_present (measure : value) (data : obj) (entry : string * string) : obj :=
  let (src, dst) := entry in
  if hasOwnProperty measure src then obj_set dst (get measure src) data else data.

(** [processMeasure(measure)]. The first [hasOwnProperty.call] throws a
    TypeError on [undefined] and [null]. *)
Definition processMeasure (measure : value) : completion obj :=
  if nullish measure then Thrown TypeError
  else Normal (fold_left (copy_if_present measure) rename_table []).

(** What the normalizer does to the outside: the records handed to
    [eventEmitter.emit('frame', record)] and the calls of [logger.warn],
    both oldest first. *)
Inductive log_entry : Type :=
| WarnNoModules (station_name : value).
    (* logger.warn(`This station have no modules: ${station.station_name}`) *)

Record effects : Type := mkEffects {
  frames : list obj;
  warnings : list log_entry
}.

Definition no_effects : effects := mkEffects [] [].

Definition M (A : Type) : Type := effects -> completion A * effects.

Definition ret {A} (a : A) : M A := fun fx => (Normal a, fx).
Definition throw {A} (e : exn) : M A := fun fx => (Thrown e, fx).
Definition bind {A B} (c : M A) (k : A -> M B) : M B :=
  fun fx =>
    match c fx with
    | (Normal a, fx') => k a fx'
    | (Thrown e, fx') => (Thrown e, fx')
    end.
Definition lift {A} (c : completion A) : M A := fun fx => (c, fx).

Notation "x <- c ;; k" := (bind c (fun x => k))
  (at level 61, c at next level, right associativity).
Notation "c ;;; k" := (bind c (fun _ => k))
  (at level 61, right associativity).

Definition emit (record : obj) : M unit :=
  fun fx => (Normal tt, mkEffects (frames fx ++ [record]) (warnings fx)).
Definition warn (entry : log_entry) : M unit :=
  fun fx => (Normal tt, mkEffects (frames fx) (warnings fx ++ [entry])).

(** [(v) ? 1 : 0] *)
Definition one_or_zero (v : value) : value :=
  if truthy v then VNum 1 else VNum 0.

(** The body of the module loop of [processStation], for one [module]. *)
Definition processModule (station module : value) : M unit :=
  if nullish module then throw TypeError else
  modmeasure <- lift (processMeasure (get module "dashboard_data")) ;;
  let modmeasure := obj_set "id" (get module "_id") modmeasure in
  let modmeasure := obj_set "name" (get module "module_name") modmeasure in
  let modmeasure := obj_set "type" (get module "type") modmeasure in
  let modmeasure := obj_set "home" (get station "home_name") modmeasure in
  let modmeasure := obj_set "online" (one_or_zero (get module "reachable")) modmeasure in
  let modmeasure := obj_set "rfstatus" (get module "rf_status") modmeasure in
  let modmeasure := obj_set "battery" (get module "battery_percent") modmeasure in
  emit modmeasure.

Fixpoint for_each (body : value -> M unit) (items : list value) : M unit :=
  match items with
  | [] => ret tt
  | x :: rest => body x ;;; for_each body rest
  end.

(** [processStation(station)] *)
Definition processStation (station : value) : M unit :=
  if nullish station then throw TypeError else
  measure <- lift (processMeasure (get station "dashboard_data")) ;;
  let measure := obj_set "id" (get station "_id") measure in
  let measure := obj_set "name" (get station "station_name") measure in
  let measure := obj_set "type" (get station "type") measure in
  let measure := obj_set "home" (get station "home_name") measure in
  let measure := obj_set "online" (one_or_zero (get station "reachable")) measure in
  let measure := obj_set "wifistatus" (get station "wifi_status") measure in
  emit measure ;;;
  let foundModules := get station "modules" in
  if Lodash.isEmpty foundModules then
    warn (WarnNoModules (get station "station_name"))
  else
    for_each (processModule station) (array_like_items foundModules).

(** [processAircare(aircare)] *)
Definition processAircare (aircare : value) : M unit :=
  if nullish aircare then throw TypeError else
  measure <- lift (processMeasure (get aircare "dashboard_data")) ;;
  let measure := obj_set "id" (get aircare "_id") measure in
  let measure := obj_set "name" (get aircare "station_name") measure in
  let measure := obj_set "type" (get aircare "type") measure in
  let measure := obj_set "module" (get aircare "module_name") measure in
  let measure := obj_set "online" (one_or_zero (get aircare "reachable")) measure in
  let measure := obj_set "wifistatus" (get aircare "wifi_status") measure in
  emit measure.

End Normalizer.

(* ===================================================================== *)
(** ** Token store, authenticator and request executor *)
(* ===================================================================== *)

Module Client.

(** private constants *)
Definition HTTP_POST : string := "POST".
Definition HTTP_GET : string := "GET".
Definition PATH_AUTH : string := "/oauth2/token".
Definition baseURL : string := "https://api.netatmo.com".

(** What [this.expiresInTimestamp] holds. It is a number of seconds, as its
    JSDoc declares, unless [setToken] has added to the clock an [expires_in]
    that is not a number: [+] on a number and a string, an array or an
    object concatenates their texts, and on [undefined] it gives NaN. *)
Inductive timestamp : Type :=
| Seconds (t : Q)
| NoSeconds                                    (* NaN *)
| SecondsText (seconds : Z) (suffix : text).   (* the string `${seconds}${suffix}` *)

(** [seconds + v], for a whole number [seconds]. *)
Definition seconds_plus (seconds : Z) (v : value) : timestamp :=
  match v with
  | VUndefined => NoSeconds
  | VNull => Seconds (inject_Z seconds)
  | VBool b => Seconds (inject_Z seconds + (if b then 1 else 0))
  | VNum e => Seconds (inject_Z seconds + e)
  | VStr _ | VArr _ | VObj _ => SecondsText seconds (template v)
  end.

(** The text of a whole number below 10^21, as every clock reading is. *)
Definition string_of_Z (n : Z) : string := NilZero.string_of_int (Z.to_int n).

(** ToNumber of a timestamp, where the embedding has it: the text of an
    array is not rendered. *)
Definition timestamp_number (t : timestamp) : option number :=
  match t with
  | Seconds q => Some (Finite q)
  | NoSeconds => Some NaN
  | SecondsText seconds (Text s) => Some (StringToNumber (string_of_Z seconds ++ s))
  | SecondsText _ (ToString (VObj _)) => Some NaN
  | SecondsText _ _ => None
  end.

(** [n > q] *)
Definition greater (n : number) (q : Q) : bool :=
  match n with
  | Finite t => negb (Qle_bool t q)
  | PlusInfinity => true
  | NaN | MinusInfinity => false
  end.

(** The fields of a [NetatmoClient]. The tokens and credentials are JS
    values, of which the code tests the truthiness. *)
Record client : Type := mkClient {
  clientId : value;
  clientSecret : value;
  requestConfig : obj;
  username : value;
  password : value;
  accessToken : value;
  refreshToken : value;
  expiresInTimestamp : timestamp
}.

Definition set_accessToken (v : value) (c : client) : client :=
  mkClient (clientId c) (clientSecret c) (requestConfig c) (username c) (password c)
           v (refreshToken c) (expiresInTimestamp c).
Definition set_refreshToken (v : value) (c : client) : client :=
  mkClient (clientId c) (clientSecret c) (requestConfig c) (username c) (password c)
           (accessToken c) v (expiresInTimestamp c).
Definition set_expiresInTimestamp (t : timestamp) (c : client) : client :=
  mkClient (clientId c) (clientSecret c) (requestConfig c) (username c) (password c)
           (accessToken c) (refreshToken c) t.

(** The [constructor]; its two errors are plain [Error]s with the messages
    below. *)
Inductive constructor_error : Type :=
| MissingClientCredentials   (* 'Client id and client secret must be provided, see ...' *)
| MissingUserCredentials.    (* 'Username and password must be provided' *)

Definition new_NetatmoClient (clientId clientSecret username password : value)
    (requestConfig : obj) : client + constructor_error :=
  if negb (truthy clientId) || negb (truthy clientSecret) then inr MissingClientCredentials
  else if negb (truthy username) || negb (truthy password) then inr MissingUserCredentials
  else inl (mkClient clientId clientSecret requestConfig username password
                     VNull VNull (Seconds 0)).

(** The request configuration handed to [axios]. *)
Inductive header : Type :=
| Bearer (token : value).        (* `Bearer ${this.accessToken}` *)

Inductive body : Type :=
| URLSearchParams (data : value). (* new URLSearchParams(data).toString() *)

Record config : Type := mkConfig {
  spread : obj;                   (* ...this.requestConfig *)
  method : string;
  config_baseURL : string;
  url : string;
  Authorization : option header;  (* headers.Authorization *)
  config_data : option body;
  config_params : option value
}.

(** What [await axios(config)] does: it resolves with a result, of which
    the code reads [data], or rejects with an error [e], which has a
    [message] and, when the server answered, a [response]. *)
Record response : Type := mkResponse {
  status : Z;
  data : value
}.

Record axios_error : Type := mkAxiosError {
  message : string;
  e_response : option response
}.

Inductive axios_outcome : Type :=
| Fulfilled (result_data : value)
| Rejected (e : axios_error).

(** The environment of a client: the answer to the [n]-th call of [axios]
    (counting from 0), which may depend on the request sent, and the
    value of the [n]-th reading of [Date.now()], in milliseconds. *)
Record world : Type := mkWorld {
  axios_answer : nat -> config -> axios_outcome;
  Date_now : nat -> Z
}.

(** The state threaded through the methods: the client object, the requests
    sent so far (oldest first) and the number of clock readings. *)
Record state : Type := mkState {
  this : client;
  sent : list config;
  clock_reads : nat
}.

(** A method call returns, throws, or has no result in the embedding:
    the budget of nested re-authentications ran out, or the text of an array
    was to be read as a number. *)
Inductive stuck : Type :=
| OutOfFuel
| TextOfArray.

Inductive outcome (A : Type) : Type :=
| Returned (a : A) (s : state)
| Threw (e : exn) (s : state)
| Stuck (why : stuck).
Arguments Returned {A} a s.
Arguments Threw {A} e s.
Arguments Stuck {A} why.

Definition M (A : Type) : Type := state -> outcome A.

Definition ret {A} (a : A) : M A := fun s => Returned a s.
Definition throw {A} (e : exn) : M A := fun s => Threw e s.
Definition stuck_on {A} (why : stuck) : M A := fun _ => Stuck why.
Definition bind {A B} (c : M A) (k : A -> M B) : M B :=
  fun s =>
    match c s with
    | Returned a s' => k a s'
    | Threw e s' => Threw e s'
    | Stuck why => Stuck why
    end.

Notation "x <- c ;; k" := (bind c (fun x => k))
  (at level 61, c at next level, right associativity).
Notation "c ;;; k" := (bind c (fun _ => k))
  (at level 61, right associativity).

Definition get_this : M client := fun s => Returned (this s) s.
Definition update_this (f : client -> client) : M unit :=
  fun s => Returned tt (mkState (f (this s)) (sent s) (clock_reads s)).

(** [v === n] for a number [n]. *)
Definition strict_eq_num (v : value) (n : Q) : bool :=
  match v with
  | VNum q => Qeq_bool q n
  | _ => false
  end.

(** A parameter with the default value [null]. *)
Definition or_null (v : value) : value :=
  match v with
  | VUndefined => VNull
  | _ => v
  end.

Section WithWorld.

Variable w : world.

(** [Date.now()] *)
Definition now : M Z :=
  fun s => Returned (Date_now w (clock_reads s))
                    (mkState (this s) (sent s) (S (clock_reads s))).

(** [await axios(config)] *)
Definition axios (c : config) : M axios_outcome :=
  fun s => Returned (axios_answer w (List.length (sent s)) c)
                    (mkState (this s) (sent s ++ [c]) (clock_reads s)).

(** [checkAndSetAccesToken(accessToken, expiresInTimestamp)]; the clock is
    read only when the token is truthy ([&&]). [Date.now() / 1000] is the
    rational [ms / 1000], and [>] converts an expiry that is not a number. *)
Definition checkAndSetAccesToken (accessToken : value) (expiresInTimestamp : timestamp)
    : M bool :=
  if truthy accessToken then
    ms <- now ;;
    match timestamp_number expiresInTimestamp with
    | Some n =>
        if greater n (ms # 1000) then
          update_this (set_accessToken accessToken) ;;;
          update_this (set_expiresInTimestamp expiresInTimestamp) ;;;
          ret true
        else ret false
    | None => stuck_on TextOfArray
    end
  else ret false.

(** [setToken(netatmoAuthentication)]. [Math.floor(Date.now() / 1000)] is
    the integer quotient. *)
Definition setToken (netatmoAuthentication : value) : M unit :=
  if nullish netatmoAuthentication then throw TypeError else
  let access_token := get netatmoAuthentication "access_token" in
  let refresh_token := get netatmoAuthentication "refresh_token" in
  let expires_in := get netatmoAuthentication "expires_in" in
  if negb (truthy access_token) || negb (truthy refresh_token) || negb (truthy expires_in)
  then throw InvalidToken
  else
    update_this (set_accessToken access_token) ;;;
    update_this (set_refreshToken refresh_token) ;;;
    ms <- now ;;
    update_this (set_expiresInTimestamp (seconds_plus (ms / 1000) expires_in)).

Section Grants.

(** The methods below call [this.request]; they are defined over it, and
    [request] ties the knot. *)
Variable request_rec : string -> string -> value -> value -> bool -> M value.

Definition authenticateByRefreshToken_with (refreshToken : value) : M unit :=
  if negb (truthy refreshToken) then throw MissingRefreshToken else
  update_this (set_refreshToken refreshToken) ;;;
  c <- get_this ;;
  authentication <- request_rec HTTP_POST PATH_AUTH VNull
    (VObj [ ("grant_type", VStr "refresh_token");
            ("client_id", clientId c);
            ("client_secret", clientSecret c);
            ("refresh_token", Client.refreshToken c) ]) false ;;
  setToken authentication.

Definition authenticateByClientCredentials_with : M unit :=
  c <- get_this ;;
  authentication <- request_rec HTTP_POST PATH_AUTH VNull
    (VObj [ ("grant_type", VStr "password");
            ("client_id", clientId c);
            ("client_secret", clientSecret c);
            ("username", username c);
            ("password", password c);
            ("scope", VStr "read_station read_homecoach") ]) false ;;
  setToken authentication.

Definition connect_with (accessToken refreshToken : value) (expiresInTimestamp : timestamp)
    : M unit :=
  let accessToken := or_null accessToken in
  let refreshToken := or_null refreshToken in
  valid <- checkAndSetAccesToken accessToken expiresInTimestamp ;;
  if valid then
    if truthy refreshToken then update_this (set_refreshToken refreshToken)
    else ret tt
  else if truthy refreshToken then authenticateByRefreshToken_with refreshToken
  else authenticateByClientCredentials_with.

End Grants.

(** The test of the expired-token branch of [request]. *)
Definition token_expired (isRetry : bool) (r : response) : bool :=
  let error := get (data r) "error" in
  negb isRetry
  && ((status r =? 403)%Z || (status r =? 401)%Z)
  && truthy error
  && truthy (get error "code")
  && strict_eq_num (get error "code") 3.

(** The [throw]s of the [catch] block of [request] after the expired-token
    branch, for an error with a response whose [data] is truthy; [None]
    when none of its three tests holds. *)
Definition classify (path : string) (r : response) : option exn :=
  let error_description := get (data r) "error_description" in
  let error := get (data r) "error" in
  if truthy error_description then
    Some (RequestFailed path (template error_description) (Some (status r)))
  else if truthy error && truthy (get error "message") then
    Some (RequestFailed path (template (get error "message")) (Some (status r)))
  else if truthy error then
    Some (RequestFailed path (JSONstringify error) (Some (status r)))
  else None.

(** [request(method, path, params, data, isRetry)]. The fuel bounds the
    depth of the re-authentications nested in one another (the token
    request of a re-authentication is itself a [request]); a call that
    does not take the expired-token branch needs none. *)
Fixpoint request (fuel : nat) (method path : string) (params data : value)
    (isRetry : bool) {struct fuel} : M value :=
  c <- get_this ;;
  let config :=
    mkConfig (requestConfig c) method baseURL path None
      (if truthy data then Some (URLSearchParams data) else None)
      (if truthy params then Some params else None) in
  config <-
    (if negb (String.eqb path PATH_AUTH) then
       if negb (truthy (accessToken c)) then throw MissingAccessToken
       else ret (mkConfig (spread config) (Client.method config) (config_baseURL config)
                          (url config) (Some (Bearer (accessToken c)))
                          (config_data config) (config_params config))
     else ret config) ;;
  result <- axios config ;;
  match result with
  | Fulfilled result_data => ret result_data
  | Rejected e =>
      let axios_error := throw (RequestFailed path (Text (message e)) None) in
      match e_response e with
      | Some r =>
          if truthy (Client.data r) then
            if token_expired isRetry r then
              match fuel with
              | O => stuck_on OutOfFuel
              | S fuel' =>
                  update_this (set_accessToken VNull) ;;;
                  c <- get_this ;;
                  connect_with (request fuel') VNull (refreshToken c) (expiresInTimestamp c) ;;;
                  request fuel' method path params data true
              end
            else
              match classify path r with
              | Some err => throw err
              | None => axios_error
              end
          else axios_error
      | None => axios_error
      end
  end.

Definition authenticateByRefreshToken (fuel : nat) : value -> M unit :=
  authenticateByRefreshToken_with (request fuel).
Definition authenticateByClientCredentials (fuel : nat) : M unit :=
  authenticateByClientCredentials_with (request fuel).
Definition connect (fuel : nat) : value -> value -> timestamp -> M unit :=
  connect_with (request fuel).

End WithWorld.

End Client.

(* ===================================================================== *)
(** ** Domain API surface *)
(* ===================================================================== *)

Module Api.

Import Client.

(** The two errors a wrapper throws before it calls [request]. *)
Inductive precondition : Type :=
| MissingHomeId           (* new Error('Home id must be provided') *)
| MissingMeasureParams.   (* new Error('Device id, Scale and Type must be provided') *)

Definition precondition_message (e : precondition) : string :=
  match e with
  | MissingHomeId => "Home id must be provided"
  | MissingMeasureParams => "Device id, Scale and Type must be provided"
  end.

(** A wrapper with a precondition: it throws at once, or runs on the state. *)
Definition guarded (A : Type) : Type := state -> precondition + outcome A.

(** A parameter with a default value. *)
Definition or_default (v d : value) : value :=
  match v with
  | VUndefined => d
  | _ => v
  end.

(** [(v).k] in [(await this.request(...)).body.k]: on [undefined] and
    [null] the read throws a TypeError. *)
Definition member (v : value) (k : string) : M value :=
  if nullish v then throw TypeError else ret (get v k).

Section WithWorld.

Variable w : world.

(** [getHomesData(homeId, gatewayTypes = {})] *)
Definition getHomesData (fuel : nat) (homeId gatewayTypes : value) : M value :=
  let gatewayTypes := or_default gatewayTypes (VObj []) in
  let params := VObj [ ("home_id", homeId); ("gateway_types", gatewayTypes) ] in
  result <- request w fuel HTTP_GET "/api/homesdata" params VNull false ;;
  body <- member result "body" ;;
  member body "homes".

(** [getHomeStatus(homeId, gatewayTypes = {})] *)
Definition getHomeStatus (fuel : nat) (homeId gatewayTypes : value) : guarded value :=
  fun s =>
    let gatewayTypes := or_default gatewayTypes (VObj []) in
    if negb (truthy homeId) then inl MissingHomeId
    else
      let params := VObj [ ("home_id", homeId); ("gateway_types", gatewayTypes) ] in
      inr ((result <- request w fuel HTTP_GET "/api/homestatus" params VNull false ;;
            body <- member result "body" ;;
            member body "home") s).

(** [getStationsData(deviceId, getFavorites = false)] *)
Definition getStationsData (fuel : nat) (deviceId getFavorites : value) : M value :=
  let getFavorites := or_default getFavorites (VBool false) in
  let params := VObj [ ("device_id", deviceId); ("get_favorites", getFavorites) ] in
  result <- request w fuel HTTP_GET "/api/getstationsdata" params VNull false ;;
  body <- member result "body" ;;
  member body "devices".

(** [getMeasure(deviceId, moduleId, mScale, mType, dBegin, dEnd, mLimit,
    rOptimize = true, rTime = false)] *)
Definition getMeasure (fuel : nat)
    (deviceId moduleId mScale mType dBegin dEnd mLimit rOptimize rTime : value)
    : guarded value :=
  fun s =>
    let rOptimize := or_default rOptimize (VBool true) in
    let rTime := or_default rTime (VBool false) in
    if negb (truthy deviceId) || negb (truthy mScale) || negb (truthy mType)
    then inl MissingMeasureParams
    else
      let params :=
        VObj [ ("device_id", deviceId); ("module_id", moduleId); ("scale", mScale);
               ("type", mType); ("date_begin", dBegin); ("date_end", dEnd);
               ("limit", mLimit); ("optimize", rOptimize); ("real_time", rTime) ] in
      inr ((result <- request w fuel HTTP_GET "/api/getmeasure" params VNull false ;;
            member result "body") s).

(** [getHomeCoachData(deviceId)] *)
Definition getHomeCoachData (fuel : nat) (deviceId : value) : M value :=
  let params := VObj [ ("device_id", deviceId) ] in
  result <- request w fuel HTTP_GET "/api/gethomecoachsdata" params VNull false ;;
  body <- member result "body" ;;
  member body "devices".

End WithWorld.

End Api.

(* ===================================================================== *)
(** ** Poll orchestrator *)
(* ===================================================================== *)

Module Poller.

(** The calls of [logger.debug] of [pollData]. *)
Inductive debug_entry : Type :=
| StationData (station : value)   (* 'Station data: ' + JSON.stringify(station) *)
| AircareData (aircare : value).  (* 'Aircare data: ' + JSON.stringify(aircare) *)

(** What [startPolling] registers with the runtime. *)
Inductive registration : Type :=
| SetIntervalPollData (delay : Z)
    (* this.intervalId = setInterval(this.pollData.bind(this), delay) *)
| OnSignalClearInterval (signal : string).
    (* process.on(signal, () => clearInterval(this.intervalId)) *)

(** The client with what it has emitted, logged and registered, each
    oldest first. *)
Record runtime : Type := mkRuntime {
  client_state : Client.state;
  emitted : Normalizer.effects;
  debug_log : list debug_entry;
  registered : list registration
}.

Inductive result (A : Type) : Type :=
| Done (a : A) (rt : runtime)
| Failed (e : exn) (rt : runtime)
| NoResult (why : Client.stuck).
Arguments Done {A} a rt.
Arguments Failed {A} e rt.
Arguments NoResult {A} why.

Definition P (A : Type) : Type := runtime -> result A.

Definition ret {A} (a : A) : P A := fun rt => Done a rt.
Definition throw {A} (e : exn) : P A := fun rt => Failed e rt.
Definition bind {A B} (c : P A) (k : A -> P B) : P B :=
  fun rt =>
    match c rt with
    | Done a rt' => k a rt'
    | Failed e rt' => Failed e rt'
    | NoResult why => NoResult why
    end.

Notation "x <- c ;; k" := (bind c (fun x => k))
  (at level 61, c at next level, right associativity).
Notation "c ;;; k" := (bind c (fun _ => k))
  (at level 61, right associativity).

(** A method of the client, run on the client's part of the runtime. *)
Definition lift_client {A} (c : Client.M A) : P A :=
  fun rt =>
    match c (client_state rt) with
    | Client.Returned a s => Done a (mkRuntime s (emitted rt) (debug_log rt) (registered rt))
    | Client.Threw e s => Failed e (mkRuntime s (emitted rt) (debug_log rt) (registered rt))
    | Client.Stuck why => NoResult why
    end.

(** A method of the normalizer, run on the emitted frames and warnings. *)
Definition lift_normalizer {A} (c : Normalizer.M A) : P A :=
  fun rt =>
    match c (emitted rt) with
    | (Normal a, fx) =>
        Done a (mkRuntime (client_state rt) fx (debug_log rt) (registered rt))
    | (Thrown e, fx) =>
        Failed e (mkRuntime (client_state rt) fx (debug_log rt) (registered rt))
    end.

Definition debug (entry : debug_entry) : P unit :=
  fun rt => Done tt (mkRuntime (client_state rt) (emitted rt)
                               (debug_log rt ++ [entry]) (registered rt)).

Definition register (r : registration) : P unit :=
  fun rt => Done tt (mkRuntime (client_state rt) (emitted rt) (debug_log rt)
                               (registered rt ++ [r])).

Fixpoint for_each (body : value -> P unit) (items : list value) : P unit :=
  match items with
  | [] => ret tt
  | x :: rest => body x ;;; for_each body rest
  end.

(** [for (let i = 0, len = items.length; i < len; i++) body(items[i])]:
    reading [length] of [undefined] or [null] throws a TypeError. *)
Definition for_loop (items : value) (body : value -> P unit) : P unit :=
  if nullish items then throw TypeError
  else for_each body (array_like_items items).

Section WithWorld.

Variable w : Client.world.

(** [pollData()] *)
Definition pollData (fuel : nat) : P unit :=
  stations <- lift_client (Api.getStationsData w fuel VUndefined VUndefined) ;;
  for_loop stations (fun station =>
    debug (StationData station) ;;;
    lift_normalizer (Normalizer.processStation station)) ;;;
  aircares <- lift_client (Api.getHomeCoachData w fuel VUndefined) ;;
  for_loop aircares (fun aircare =>
    debug (AircareData aircare) ;;;
    lift_normalizer (Normalizer.processAircare aircare)).

(** [startPolling()] *)
Definition startPolling (fuel : nat) : P unit :=
  lift_client (Client.connect w fuel VUndefined VUndefined (Client.Seconds 0)) ;;;
  pollData fuel ;;;
  register (SetIntervalPollData 60000) ;;;
  register (OnSignalClearInterval "SIGTERM") ;;;
  register (OnSignalClearInterval "SIGINT").

End WithWorld.

End Poller.

(* ===================================================================== *)
(** ** The rename table of the specification *)
(* ===================================================================== *)

Module Spec.

(** The rename table as the specification lists it (section 4.4), in its
    order: 24 entries. *)
Definition spec_rename_table : list (string * string) :=
  [ ("Temperature", "temperature");
    ("temp_trend", "temptrend");
    ("Pressure", "pressure");
    ("AbsolutePressure", "pressureabs");
    ("pressure_trend", "pressuretrend");
    ("Humidity", "humidity");
    ("CO2", "co2");
    ("Noise", "noise");
    ("Rain", "rain");
    ("sum_rain_1", "sumrain1");
    ("sum_rain_24", "sumrain24");
    ("WindStrength", "windstrength");
    ("WindAngle", "windangle");
    ("GustStrength", "guststrength");
    ("GustAngle", "gustangle");
    ("health_idx", "healthidx");
    ("min_temp", "mintemp");
    ("max_temp", "maxtemp");
    ("date_min_temp", "mintemputc");
    ("date_max_temp", "maxtemputc");
    ("max_wind_str", "windstrenghtmax");
    ("max_wind_angle", "windanglemax");
    ("date_max_wind_str", "windmaxutc");
    ("time_utc", "timeutc") ].

(** The normalizer the specification describes: the same presence-based
    copy, driven by the table above. *)
Definition spec_processMeasure (measure : value) : completion obj :=
  if nullish measure then Thrown TypeError
  else Normal (fold_left (Normalizer.copy_if_present measure) spec_rename_table []).

End Spec.

(* ===================================================================== *)
(** ** Fixtures of the test suite (tests/netatmo.test.js) *)
(* ===================================================================== *)

Module Fixtures.

(** [dashboard_data] of the test 'process measure of station'. *)
Definition all_values_measure : value :=
  VObj [ ("time_utc", VNum 1555677739); ("Temperature", VNum (237 # 10));
         ("CO2", VNum 967); ("Humidity", VNum 41); ("Noise", VNum 42);
         ("Pressure", VNum (9976 # 10)); ("AbsolutePressure", VNum (10174 # 10));
         ("min_temp", VNum (212 # 10)); ("max_temp", VNum (274 # 10));
         ("date_min_temp", VNum 1555631374); ("date_max_temp", VNum 1555662436);
         ("temp_trend", VStr "up"); ("pressure_trend", VStr "up");
         ("Rain", VNum 0); ("sum_rain_24", VNum 0); ("sum_rain_1", VNum 0);
         ("WindStrength", VNum 2); ("WindAngle", VNum 75);
         ("GustStrength", VNum 3); ("GustAngle", VNum 75);
         ("max_wind_str", VNum 4); ("max_wind_angle", VNum 100);
         ("date_max_wind_str", VNum 1555673190); ("co2", VNum 967);
         ("health_idx", VNum 1) ].

(** The [output] that test expects ([toStrictEqual], any key order). *)
Definition all_values_output : obj :=
  [ ("co2", VNum 967); ("gustangle", VNum 75); ("guststrength", VNum 3);
    ("healthidx", VNum 1); ("humidity", VNum 41); ("maxtemp", VNum (274 # 10));
    ("maxtemputc", VNum 1555662436); ("mintemp", VNum (212 # 10));
    ("mintemputc", VNum 1555631374); ("noise", VNum 42);
    ("pressure", VNum (9976 # 10)); ("pressureabs", VNum (10174 # 10));
    ("pressuretrend", VStr "up"); ("rain", VNum 0); ("sumrain1", VNum 0);
    ("sumrain24", VNum 0); ("temperature", VNum (237 # 10));
    ("temptrend", VStr "up"); ("timeutc", VNum 1555677739);
    ("windangle", VNum 75); ("windanglemax", VNum 100);
    ("windstrenghtmax", VNum 4); ("windmaxutc", VNum 1555673190);
    ("windstrength", VNum 2) ].

(** [dashboard_data] of the outdoor module of [stationData], and the
    measurements of the frame that the test 'process Weather Station :
    Outdoor' expects for it ([toHaveBeenCalledWith], any key order). *)
Definition outdoor_measure : value :=
  VObj [ ("time_utc", VNum 1555677739); ("Temperature", VNum (237 # 10));
         ("Humidity", VNum 41); ("min_temp", VNum (212 # 10));
         ("max_temp", VNum (274 # 10)); ("date_min_temp", VNum 1555631374);
         ("date_max_temp", VNum 1555662436); ("temp_trend", VStr "up") ].

Definition outdoor_output : obj :=
  [ ("humidity", VNum 41); ("maxtemp", VNum (274 # 10));
    ("maxtemputc", VNum 1555662436); ("mintemp", VNum (212 # 10));
    ("mintemputc", VNum 1555631374); ("timeutc", VNum 1555677739);
    ("temperature", VNum (237 # 10)); ("temptrend", VStr "up") ].

(** The rain gauge of the specification's example (section 8). *)
Definition rain_example : value :=
  VObj [ ("Temperature", VNum (237 # 10)); ("Humidity", VNum 41); ("Rain", VNum 0) ].

(** The station of the test 'process Weather Station with no Modules'. *)
Definition noModules_fields : obj :=
       [ ("_id", VStr "70:ee:50:22:a3:00"); ("type", VStr "NAMain");
         ("module_name", VStr "Indoor"); ("firmware", VNum 137);
         ("wifi_status", VNum 55); ("reachable", VBool true);
         ("co2_calibrating", VBool false); ("station_name", VStr "Casa");
         ("home_id", VStr "594xxxxxxxxxdb"); ("home_name", VStr "Home");
         ("dashboard_data",
           VObj [ ("time_utc", VNum 1555677739); ("Temperature", VNum (237 # 10));
                  ("CO2", VNum 967); ("Humidity", VNum 41); ("Noise", VNum 42);
                  ("Pressure", VNum (9976 # 10));
                  ("AbsolutePressure", VNum (10174 # 10));
                  ("min_temp", VNum (212 # 10)); ("max_temp", VNum (274 # 10));
                  ("date_min_temp", VNum 1555631374);
                  ("date_max_temp", VNum 1555662436);
                  ("temp_trend", VStr "up"); ("pressure_trend", VStr "up") ]);
         ("modules", VArr []) ].

Definition noModules_station : value := VObj noModules_fields.

(** A station with its rain gauge and its wind module, after [stationData]. *)
Definition rain_module : value :=
  VObj [ ("_id", VStr "06:00:00:02:47:03"); ("type", VStr "NAModule3");
         ("module_name", VStr "Rain gauge"); ("reachable", VBool true);
         ("firmware", VNum 19); ("rf_status", VNum 31); ("battery_vp", VNum 5148);
         ("battery_percent", VNum 58);
         ("dashboard_data",
           VObj [ ("time_utc", VNum 1555677734); ("Rain", VNum 0);
                  ("sum_rain_24", VNum 0); ("sum_rain_1", VNum 0) ]) ].

Definition wind_module : value :=
  VObj [ ("_id", VStr "06:00:00:02:47:02"); ("type", VStr "NAModule2");
         ("module_name", VStr "Wind Module"); ("battery_percent", VNum 58);
         ("reachable", VBool true); ("firmware", VNum 19); ("rf_status", VNum 31);
         ("battery_vp", VNum 5148);
         ("dashboard_data",
           VObj [ ("time_utc", VNum 1555677734); ("WindStrength", VNum 2);
                  ("WindAngle", VNum 75); ("GustStrength", VNum 3);
                  ("GustAngle", VNum 75); ("max_wind_str", VNum 4);
                  ("max_wind_angle", VNum 100);
                  ("date_max_wind_str", VNum 1555673190) ]) ].

Definition station_fields : obj :=
  [ ("_id", VStr "70:ee:50:22:a3:00"); ("type", VStr "NAMain");
    ("wifi_status", VNum 55); ("station_name", VStr "Casa");
    ("home_name", VStr "Home");
    ("dashboard_data", VObj [ ("Temperature", VNum (237 # 10)); ("CO2", VNum 967) ]) ].

Definition two_modules_fields : obj :=
  station_fields ++ [ ("modules", VArr [rain_module; wind_module]) ].

Definition two_modules_station : value := VObj two_modules_fields.

(** Payloads with parts missing: a station that sends no [dashboard_data]
    with an empty module list, one that sends neither [dashboard_data] nor
    [modules], and one whose second module sends no [dashboard_data]. *)
Definition station_without_dashboard : value :=
  VObj [ ("_id", VStr "70:ee:50:22:a3:00"); ("station_name", VStr "Casa");
         ("reachable", VBool false); ("modules", VArr []) ].

Definition station_without_dashboard_and_modules : value :=
  VObj [ ("_id", VStr "70:ee:50:22:a3:00"); ("station_name", VStr "Casa");
         ("reachable", VBool false) ].

Definition station_with_silent_module : value :=
  VObj (station_fields ++
        [ ("modules",
            VArr [ rain_module;
                   VObj [ ("_id", VStr "06:00:00:02:47:02"); ("type", VStr "NAModule2");
                          ("module_name", VStr "Wind Module");
                          ("reachable", VBool false) ] ]) ]).

(** The air-quality device of the test 'process Aircare', without its
    [reachable] field. *)
Definition aircare_fields : obj :=
  [ ("_id", VStr "70:ee:50:22:a3:00"); ("type", VStr "NHC");
    ("module_name", VStr "string"); ("wifi_status", VNum 22);
    ("station_name", VStr "Bedroom");
    ("dashboard_data", VObj [ ("Temperature", VNum (237 # 10)); ("CO2", VNum 967) ]) ].

(** [authResult] *)
Definition authResult : value :=
  VObj [ ("access_token", VStr "2YotnFZFEjr1zCsicMWpAA");
         ("expires_in", VNum 10800);
         ("refresh_token", VStr "tGzv3JOkF0XG5Qx2TlKWIA") ].

(** The client of the suite 'Request', as constructed and once
    [connect(authResult.access_token, authResult.refresh_token, 3600 + Date.now() / 1000)]
    has adopted the token, at the clock reading 1555677739000 ms. *)
Definition test_client : Client.client :=
  Client.mkClient (VStr "clientId") (VStr "clientSecret") []
                  (VStr "user") (VStr "password") VNull VNull (Client.Seconds 0).

Definition fresh_state : Client.state := Client.mkState test_client [] 0.

Definition connected_client : Client.client :=
  Client.mkClient (VStr "clientId") (VStr "clientSecret") []
                  (VStr "user") (VStr "password")
                  (VStr "2YotnFZFEjr1zCsicMWpAA") (VStr "tGzv3JOkF0XG5Qx2TlKWIA")
                  (Client.Seconds 1555681339).

Definition connected_state : Client.state := Client.mkState connected_client [] 1.

(** The answers of the mock adapter of that suite (the description of
    '/authError' without the quotation marks around its two field names). *)
Definition status_error (status : Z) (message : string) (data : value) : Client.axios_outcome :=
  Client.Rejected (Client.mkAxiosError message (Some (Client.mkResponse status data))).

Definition expired_response : Client.response :=
  Client.mkResponse 401
    (VObj [ ("error", VObj [ ("code", VNum 3); ("message", VStr "Access token expired") ]) ]).

Definition expired_error : Client.axios_error :=
  Client.mkAxiosError "Request failed with status code 401" (Some expired_response).

Definition token_expired_401 : Client.axios_outcome := Client.Rejected expired_error.

Definition mock_answer (expired_again : bool) (n : nat) (c : Client.config)
    : Client.axios_outcome :=
  let path := Client.url c in
  if String.eqb path "/oauth2/token" then Client.Fulfilled authResult
  else if String.eqb path "/tokenExpired401" then
    if Nat.eqb n 0 || expired_again then token_expired_401
    else Client.Fulfilled (VObj [ ("body", VStr "401") ])
  else if String.eqb path "/timeout" then
    Client.Rejected (Client.mkAxiosError "timeout of 0ms exceeded" None)
  else if String.eqb path "/authError" then
    status_error 400 "Request failed with status code 400"
      (VObj [ ("error", VStr "invalid_request");
              ("error_description",
                VStr "Missing parameters, username and password are required") ])
  else if String.eqb path "/appError" then
    status_error 400 "Request failed with status code 400"
      (VObj [ ("error", VObj [ ("code", VNum 1);
                               ("message", VStr "Access token is missing") ]) ])
  else if String.eqb path "/noMessageError" then
    status_error 500 "Request failed with status code 500"
      (VObj [ ("error", VObj [ ("code", VNum 99) ]) ])
  else status_error 404 "Request failed with status code 404" VUndefined.

Definition mock_world (expired_again : bool) : Client.world :=
  Client.mkWorld (mock_answer expired_again) (fun _ => 1555677739000%Z).



End Fixtures.

(* ===================================================================== *)
(** ** Predicates and tactics of the properties *)
(* ===================================================================== *)

(** The configuration [request] hands to [axios] for a client [c]. *)
Definition request_config (c : Client.client) (method path : string)
    (params data : value) : Client.config :=
  Client.mkConfig (Client.requestConfig c) method Client.baseURL path
    (if String.eqb path Client.PATH_AUTH then None
     else Some (Client.Bearer (Client.accessToken c)))
    (if truthy data then Some (Client.URLSearchParams data) else None)
    (if truthy params then Some params else None).

(** The state once the request [cfg] has been handed to [axios]. *)
Definition after_send (cfg : Client.config) (s : Client.state) : Client.state :=
  Client.mkState (Client.this s) (Client.sent s ++ [cfg]) (Client.clock_reads s).

(** The state once the clock has been read. *)
Definition after_clock_read (s : Client.state) : Client.state :=
  Client.mkState (Client.this s) (Client.sent s) (S (Client.clock_reads s)).

Definition with_this (c : Client.client) (s : Client.state) : Client.state :=
  Client.mkState c (Client.sent s) (Client.clock_reads s).

(** The form of the refresh-token grant and of the password grant. *)
Definition refresh_token_form (c : Client.client) (refreshToken : value) : value :=
  VObj [ ("grant_type", VStr "refresh_token");
         ("client_id", Client.clientId c);
         ("client_secret", Client.clientSecret c);
         ("refresh_token", refreshToken) ].

Definition password_form (c : Client.client) : value :=
  VObj [ ("grant_type", VStr "password");
         ("client_id", Client.clientId c);
         ("client_secret", Client.clientSecret c);
         ("username", Client.username c);
         ("password", Client.password c);
         ("scope", VStr "read_station read_homecoach") ].

(** The request of a grant: a POST of its form to the token endpoint. *)
Definition token_request (c : Client.client) (form : value) : Client.config :=
  request_config c Client.HTTP_POST Client.PATH_AUTH VNull form.

(** An authentication result [setToken] accepts: truthy tokens and an
    [expires_in] that is a number other than 0. *)
Definition accepted_authentication (authentication : value) (expires_in : Q) : Prop :=
  nullish authentication = false /\
  truthy (get authentication "access_token") = true /\
  truthy (get authentication "refresh_token") = true /\
  get authentication "expires_in" = VNum expires_in /\
  ~ (expires_in == 0)%Q.

(** An authentication result [setToken] accepts, whatever the type of its
    [expires_in]: it is not null and its three fields are truthy. *)
Definition accepted (authentication : value) : bool :=
  negb (nullish authentication)
  && truthy (get authentication "access_token")
  && truthy (get authentication "refresh_token")
  && truthy (get authentication "expires_in").

(** The client [c] with the tokens of [authentication] in place of its own,
    the clock reading [ms] at the time. *)
Definition authenticated (authentication : value) (ms : Z) (c : Client.client)
    : Client.client :=
  Client.mkClient (Client.clientId c) (Client.clientSecret c) (Client.requestConfig c)
                  (Client.username c) (Client.password c)
                  (get authentication "access_token")
                  (get authentication "refresh_token")
                  (Client.seconds_plus (ms / 1000) (get authentication "expires_in")).

(** The error [request] throws for a rejection outside the expired-token
    branch. *)
Definition rejection (path : string) (e : Client.axios_error) : exn :=
  let axios_error := RequestFailed path (Text (Client.message e)) None in
  match Client.e_response e with
  | Some r =>
      if truthy (Client.data r) then
        match Client.classify path r with
        | Some err => err
        | None => axios_error
        end
      else axios_error
  | None => axios_error
  end.

(** The client once [setToken] has stored [authentication], read at [ms]. *)
Definition token_stored (authentication : value) (expires_in : Q) (ms : Z)
    (c : Client.client) : Client.client :=
  Client.set_expiresInTimestamp (Client.Seconds (inject_Z (ms / 1000) + expires_in))
    (Client.set_refreshToken (get authentication "refresh_token")
       (Client.set_accessToken (get authentication "access_token") c)).

(** The requests of [s'] are those of [s] and then some. *)
Definition extends (s s' : Client.state) : Prop :=
  exists more, Client.sent s' = Client.sent s ++ more.

Definition grows {A} (c : Client.M A) : Prop :=
  forall s,
    match c s with
    | Client.Returned _ s' | Client.Threw _ s' => extends s s'
    | Client.Stuck _ => True
    end.

(** [online] is 1 or 0. *)
Definition online_flag (record : obj) : Prop :=
  obj_lookup "online" record = Some (VNum 1) \/ obj_lookup "online" record = Some (VNum 0).

(** The entries of a rename table whose source key an object has, each
    as the destination key with the source's value, in the table's order. *)
Definition present_entries (o : obj) (table : list (string * string)) : obj :=
  flat_map (fun entry =>
              match obj_lookup (fst entry) o with
              | Some v => [(snd entry, v)]
              | None => []
              end) table.

(** The record [processMeasure] returns; empty where it throws. *)
Definition normalized (measure : value) : obj :=
  match Normalizer.processMeasure measure with
  | Normal data => data
  | Thrown _ => []
  end.

(** The records of a station, of one of its modules and of an air-quality
    device: the normalized measurement, then the identity fields. *)
Definition station_record (station : value) : obj :=
  normalized (get station "dashboard_data") ++
  [ ("id", get station "_id");
    ("name", get station "station_name");
    ("type", get station "type");
    ("home", get station "home_name");
    ("online", Normalizer.one_or_zero (get station "reachable"));
    ("wifistatus", get station "wifi_status") ].

Definition module_record (station module : value) : obj :=
  normalized (get module "dashboard_data") ++
  [ ("id", get module "_id");
    ("name", get module "module_name");
    ("type", get module "type");
    ("home", get station "home_name");
    ("online", Normalizer.one_or_zero (get module "reachable"));
    ("rfstatus", get module "rf_status");
    ("battery", get module "battery_percent") ].

Definition aircare_record (aircare : value) : obj :=
  normalized (get aircare "dashboard_data") ++
  [ ("id", get aircare "_id");
    ("name", get aircare "station_name");
    ("type", get aircare "type");
    ("module", get aircare "module_name");
    ("online", Normalizer.one_or_zero (get aircare "reachable"));
    ("wifistatus", get aircare "wifi_status") ].

(** A device payload the normalizer accepts: it is not null and carries
    [dashboard_data]. *)
Definition device_ok (device : value) : bool :=
  negb (nullish device) && negb (nullish (get device "dashboard_data")).

(** The modules the loop of [processStation] visits. *)
Definition modules_of (station : value) : list value :=
  if Lodash.isEmpty (get station "modules") then []
  else array_like_items (get station "modules").

(** The modules the loop gets through: those before the first one the
    normalizer does not accept. *)
Fixpoint accepted_prefix (modules : list value) : list value :=
  match modules with
  | [] => []
  | m :: rest => if device_ok m then m :: accepted_prefix rest else []
  end.

(** A station whose [modules], when it has any, is an array. *)
Definition modules_in_array (station : value) : bool :=
  match get station "modules" with
  | VUndefined | VNull | VArr _ => true
  | _ => false
  end.

(** A station payload the normalizer gets through: it carries
    [dashboard_data], its modules are in an array, and each of them carries
    [dashboard_data]. *)
Definition station_ok (station : value) : bool :=
  device_ok station && modules_in_array station && forallb device_ok (modules_of station).

Definition station_frames (station : value) : list obj :=
  station_record station :: map (module_record station) (modules_of station).

Definition station_warnings (station : value) : list Normalizer.log_entry :=
  if Lodash.isEmpty (get station "modules")
  then [Normalizer.WarnNoModules (get station "station_name")]
  else [].

(** A request is sent for a path when it is the token endpoint or the client
    holds a truthy access token. *)
Definition sendable (s : Client.state) (path : string) : bool :=
  String.eqb path Client.PATH_AUTH || truthy (Client.accessToken (Client.this s)).

(** A request carries no authorization to the token endpoint and a truthy
    bearer token anywhere else. *)
Definition authorized (c : Client.config) : Prop :=
  if String.eqb (Client.url c) Client.PATH_AUTH then Client.Authorization c = None
  else exists token, Client.Authorization c = Some (Client.Bearer token) /\
                     truthy token = true.

(** Every run of [c] that has a final state relates it to the initial one
    by [Q], and throws only errors in [E]. *)
Definition ensures {A} (Q : Client.state -> Client.state -> Prop) (E : exn -> Prop)
    (c : Client.M A) : Prop :=
  forall s,
    match c s with
    | Client.Returned _ s' => Q s s'
    | Client.Threw e s' => Q s s' /\ E e
    | Client.Stuck _ => True
    end.

(** The requests [s'] has beyond those of [s] all satisfy [ok]. *)
Definition sends_only (ok : Client.config -> Prop) (s s' : Client.state) : Prop :=
  exists more, Client.sent s' = Client.sent s ++ more /\ Forall ok more.

(** The two requests of [pollData], for a client [c]. *)
Definition stations_request (c : Client.client) : Client.config :=
  request_config c Client.HTTP_GET "/api/getstationsdata"
    (VObj [ ("device_id", VUndefined); ("get_favorites", VBool false) ]) VNull.

Definition homecoach_request (c : Client.client) : Client.config :=
  request_config c Client.HTTP_GET "/api/gethomecoachsdata"
    (VObj [ ("device_id", VUndefined) ]) VNull.

(** What one pass of [pollData] leaves when both lists arrive and every
    device is accepted. *)
Definition polled (rt : Poller.runtime) (stations aircares : list value) : Poller.runtime :=
  let s := Poller.client_state rt in
  Poller.mkRuntime
    (Client.mkState (Client.this s)
       (Client.sent s ++ [stations_request (Client.this s); homecoach_request (Client.this s)])
       (Client.clock_reads s))
    (Normalizer.mkEffects
       (Normalizer.frames (Poller.emitted rt) ++ flat_map station_frames stations
                                              ++ map aircare_record aircares)
       (Normalizer.warnings (Poller.emitted rt) ++ flat_map station_warnings stations))
    (Poller.debug_log rt ++ map Poller.StationData stations
                         ++ map Poller.AircareData aircares)
    (Poller.registered rt).

(** What [startPolling] registers, in order. *)
Definition polling_registrations : list Poller.registration :=
  [ Poller.SetIntervalPollData 60000;
    Poller.OnSignalClearInterval "SIGTERM";
    Poller.OnSignalClearInterval "SIGINT" ].

(** Every run of [c] that has a final runtime leaves the registrations as
    they were. *)
Definition keeps_registered {A} (c : Poller.P A) : Prop :=
  forall rt,
    match c rt with
    | Poller.Done _ rt' | Poller.Failed _ rt' =>
        Poller.registered rt' = Poller.registered rt
    | Poller.NoResult _ => True
    end.

(** What a wrapper makes of the data of a fulfilled request: the member
    [k] of its [body], or a TypeError when the data or its [body] is
    undefined or null. *)
Definition unwrapped (result_data : value) (k : string) (s : Client.state)
    : Client.outcome value :=
  if nullish result_data || nullish (get result_data "body")
  then Client.Threw TypeError s
  else Client.Returned (get (get result_data "body") k) s.

(** Fixtures of the further properties: the vendor envelope around a device
    list, and a server that answers the token endpoint and the two polls. *)
Definition devices_envelope (devices : value) : value :=
  VObj [ ("body", VObj [ ("devices", devices) ]) ].

Definition poll_answer (n : nat) (c : Client.config) : Client.axios_outcome :=
  let path := Client.url c in
  if String.eqb path "/oauth2/token" then Client.Fulfilled Fixtures.authResult
  else if String.eqb path "/api/getstationsdata" then
    Client.Fulfilled
      (devices_envelope (VArr [Fixtures.two_modules_station; Fixtures.noModules_station]))
  else if String.eqb path "/api/gethomecoachsdata" then
    Client.Fulfilled (devices_envelope (VArr [VObj Fixtures.aircare_fields]))
  else Fixtures.status_error 404 "Request failed with status code 404" VUndefined.

Definition poll_world : Client.world :=
  Client.mkWorld poll_answer (fun _ => 1555677739000%Z).

(** A server whose token endpoint is down while '/tokenExpired401' keeps
    answering that the token has expired. *)
Definition outage_answer (n : nat) (c : Client.config) : Client.axios_outcome :=
  if String.eqb (Client.url c) "/oauth2/token" then
    Fixtures.status_error 500 "Request failed with status code 500"
      (VObj [ ("error", VObj [ ("code", VNum 99) ]) ])
  else Fixtures.token_expired_401.

Definition outage_world : Client.world :=
  Client.mkWorld outage_answer (fun _ => 1555677739000%Z).

(** The client of the suite once [connect(authResult.access_token, undefined,
    3600 + Date.now() / 1000)] has adopted the token: no refresh token. *)
Definition connected_without_refresh : Client.state :=
  Client.mkState
    (Client.mkClient (VStr "clientId") (VStr "clientSecret") []
                     (VStr "user") (VStr "password")
                     (VStr "2YotnFZFEjr1zCsicMWpAA") VNull (Client.Seconds 1555681339))
    [] 1.

(** A server whose second station sends no [dashboard_data]. *)
Definition broken_poll_answer (n : nat) (c : Client.config) : Client.axios_outcome :=
  if String.eqb (Client.url c) "/api/getstationsdata" then
    Client.Fulfilled
      (devices_envelope
         (VArr [ Fixtures.noModules_station; Fixtures.station_without_dashboard;
                 Fixtures.two_modules_station ]))
  else poll_answer n c.

Definition broken_poll_world : Client.world :=
  Client.mkWorld broken_poll_answer (fun _ => 1555677739000%Z).

Definition fresh_runtime : Poller.runtime :=
  Poller.mkRuntime Fixtures.fresh_state Normalizer.no_effects [] [].

Definition connected_runtime : Poller.runtime :=
  Poller.mkRuntime Fixtures.connected_state Normalizer.no_effects [] [].

(* ===================================================================== *)
(** * Properties *)
(* ===================================================================== *)

(** ** Objects *)

Section ObjectFacts.

Lemma obj_lookup_set_same (k : string) (v : value) (o : obj) :
  obj_lookup k (obj_set k v o) = Some v.
Proof.
  induction o as [|[k' v'] rest IH]; simpl.
  - now rewrite String.eqb_refl.
  - destruct (String.eqb k k') eqn:E; simpl.
    + now rewrite String.eqb_refl.
    + now rewrite E.
Qed.

Lemma obj_lookup_set_other (k k' : string) (v : value) (o : obj) :
  k <> k' -> obj_lookup k' (obj_set k v o) = obj_lookup k' o.
Proof.
  intros Hne. induction o as [|[k0 v0] rest IH]; simpl.
  - destruct (String.eqb_spec k' k); congruence.
  - destruct (String.eqb_spec k k0) as [->|Hk]; simpl.
    + destruct (String.eqb_spec k' k0); congruence.
    + destruct (String.eqb_spec k' k0); congruence.
Qed.

Lemma keys_obj_set (k : string) (v : value) (o : obj) :
  keys (obj_set k v o) = if in_dec string_dec k (keys o) then keys o else keys o ++ [k].
Proof.
  unfold keys. induction o as [|[k0 v0] rest IH]; simpl.
  - reflexivity.
  - destruct (String.eqb_spec k k0) as [->|Hk]; simpl.
    + destruct (string_dec k0 k0); [reflexivity | congruence].
    + rewrite IH. destruct (string_dec k0 k) as [Heq|Hne]; [congruence|].
      destruct (in_dec string_dec k (map fst rest)); reflexivity.
Qed.

Lemma NoDup_keys_obj_set (k : string) (v : value) (o : obj) :
  NoDup (keys o) -> NoDup (keys (obj_set k v o)).
Proof.
  intros Hnd. rewrite keys_obj_set.
  destruct (in_dec string_dec k (keys o)) as [|Hnot]; [assumption|].
  apply NoDup_app; [assumption | repeat constructor; intros [] | ].
  intros x Hx [<-|[]]. contradiction.
Qed.

Lemma in_keys_obj_set (k x : string) (v : value) (o : obj) :
  In x (keys (obj_set k v o)) -> x = k \/ In x (keys o).
Proof.
  rewrite keys_obj_set.
  destruct (in_dec string_dec k (keys o)); [now right|].
  rewrite in_app_iff. simpl. intuition.
Qed.

Lemma obj_lookup_none_iff (k : string) (o : obj) :
  obj_lookup k o = None <-> ~ In k (keys o).
Proof.
  unfold keys. induction o as [|[k0 v0] rest IH]; simpl.
  - intuition.
  - destruct (String.eqb_spec k k0) as [->|Hk].
    + split; [discriminate | intros H; exfalso; apply H; now left].
    + rewrite IH. intuition congruence.
Qed.

End ObjectFacts.

(** ** processMeasure *)

Section MeasureFacts.

Import Normalizer.

Variable measure : value.

Lemma fold_copy_untouched (table : list (string * string)) (data : obj) (dst : string) :
  ~ In dst (map snd table) ->
  obj_lookup dst (fold_left (copy_if_present measure) table data) = obj_lookup dst data.
Proof.
  revert data. induction table as [|[src d] rest IH]; intros data Hnot; simpl.
  - reflexivity.
  - simpl in Hnot. rewrite IH by tauto.
    destruct (hasOwnProperty measure src); [|reflexivity].
    apply obj_lookup_set_other. intros ->. tauto.
Qed.

Lemma fold_copy_lookup (table : list (string * string)) (data : obj) (src dst : string) :
  NoDup (map snd table) ->
  In (src, dst) table ->
  obj_lookup dst (fold_left (copy_if_present measure) table data) =
    if hasOwnProperty measure src then Some (get measure src) else obj_lookup dst data.
Proof.
  revert data. induction table as [|[s d] rest IH]; intros data Hnd Hin; simpl.
  - destruct Hin.
  - simpl in Hnd. inversion Hnd as [|? ? Hfresh Hnd']; subst.
    destruct Hin as [Heq|Hin].
    + inversion Heq; subst. rewrite fold_copy_untouched by assumption.
      destruct (hasOwnProperty measure src); [apply obj_lookup_set_same | reflexivity].
    + rewrite IH by assumption.
      destruct (hasOwnProperty measure src); [reflexivity|].
      assert (d <> dst).
      { intros ->. apply Hfresh. change dst with (snd (src, dst)). now apply in_map. }
      destruct (hasOwnProperty measure s); [now apply obj_lookup_set_other | reflexivity].
Qed.

Lemma fold_copy_keys (table : list (string * string)) (data : obj) (k : string) :
  In k (keys (fold_left (copy_if_present measure) table data)) ->
  In k (keys data) \/ exists src, In (src, k) table /\ hasOwnProperty measure src = true.
Proof.
  revert data. induction table as [|[s d] rest IH]; intros data Hin; simpl in *.
  - now left.
  - apply IH in Hin. destruct Hin as [Hin|(src & Hin & Hown)].
    + destruct (hasOwnProperty measure s) eqn:Hown; [|now left].
      apply in_keys_obj_set in Hin. destruct Hin as [->|Hin]; [|now left].
      right. exists s. split; [now left | assumption].
    + right. exists src. split; [now right | assumption].
Qed.

Lemma fold_copy_NoDup (table : list (string * string)) (data : obj) :
  NoDup (keys data) -> NoDup (keys (fold_left (copy_if_present measure) table data)).
Proof.
  revert data. induction table as [|[s d] rest IH]; intros data Hnd; simpl.
  - assumption.
  - apply IH. destruct (hasOwnProperty measure s); [|assumption].
    now apply NoDup_keys_obj_set.
Qed.

End MeasureFacts.

Lemma hasOwnProperty_obj (o : obj) (k : string) :
  (if hasOwnProperty (VObj o) k then Some (get (VObj o) k) else None) = obj_lookup k o.
Proof. simpl. destruct (obj_lookup k o); reflexivity. Qed.

Lemma rename_table_NoDup : NoDup (map snd Normalizer.rename_table).
Proof.
  apply (NoDup_count_occ' string_dec). intros x Hx. simpl in Hx.
  repeat (destruct Hx as [<-|Hx]; [reflexivity|]). destruct Hx.
Qed.

Section NormalizerClaims.

Import Normalizer Spec Fixtures.

(** C7. [processMeasure] tests presence, not truthiness, but only for the 16
    keys of its own table. On every measurement object the call returns,
    and for every entry of the code's table the destination key holds
    exactly what the source key holds in the input (the same value, whatever
    it is, and nothing when the source is absent); every key of the result
    comes from an entry whose source is present, and no key occurs twice. A
    present [0] and a present [false] are copied, and on
    [{Temperature: 23.7, Humidity: 41, Rain: 0}] the result is exactly
    [{temperature: 23.7, humidity: 41, rain: 0}]. The 8 entries that the
    table of the specification has beyond the code's are never copied,
    whether their source is present or not: on the measurement of the
    outdoor module of the test suite [processMeasure] returns
    [temperature], [temptrend] and [humidity] and none of [mintemp],
    [maxtemp], [mintemputc], [maxtemputc], [timeutc], whose sources are
    present, while the presence test over the table of the specification
    yields the measurements the test 'process Weather Station : Outdoor'
    expects, key for key. *)
Theorem processMeasure_presence_test :
  (forall o : obj, exists data : obj,
      processMeasure (VObj o) = Normal data /\
      (forall src dst, In (src, dst) rename_table ->
                       obj_lookup dst data = obj_lookup src o) /\
      (forall src dst, In (src, dst) (skipn 16 spec_rename_table) ->
                       obj_lookup dst data = None) /\
      (forall k, In k (keys data) ->
                 exists src, In (src, k) rename_table /\ obj_lookup src o <> None) /\
      NoDup (keys data)) /\
  processMeasure (VObj [("Rain", VNum 0); ("Noise", VBool false)])
    = Normal [("noise", VBool false); ("rain", VNum 0)] /\
  processMeasure rain_example
    = Normal [("temperature", VNum (237 # 10)); ("humidity", VNum 41); ("rain", VNum 0)] /\
  processMeasure outdoor_measure
    = Normal [ ("temperature", VNum (237 # 10)); ("temptrend", VStr "up");
               ("humidity", VNum 41) ] /\
  (forall src dst, In (src, dst) (skipn 16 spec_rename_table) ->
     In src ["min_temp"; "max_temp"; "date_min_temp"; "date_max_temp"; "time_utc"] ->
     get outdoor_measure src <> VUndefined /\
     obj_lookup dst outdoor_output = Some (get outdoor_measure src)) /\
  (exists data, spec_processMeasure outdoor_measure = Normal data /\
     length data = length outdoor_output /\
     forall k, obj_lookup k data = obj_lookup k outdoor_output).
Proof.
  split; [|split; [reflexivity|split; [reflexivity|split; [reflexivity|split]]]].
  - intros o. eexists. split; [reflexivity|]. split; [|split; [|split]].
    + intros src dst Hin.
      rewrite (fold_copy_lookup (VObj o) rename_table [] src dst rename_table_NoDup Hin).
      apply hasOwnProperty_obj.
    + intros src dst Hin. rewrite fold_copy_untouched; [reflexivity|].
      simpl in Hin |- *.
      repeat (destruct Hin as [Heq|Hin];
              [injection Heq as <- <-; intros H;
               repeat (destruct H as [H|H]; [discriminate H|]); exact H|]).
      destruct Hin.
    + intros k Hk. apply fold_copy_keys in Hk. destruct Hk as [[]|(src & Hin & Hown)].
      exists src. split; [assumption|].
      simpl in Hown. destruct (obj_lookup src o); [discriminate | discriminate].
    + apply fold_copy_NoDup. constructor.
  - intros src dst Hin Hsrc. simpl in Hin.
    repeat (destruct Hin as [Heq|Hin];
            [injection Heq as <- <-;
             first [split; [discriminate | reflexivity]
                   | exfalso; simpl in Hsrc;
                     repeat (destruct Hsrc as [Hsrc|Hsrc]; [discriminate Hsrc|]);
                     exact Hsrc]|]).
    destruct Hin.
  - eexists. split; [reflexivity|]. split; [reflexivity|].
    intros k. cbv [spec_processMeasure]. simpl.
    repeat match goal with
           | |- context [String.eqb k ?s] =>
               destruct (String.eqb_spec k s) as [->|?]; [reflexivity|]
           end.
    reflexivity.
Qed.

Lemma processMeasure_presence_test_witness :
  obj_lookup "rain" [("temperature", VNum (237 # 10)); ("humidity", VNum 41); ("rain", VNum 0)]
    = Some (VNum 0) /\
  obj_lookup "sumrain1" [("temperature", VNum (237 # 10)); ("humidity", VNum 41); ("rain", VNum 0)]
    = None /\
  obj_lookup "mintemp" [ ("temperature", VNum (237 # 10)); ("temptrend", VStr "up");
                         ("humidity", VNum 41) ] = None /\
  obj_lookup "min_temp" [ ("time_utc", VNum 1555677739); ("Temperature", VNum (237 # 10));
                          ("Humidity", VNum 41); ("min_temp", VNum (212 # 10));
                          ("max_temp", VNum (274 # 10)); ("date_min_temp", VNum 1555631374);
                          ("date_max_temp", VNum 1555662436); ("temp_trend", VStr "up") ]
    <> None.
Proof.
  destruct processMeasure_presence_test as (Hall & _ & Hex & Hout & _).
  destruct (Hall [("Temperature", VNum (237 # 10)); ("Humidity", VNum 41); ("Rain", VNum 0)])
    as (data & Hrun & Hcopy & _).
  change (VObj _) with rain_example in Hrun. rewrite Hex in Hrun.
  injection Hrun as <-.
  destruct (Hall [ ("time_utc", VNum 1555677739); ("Temperature", VNum (237 # 10));
                   ("Humidity", VNum 41); ("min_temp", VNum (212 # 10));
                   ("max_temp", VNum (274 # 10)); ("date_min_temp", VNum 1555631374);
                   ("date_max_temp", VNum 1555662436); ("temp_trend", VStr "up") ])
    as (data & Hrun & _ & Hmissing & _).
  change (VObj _) with outdoor_measure in Hrun. rewrite Hout in Hrun.
  injection Hrun as <-.
  split; [|split; [|split]].
  - apply (Hcopy "Rain" "rain"). simpl. tauto.
  - apply (Hcopy "sum_rain_1" "sumrain1"). simpl. tauto.
  - apply (Hmissing "min_temp" "mintemp"). simpl. tauto.
  - discriminate.
Defined.

(** C1. The code's table stops after [health_idx]: it is the first 16 of
    the 24 entries of the specification. On the measurement of the test
    'process measure of station' the specified normalizer yields the
    expected output of that test, key for key, while [processMeasure]
    returns the 16 keys below and none of [mintemp], [maxtemp],
    [mintemputc], [maxtemputc], [windstrenghtmax], [windanglemax],
    [windmaxutc], [timeutc], which the test expects. *)
Theorem processMeasure_misses_spec_entries :
  rename_table = firstn 16 spec_rename_table /\
  processMeasure all_values_measure
    = Normal [ ("temperature", VNum (237 # 10)); ("temptrend", VStr "up");
               ("pressure", VNum (9976 # 10)); ("pressureabs", VNum (10174 # 10));
               ("pressuretrend", VStr "up"); ("humidity", VNum 41);
               ("co2", VNum 967); ("noise", VNum 42); ("rain", VNum 0);
               ("sumrain1", VNum 0); ("sumrain24", VNum 0);
               ("windstrength", VNum 2); ("windangle", VNum 75);
               ("guststrength", VNum 3); ("gustangle", VNum 75);
               ("healthidx", VNum 1) ] /\
  (forall data, processMeasure all_values_measure = Normal data ->
     forall src dst, In (src, dst) (skipn 16 spec_rename_table) ->
       obj_lookup dst data = None /\
       obj_lookup dst all_values_output = Some (get all_values_measure src)) /\
  (exists data, spec_processMeasure all_values_measure = Normal data /\
     length data = length all_values_output /\
     forall k, obj_lookup k data = obj_lookup k all_values_output).
Proof.
  split; [reflexivity|]. split; [reflexivity|]. split.
  - intros data Hrun src dst Hin. injection Hrun as <-.
    simpl in Hin.
    repeat (destruct Hin as [Heq|Hin]; [injection Heq as <- <-; split; reflexivity|]).
    destruct Hin.
  - eexists. split; [reflexivity|]. split; [reflexivity|].
    intros k. cbv [spec_processMeasure]. simpl.
    repeat match goal with
           | |- context [String.eqb k ?s] =>
               destruct (String.eqb_spec k s) as [->|?]; [reflexivity|]
           end.
    reflexivity.
Qed.

End NormalizerClaims.

(** ** processStation and processAircare *)

Ltac lookup_through_sets :=
  repeat (rewrite obj_lookup_set_other by discriminate);
  rewrite obj_lookup_set_same.

Section StationFacts.

Import Normalizer.

Lemma processMeasure_returns (measure : value) :
  nullish measure = false ->
  processMeasure measure = Normal (fold_left (copy_if_present measure) rename_table []).
Proof. intros H. unfold processMeasure. now rewrite H. Qed.

Lemma processMeasure_throws (measure : value) :
  nullish measure = true -> processMeasure measure = Thrown TypeError.
Proof. intros H. unfold processMeasure. now rewrite H. Qed.

Lemma one_or_zero_flag (v : value) : one_or_zero v = VNum 1 \/ one_or_zero v = VNum 0.
Proof. unfold one_or_zero. destruct (truthy v); auto. Qed.

(** One turn of the module loop: it throws before emitting anything, or
    emits one record. *)
Lemma processModule_cases (station module : value) (fx : effects) :
  (processModule station module fx = (Thrown TypeError, fx) /\
   (nullish module = true \/ nullish (get module "dashboard_data") = true)) \/
  (nullish module = false /\ nullish (get module "dashboard_data") = false /\
   exists record,
     processModule station module fx
       = (Normal tt, mkEffects (frames fx ++ [record]) (warnings fx)) /\
     obj_lookup "id" record = Some (get module "_id") /\
     obj_lookup "online" record = Some (one_or_zero (get module "reachable"))).
Proof.
  unfold processModule.
  destruct (nullish module) eqn:Hm; [left; split; [reflexivity | now left]|].
  unfold bind, lift, processMeasure.
  destruct (nullish (get module "dashboard_data")) eqn:Hd;
    [left; split; [reflexivity | now right]|].
  right. split; [reflexivity|]. split; [reflexivity|].
  generalize (fold_left (copy_if_present (get module "dashboard_data")) rename_table []).
  intros data. unfold emit. cbv beta iota.
  eexists. split; [reflexivity|]. split; lookup_through_sets; reflexivity.
Qed.

Lemma for_each_modules_frames (station : value) (modules : list value) (fx : effects) :
  exists records,
    snd (for_each (processModule station) modules fx)
      = mkEffects (frames fx ++ records) (warnings fx) /\
    Forall online_flag records.
Proof.
  revert fx. induction modules as [|m rest IH]; intros fx; simpl.
  - exists []. rewrite app_nil_r. destruct fx; split; [reflexivity | constructor].
  - unfold bind.
    destruct (processModule_cases station m fx) as [[-> _]|(_ & _ & r & -> & _ & Hon)].
    + exists []. rewrite app_nil_r. destruct fx; split; [reflexivity | constructor].
    + destruct (IH (mkEffects (frames fx ++ [r]) (warnings fx))) as (rs & -> & Hrs).
      exists (r :: rs). simpl. rewrite <- app_assoc. split; [reflexivity|].
      constructor; [|assumption].
      unfold online_flag. rewrite Hon. destruct (one_or_zero_flag (get m "reachable")) as [->| ->]; auto.
Qed.

Lemma for_each_modules_all (station : value) (modules : list value) (fx : effects) :
  Forall (fun m => nullish m = false /\ nullish (get m "dashboard_data") = false) modules ->
  exists records,
    for_each (processModule station) modules fx
      = (Normal tt, mkEffects (frames fx ++ records) (warnings fx)) /\
    map (obj_lookup "id") records = map (fun m => Some (get m "_id")) modules /\
    map (obj_lookup "online") records
      = map (fun m => Some (one_or_zero (get m "reachable"))) modules.
Proof.
  intros Hall. revert fx. induction Hall as [|m rest [Hm Hd] _ IH]; intros fx; simpl.
  - exists []. rewrite app_nil_r. destruct fx. repeat split.
  - unfold bind.
    destruct (processModule_cases station m fx)
      as [[_ [H|H]]|(_ & _ & r & -> & Hid & Hon)]; try congruence.
    destruct (IH (mkEffects (frames fx ++ [r]) (warnings fx))) as (rs & -> & Hids & Hons).
    exists (r :: rs). simpl. rewrite <- app_assoc. split; [reflexivity|].
    split; f_equal; assumption.
Qed.

(** The station's own record. *)
Lemma processStation_own_record (station : value) (fx : effects) :
  nullish station = false ->
  nullish (get station "dashboard_data") = false ->
  exists record,
    obj_lookup "id" record = Some (get station "_id") /\
    obj_lookup "online" record = Some (one_or_zero (get station "reachable")) /\
    processStation station fx =
      let fx1 := mkEffects (frames fx ++ [record]) (warnings fx) in
      if Lodash.isEmpty (get station "modules") then
        (Normal tt, mkEffects (frames fx1) (warnings fx1 ++ [WarnNoModules (get station "station_name")]))
      else for_each (processModule station) (array_like_items (get station "modules")) fx1.
Proof.
  intros Hs Hd. unfold processStation. rewrite Hs.
  unfold bind, lift. rewrite (processMeasure_returns _ Hd).
  generalize (fold_left (copy_if_present (get station "dashboard_data")) rename_table []).
  intros data. unfold emit, warn, ret. cbv beta iota.
  eexists. split; [|split; [|destruct (Lodash.isEmpty _); reflexivity]];
    lookup_through_sets; reflexivity.
Qed.

Lemma processStation_throws (station : value) (fx : effects) :
  nullish station = true \/ nullish (get station "dashboard_data") = true ->
  processStation station fx = (Thrown TypeError, fx).
Proof.
  intros H. unfold processStation.
  destruct (nullish station); [reflexivity|].
  destruct H as [H|H]; [discriminate|].
  unfold bind, lift. now rewrite (processMeasure_throws _ H).
Qed.

Lemma processAircare_cases (aircare : value) (fx : effects) :
  (processAircare aircare fx = (Thrown TypeError, fx) /\
   (nullish aircare = true \/ nullish (get aircare "dashboard_data") = true)) \/
  (nullish aircare = false /\ nullish (get aircare "dashboard_data") = false /\
   exists record,
     processAircare aircare fx
       = (Normal tt, mkEffects (frames fx ++ [record]) (warnings fx)) /\
     obj_lookup "id" record = Some (get aircare "_id") /\
     obj_lookup "online" record = Some (one_or_zero (get aircare "reachable"))).
Proof.
  unfold processAircare.
  destruct (nullish aircare) eqn:Hm; [left; split; [reflexivity | now left]|].
  unfold bind, lift, processMeasure.
  destruct (nullish (get aircare "dashboard_data")) eqn:Hd;
    [left; split; [reflexivity | now right]|].
  right. split; [reflexivity|]. split; [reflexivity|].
  generalize (fold_left (copy_if_present (get aircare "dashboard_data")) rename_table []).
  intros data. unfold emit. cbv beta iota.
  eexists. split; [reflexivity|]. split; lookup_through_sets; reflexivity.
Qed.

End StationFacts.

Lemma obj_lookup_app_absent (k k' : string) (v : value) (o : obj) :
  obj_lookup k' o = None -> k <> k' ->
  obj_lookup k (o ++ [(k', v)]) = obj_lookup k o.
Proof.
  intros Habs Hne. induction o as [|[k0 v0] rest IH]; simpl in *.
  - destruct (String.eqb_spec k k'); congruence.
  - destruct (String.eqb k' k0); [discriminate|].
    destruct (String.eqb k k0); [reflexivity | now apply IH].
Qed.

Lemma obj_lookup_app_new (k : string) (v : value) (o : obj) :
  obj_lookup k o = None -> obj_lookup k (o ++ [(k, v)]) = Some v.
Proof.
  intros Habs. induction o as [|[k0 v0] rest IH]; simpl in *.
  - now rewrite String.eqb_refl.
  - destruct (String.eqb k k0); [discriminate | now apply IH].
Qed.

Section StationClaims.

Import Normalizer Fixtures.

(** C8, as stated, fails on payloads that lack [dashboard_data]: a station
    with an empty module list and no [dashboard_data] emits no record and
    logs no warning ([processMeasure] throws a TypeError first), and a
    station whose second module has no [dashboard_data] emits its own record
    and one module record for its two modules. *)
Lemma processStation_records_counterexample :
  (get station_without_dashboard "modules" = VArr [] /\
   processStation station_without_dashboard no_effects = (Thrown TypeError, no_effects) /\
   length (frames (snd (processStation station_without_dashboard no_effects))) <> 1%nat /\
   warnings (snd (processStation station_without_dashboard no_effects)) = []) /\
  (exists modules,
     get station_with_silent_module "modules" = VArr modules /\
     length modules = 2%nat /\
     fst (processStation station_with_silent_module no_effects) = Thrown TypeError /\
     length (frames (snd (processStation station_with_silent_module no_effects)))
       <> (1 + length modules)%nat).
Proof.
  split.
  - repeat split; try reflexivity. vm_compute. discriminate.
  - eexists. split; [reflexivity|]. split; [reflexivity|]. split; [reflexivity|].
    vm_compute. discriminate.
Qed.

(** C8, amended. For every station whose [dashboard_data] is present: when
    its module list is empty, [processStation] returns having emitted
    exactly one record, the station's own, and logged one warning, which
    carries the station's name; when its modules are a non-empty array of
    modules whose [dashboard_data] is present, it returns having emitted
    the station's record followed by exactly one record per module, in the
    order of the modules, and logged nothing. *)
Theorem processStation_records (o : obj) (fx : effects) :
  nullish (get (VObj o) "dashboard_data") = false ->
  (get (VObj o) "modules" = VArr [] ->
   exists record,
     processStation (VObj o) fx
       = (Normal tt,
          mkEffects (frames fx ++ [record])
                    (warnings fx ++ [WarnNoModules (get (VObj o) "station_name")])) /\
     obj_lookup "id" record = Some (get (VObj o) "_id")) /\
  (forall modules,
     get (VObj o) "modules" = VArr modules ->
     modules <> [] ->
     Forall (fun m => nullish m = false /\ nullish (get m "dashboard_data") = false) modules ->
     exists record records,
       processStation (VObj o) fx
         = (Normal tt, mkEffects (frames fx ++ record :: records) (warnings fx)) /\
       obj_lookup "id" record = Some (get (VObj o) "_id") /\
       length records = length modules /\
       map (obj_lookup "id") records = map (fun m => Some (get m "_id")) modules).
Proof.
  intros Hd.
  destruct (processStation_own_record (VObj o) fx eq_refl Hd) as (record & Hid & _ & Hrun).
  split.
  - intros Hmods. exists record. split; [|assumption].
    rewrite Hrun, Hmods. reflexivity.
  - intros modules Hmods Hne Hall. rewrite Hrun, Hmods. cbv zeta.
    destruct modules as [|m rest]; [congruence|].
    cbn [Lodash.isEmpty array_like_items].
    destruct (for_each_modules_all (VObj o) (m :: rest)
                (mkEffects (frames fx ++ [record]) (warnings fx)) Hall)
      as (records & -> & Hids & _).
    exists record, records. cbn [frames warnings]. rewrite <- app_assoc.
    split; [reflexivity|]. split; [assumption|]. split; [|assumption].
    rewrite <- (length_map (obj_lookup "id")), Hids. apply length_map.
Qed.

Lemma processStation_records_witness :
  (exists record,
     processStation noModules_station no_effects
       = (Normal tt, mkEffects [record] [WarnNoModules (VStr "Casa")]) /\
     obj_lookup "id" record = Some (VStr "70:ee:50:22:a3:00")) /\
  (exists record records,
     processStation two_modules_station no_effects
       = (Normal tt, mkEffects (record :: records) []) /\
     length records = 2%nat).
Proof.
  split.
  - destruct (processStation_records noModules_fields no_effects eq_refl) as [Hempty _].
    apply Hempty. reflexivity.
  - destruct (processStation_records two_modules_fields no_effects eq_refl) as [_ Hmods].
    destruct (Hmods [rain_module; wind_module]) as (record & records & Hrun & _ & Hlen & _).
    + reflexivity.
    + discriminate.
    + repeat constructor.
    + exists record, records. split; [exact Hrun | exact Hlen].
Defined.

(** C9. Every record emitted by [processStation] (for the station and for
    each module) and by [processAircare] carries [online] with the value 1
    or the value 0. The value is 1 exactly when the raw [reachable] is
    truthy; when [reachable] is absent from a payload whose record is
    emitted, the record carries [online] with the value 0. *)
Theorem emitted_records_carry_online :
  (forall station fx, exists records,
      frames (snd (processStation station fx)) = frames fx ++ records /\
      Forall online_flag records) /\
  (forall aircare fx, exists records,
      frames (snd (processAircare aircare fx)) = frames fx ++ records /\
      Forall online_flag records) /\
  (forall o fx,
      nullish (get (VObj o) "dashboard_data") = false ->
      exists record rest,
        frames (snd (processStation (VObj o) fx)) = frames fx ++ record :: rest /\
        obj_lookup "online" record
          = Some (if truthy (get (VObj o) "reachable") then VNum 1 else VNum 0) /\
        (obj_lookup "reachable" o = None -> obj_lookup "online" record = Some (VNum 0))) /\
  (forall station o fx,
      nullish (get (VObj o) "dashboard_data") = false ->
      exists record,
        processModule station (VObj o) fx
          = (Normal tt, mkEffects (frames fx ++ [record]) (warnings fx)) /\
        obj_lookup "online" record
          = Some (if truthy (get (VObj o) "reachable") then VNum 1 else VNum 0) /\
        (obj_lookup "reachable" o = None -> obj_lookup "online" record = Some (VNum 0))) /\
  (forall o fx,
      nullish (get (VObj o) "dashboard_data") = false ->
      exists record,
        processAircare (VObj o) fx
          = (Normal tt, mkEffects (frames fx ++ [record]) (warnings fx)) /\
        obj_lookup "online" record
          = Some (if truthy (get (VObj o) "reachable") then VNum 1 else VNum 0) /\
        (obj_lookup "reachable" o = None -> obj_lookup "online" record = Some (VNum 0))).
Proof.
  assert (Habsent : forall o record,
             obj_lookup "online" record = Some (one_or_zero (get (VObj o) "reachable")) ->
             obj_lookup "reachable" o = None ->
             obj_lookup "online" record = Some (VNum 0)).
  { intros o record -> Hnone. simpl. now rewrite Hnone. }
  assert (Hflag : forall v record,
             obj_lookup "online" record = Some (one_or_zero v) -> online_flag record).
  { intros v record H. unfold online_flag. rewrite H.
    destruct (one_or_zero_flag v) as [-> | ->]; auto. }
  split; [|split; [|split; [|split]]].
  - intros station fx.
    destruct (nullish station) eqn:Hs;
      [exists []; rewrite processStation_throws by auto; simpl; now rewrite app_nil_r|].
    destruct (nullish (get station "dashboard_data")) eqn:Hd;
      [exists []; rewrite processStation_throws by auto; simpl; now rewrite app_nil_r|].
    destruct (processStation_own_record station fx Hs Hd) as (record & _ & Hon & ->).
    cbv zeta. destruct (Lodash.isEmpty (get station "modules")).
    + exists [record]. split; [reflexivity|]. constructor; [eauto | constructor].
    + destruct (for_each_modules_frames station (array_like_items (get station "modules"))
                  (mkEffects (frames fx ++ [record]) (warnings fx))) as (rs & -> & Hrs).
      exists (record :: rs). cbn [frames]. rewrite <- app_assoc.
      split; [reflexivity|]. constructor; eauto.
  - intros aircare fx.
    destruct (processAircare_cases aircare fx) as [[-> _]|(_ & _ & r & -> & _ & Hon)].
    + exists []. simpl. now rewrite app_nil_r.
    + exists [r]. split; [reflexivity|]. constructor; [eauto | constructor].
  - intros o fx Hd.
    destruct (processStation_own_record (VObj o) fx eq_refl Hd) as (record & _ & Hon & ->).
    cbv zeta. destruct (Lodash.isEmpty (get (VObj o) "modules")).
    + exists record, []. split; [reflexivity|]. split; [exact Hon | eauto].
    + destruct (for_each_modules_frames (VObj o)
                  (array_like_items (get (VObj o) "modules"))
                  (mkEffects (frames fx ++ [record]) (warnings fx))) as (rs & -> & _).
      exists record, rs. cbn [frames]. rewrite <- app_assoc.
      split; [reflexivity|]. split; [exact Hon | eauto].
  - intros station o fx Hd.
    destruct (processModule_cases station (VObj o) fx)
      as [[_ [H|H]]|(_ & _ & r & Hrun & _ & Hon)]; try (simpl in *; congruence).
    exists r. split; [exact Hrun|]. split; [exact Hon | eauto].
  - intros o fx Hd.
    destruct (processAircare_cases (VObj o) fx)
      as [[_ [H|H]]|(_ & _ & r & Hrun & _ & Hon)]; try (simpl in *; congruence).
    exists r. split; [exact Hrun|]. split; [exact Hon | eauto].
Qed.

Lemma emitted_records_carry_online_witness :
  (exists record,
     processAircare (VObj aircare_fields) no_effects = (Normal tt, mkEffects [record] []) /\
     obj_lookup "online" record = Some (VNum 0)) /\
  (exists records,
     frames (snd (processStation two_modules_station no_effects)) = records /\
     Forall online_flag records).
Proof.
  destruct emitted_records_carry_online as (Hstation & _ & _ & _ & Haircare).
  split.
  - destruct (Haircare aircare_fields no_effects) as (record & Hrun & _ & Hzero).
    { reflexivity. }
    exists record. split; [exact Hrun | apply Hzero; reflexivity].
  - destruct (Hstation two_modules_station no_effects) as (records & Hframes & Hall).
    exists records. split; [exact Hframes | exact Hall].
Defined.

(** C10, as stated, fails on a station that sends neither [modules] nor
    [dashboard_data]: a TypeError is raised before the emptiness test, no
    record is emitted and no warning is logged. *)
Lemma processStation_modules_absent_counterexample :
  get station_without_dashboard_and_modules "modules" = VUndefined /\
  processStation station_without_dashboard_and_modules no_effects
    = (Thrown TypeError, no_effects).
Proof. split; reflexivity. Qed.

(** C10, amended. A station object without a [modules] field is handled
    exactly as the same station with [modules: []]. When its
    [dashboard_data] is present, [processStation] returns without error:
    the station's record is emitted, the warning path is taken and no module
    record is emitted. *)
Theorem processStation_modules_absent (o : obj) (fx : effects) :
  obj_lookup "modules" o = None ->
  processStation (VObj o) fx = processStation (VObj (o ++ [("modules", VArr [])])) fx /\
  (nullish (get (VObj o) "dashboard_data") = false ->
   exists record,
     processStation (VObj o) fx
       = (Normal tt,
          mkEffects (frames fx ++ [record])
                    (warnings fx ++ [WarnNoModules (get (VObj o) "station_name")])) /\
     obj_lookup "id" record = Some (get (VObj o) "_id")).
Proof.
  intros Habs. split.
  - assert (Hget : forall k, k <> "modules" ->
               get (VObj (o ++ [("modules", VArr [])])) k = get (VObj o) k).
    { intros k Hk. simpl. now rewrite obj_lookup_app_absent. }
    unfold processStation. cbn [nullish].
    rewrite !Hget by discriminate.
    replace (get (VObj o) "modules") with VUndefined by (simpl; now rewrite Habs).
    replace (get (VObj (o ++ [("modules", VArr [])])) "modules") with (VArr [])
      by (simpl; now rewrite obj_lookup_app_new).
    reflexivity.
  - intros Hd.
    destruct (processStation_own_record (VObj o) fx eq_refl Hd) as (record & Hid & _ & ->).
    exists record. split; [|assumption].
    replace (get (VObj o) "modules") with VUndefined by (simpl; now rewrite Habs).
    reflexivity.
Qed.

Lemma processStation_modules_absent_witness :
  exists record,
    processStation (VObj station_fields) no_effects
      = (Normal tt, mkEffects [record] [WarnNoModules (VStr "Casa")]) /\
    obj_lookup "id" record = Some (VStr "70:ee:50:22:a3:00").
Proof.
  destruct (processStation_modules_absent station_fields no_effects) as [_ Hrun].
  { reflexivity. }
  apply Hrun. reflexivity.
Defined.

End StationClaims.

(** ** The client *)

Section ClientFacts.

Import Client.

Variable w : world.

Lemma truthy_or_null (v : value) : truthy (or_null v) = truthy v.
Proof. now destruct v. Qed.

Lemma or_null_truthy (v : value) : truthy v = true -> or_null v = v.
Proof. now destruct v. Qed.

(** [request], one step unfolded. *)
Lemma request_unfold (fuel : nat) (method path : string) (params data : value)
    (isRetry : bool) (s : state) :
  request w fuel method path params data isRetry s =
    if negb (String.eqb path PATH_AUTH) && negb (truthy (accessToken (this s)))
    then Threw MissingAccessToken s
    else
      let cfg := request_config (this s) method path params data in
      let s1 := after_send cfg s in
      match axios_answer w (length (sent s)) cfg with
      | Fulfilled result_data => Returned result_data s1
      | Rejected e =>
          let axios_error := Threw (RequestFailed path (Text (message e)) None) s1 in
          match e_response e with
          | Some r =>
              if truthy (Client.data r) then
                if token_expired isRetry r then
                  match fuel with
                  | O => Stuck OutOfFuel
                  | S fuel' =>
                      (connect w fuel' VNull (refreshToken (this s)) (expiresInTimestamp (this s)) ;;;
                       request w fuel' method path params data true)
                        (with_this (set_accessToken VNull (this s)) s1)
                  end
                else
                  match classify path r with
                  | Some err => Threw err s1
                  | None => axios_error
                  end
              else axios_error
          | None => axios_error
          end
      end.
Proof.
  unfold request_config, after_send, with_this.
  destruct fuel; cbn [request]; unfold bind at 1, get_this;
    (destruct (String.eqb path PATH_AUTH) eqn:Hp; cbn [negb andb];
     [|destruct (truthy (accessToken (this s))) eqn:Ht; cbn [negb]; [|reflexivity]]);
    unfold bind, ret, axios, throw, stuck_on, update_this, get_this;
    cbn [this sent clock_reads];
    destruct (axios_answer w (length (sent s)) _) as [d|e]; try reflexivity;
    destruct (e_response e) as [r|]; try reflexivity;
    destruct (truthy (Client.data r)); try reflexivity;
    destruct (token_expired isRetry r); try reflexivity;
    destruct (classify path r); reflexivity.
Qed.

Lemma truthy_number (e : Q) : ~ (e == 0)%Q -> truthy (VNum e) = true.
Proof.
  intros He. simpl. destruct (Qeq_bool e 0) eqn:E; [|reflexivity].
  apply Qeq_bool_iff in E. contradiction.
Qed.

Lemma setToken_accepts (authentication : value) (e : Q) (s : state) :
  accepted_authentication authentication e ->
  setToken w authentication s =
    Returned tt (with_this (token_stored authentication e (Date_now w (clock_reads s)) (this s))
                           (after_clock_read s)).
Proof.
  intros (Hn & Ha & Hr & He & Hne). unfold setToken.
  rewrite Hn, Ha, Hr, He, (truthy_number e Hne). reflexivity.
Qed.


Lemma checkAndSetAccesToken_falsy (tok : value) (exp : timestamp) (s : state) :
  truthy tok = false -> checkAndSetAccesToken w tok exp s = Returned false s.
Proof. intros H. unfold checkAndSetAccesToken. now rewrite H. Qed.

Lemma checkAndSetAccesToken_valid (tok : value) (exp : Q) (s : state) :
  truthy tok = true ->
  (Date_now w (clock_reads s) # 1000 < exp)%Q ->
  checkAndSetAccesToken w tok (Seconds exp) s =
    Returned true (with_this (set_expiresInTimestamp (Seconds exp) (set_accessToken tok (this s)))
                             (after_clock_read s)).
Proof.
  intros Ht Hlt. unfold checkAndSetAccesToken. rewrite Ht.
  unfold bind at 1, now. cbn [timestamp_number greater].
  destruct (Qle_bool exp (Date_now w (clock_reads s) # 1000)) eqn:E.
  - apply Qle_bool_iff in E. exfalso. exact (Qlt_not_le _ _ Hlt E).
  - reflexivity.
Qed.

Lemma checkAndSetAccesToken_expired (tok : value) (exp : Q) (s : state) :
  truthy tok = true ->
  ~ (Date_now w (clock_reads s) # 1000 < exp)%Q ->
  checkAndSetAccesToken w tok (Seconds exp) s = Returned false (after_clock_read s).
Proof.
  intros Ht Hge. unfold checkAndSetAccesToken. rewrite Ht.
  unfold bind at 1, now. cbn [timestamp_number greater].
  destruct (Qle_bool exp (Date_now w (clock_reads s) # 1000)) eqn:E.
  - reflexivity.
  - exfalso. apply Hge. apply Qnot_le_lt. intros Hle.
    apply Qle_bool_iff in Hle. congruence.
Qed.

(** [connect] without a truthy access token goes on to a grant at once,
    whatever the expiry: the clock is not read. *)
Lemma connect_without_token (fuel : nat) (tok rt : value) (exp : timestamp) (s : state) :
  truthy tok = false ->
  connect w fuel tok rt exp s =
    (if truthy rt then authenticateByRefreshToken w fuel rt
     else authenticateByClientCredentials w fuel) s.
Proof.
  intros Ht. unfold connect, connect_with. unfold bind at 1.
  rewrite !truthy_or_null.
  rewrite checkAndSetAccesToken_falsy by now rewrite truthy_or_null.
  destruct (truthy rt) eqn:Hr; [|reflexivity].
  now rewrite or_null_truthy.
Qed.

(** The state in which [connect] goes on after a token that is not adopted:
    the clock was read when the token was truthy. *)
Lemma connect_not_adopted (fuel : nat) (tok rt : value) (exp : Q) (s : state) :
  ~ (truthy tok = true /\ (Date_now w (clock_reads s) # 1000 < exp)%Q) ->
  connect w fuel tok rt (Seconds exp) s =
    (if truthy rt then authenticateByRefreshToken w fuel rt
     else authenticateByClientCredentials w fuel)
      (if truthy tok then after_clock_read s else s).
Proof.
  intros Hnot.
  destruct (truthy tok) eqn:Ht; [|now apply connect_without_token].
  unfold connect, connect_with. unfold bind at 1.
  rewrite !truthy_or_null.
  rewrite checkAndSetAccesToken_expired by (rewrite ?truthy_or_null; tauto).
  destruct (truthy rt) eqn:Hr; [|reflexivity].
  now rewrite or_null_truthy.
Qed.

Lemma connect_adopts (fuel : nat) (tok rt : value) (exp : Q) (s : state) :
  truthy tok = true ->
  (Date_now w (clock_reads s) # 1000 < exp)%Q ->
  connect w fuel tok rt (Seconds exp) s =
    Returned tt
      (with_this
         (let c := set_expiresInTimestamp (Seconds exp) (set_accessToken tok (this s)) in
          if truthy rt then set_refreshToken rt c else c)
         (after_clock_read s)).
Proof.
  intros Ht Hlt. unfold connect, connect_with. unfold bind at 1.
  rewrite (or_null_truthy tok Ht), truthy_or_null.
  rewrite checkAndSetAccesToken_valid by assumption.
  destruct (truthy rt) eqn:Hr; [|reflexivity].
  now rewrite or_null_truthy.
Qed.

Lemma token_request_fulfilled (fuel : nat) (form authentication : value) (s : state) :
  axios_answer w (length (sent s)) (token_request (this s) form) = Fulfilled authentication ->
  request w fuel HTTP_POST PATH_AUTH VNull form false s =
    Returned authentication (after_send (token_request (this s) form) s).
Proof.
  intros Hans. rewrite request_unfold. cbn [String.eqb PATH_AUTH negb andb].
  cbv zeta. unfold token_request in Hans. now rewrite Hans.
Qed.

Lemma authenticateByRefreshToken_fulfilled (fuel : nat) (rt authentication : value)
    (e : Q) (s : state) :
  truthy rt = true ->
  axios_answer w (length (sent s))
    (token_request (this s) (refresh_token_form (this s) rt)) = Fulfilled authentication ->
  accepted_authentication authentication e ->
  authenticateByRefreshToken w fuel rt s =
    Returned tt
      (mkState (token_stored authentication e (Date_now w (clock_reads s))
                  (set_refreshToken rt (this s)))
               (sent s ++ [token_request (this s) (refresh_token_form (this s) rt)])
               (S (clock_reads s))).
Proof.
  intros Hr Hans Hacc. unfold authenticateByRefreshToken, authenticateByRefreshToken_with.
  rewrite Hr. cbn [negb]. unfold bind at 1, update_this.
  unfold bind at 1, get_this. cbn [this]. unfold bind.
  rewrite (token_request_fulfilled fuel _ authentication) by exact Hans.
  rewrite (setToken_accepts _ e) by assumption. reflexivity.
Qed.

Lemma authenticateByClientCredentials_fulfilled (fuel : nat) (authentication : value)
    (e : Q) (s : state) :
  axios_answer w (length (sent s))
    (token_request (this s) (password_form (this s))) = Fulfilled authentication ->
  accepted_authentication authentication e ->
  authenticateByClientCredentials w fuel s =
    Returned tt
      (mkState (token_stored authentication e (Date_now w (clock_reads s)) (this s))
               (sent s ++ [token_request (this s) (password_form (this s))])
               (S (clock_reads s))).
Proof.
  intros Hans Hacc.
  unfold authenticateByClientCredentials, authenticateByClientCredentials_with.
  unfold bind at 1, get_this. unfold bind.
  rewrite (token_request_fulfilled fuel _ authentication) by exact Hans.
  rewrite (setToken_accepts _ e) by assumption. reflexivity.
Qed.

(** [setToken] on an accepted answer, of whatever [expires_in]. *)
Lemma setToken_stores (authentication : value) (s : state) :
  accepted authentication = true ->
  setToken w authentication s =
    Returned tt (mkState (authenticated authentication (Date_now w (clock_reads s)) (this s))
                         (sent s) (S (clock_reads s))).
Proof.
  unfold accepted. intros H.
  apply andb_prop in H. destruct H as [H He].
  apply andb_prop in H. destruct H as [H Hr].
  apply andb_prop in H. destruct H as [Hn Ha].
  apply negb_true_iff in Hn.
  unfold setToken. rewrite Hn, Ha, Hr, He. reflexivity.
Qed.


Lemma accepted_access_token (authentication : value) :
  accepted authentication = true -> truthy (get authentication "access_token") = true.
Proof.
  unfold accepted. intros H.
  apply andb_prop in H. destruct H as [H _].
  apply andb_prop in H. destruct H as [H _].
  apply andb_prop in H. now destruct H.
Qed.

Lemma authenticateByClientCredentials_accepted (fuel : nat) (authentication : value)
    (s : state) :
  axios_answer w (length (sent s))
    (token_request (this s) (password_form (this s))) = Fulfilled authentication ->
  accepted authentication = true ->
  authenticateByClientCredentials w fuel s =
    Returned tt
      (mkState (authenticated authentication (Date_now w (clock_reads s)) (this s))
               (sent s ++ [token_request (this s) (password_form (this s))])
               (S (clock_reads s))).
Proof.
  intros Hans Hacc.
  unfold authenticateByClientCredentials, authenticateByClientCredentials_with.
  unfold bind at 1, get_this. unfold bind.
  rewrite (token_request_fulfilled fuel _ authentication) by exact Hans.
  rewrite (setToken_stores authentication _ Hacc). reflexivity.
Qed.

(** The grant the re-authentication of [request] runs for a client: the
    refresh-token grant when its refresh token is truthy, else the password
    grant. *)
Lemma reauthentication_grant (fuel : nat) (s : state) :
  accessToken (this s) = VNull ->
  connect w fuel VNull (refreshToken (this s)) (expiresInTimestamp (this s)) s =
    (authentication <-
       request w fuel HTTP_POST PATH_AUTH VNull
         (if truthy (refreshToken (this s))
          then refresh_token_form (this s) (refreshToken (this s))
          else password_form (this s)) false ;;
     setToken w authentication) s.
Proof.
  intros Hnull.
  rewrite connect_without_token by reflexivity.
  destruct (truthy (refreshToken (this s))) eqn:Hrt.
  - unfold authenticateByRefreshToken, authenticateByRefreshToken_with. rewrite Hrt.
    cbn [negb]. unfold bind at 1, update_this. unfold bind at 1, get_this.
    cbn [this]. unfold bind.
    replace (mkState (set_refreshToken (refreshToken (this s)) (this s)) (sent s) (clock_reads s))
      with s by (destruct s as [[] ? ?]; reflexivity).
    reflexivity.
  - reflexivity.
Qed.


(** A re-authentication whose token request is answered with an accepted
    authentication. *)
Lemma reauthentication_accepted (fuel : nat) (s : state) (authentication : value) :
  accessToken (this s) = VNull ->
  let grant :=
    token_request (this s)
      (if truthy (refreshToken (this s))
       then refresh_token_form (this s) (refreshToken (this s))
       else password_form (this s)) in
  axios_answer w (length (sent s)) grant = Fulfilled authentication ->
  accepted authentication = true ->
  connect w fuel VNull (refreshToken (this s)) (expiresInTimestamp (this s)) s =
    Returned tt
      (mkState (authenticated authentication (Date_now w (clock_reads s)) (this s))
               (sent s ++ [grant]) (S (clock_reads s))).
Proof.
  intros Hnull grant Hans Hacc. rewrite (reauthentication_grant fuel s Hnull).
  unfold bind. rewrite (token_request_fulfilled fuel _ authentication) by exact Hans.
  rewrite (setToken_stores authentication _ Hacc). reflexivity.
Qed.

(** A retried request: one request at most, and its answer is final. *)
Lemma request_retry_run (fuel : nat) (method path : string) (params data : value)
    (s : state) :
  sendable s path = true ->
  let cfg := request_config (this s) method path params data in
  request w fuel method path params data true s =
    match axios_answer w (length (sent s)) cfg with
    | Fulfilled result_data => Returned result_data (after_send cfg s)
    | Rejected e => Threw (rejection path e) (after_send cfg s)
    end.
Proof.
  intros Hs cfg. rewrite request_unfold.
  replace (negb (String.eqb path PATH_AUTH) && negb (truthy (accessToken (this s))))
    with false by (unfold sendable in Hs; now rewrite <- negb_orb, Hs).
  cbv zeta. fold cfg.
  destruct (axios_answer w (length (sent s)) cfg) as [d|e]; [reflexivity|].
  unfold rejection. destruct (e_response e) as [r|]; [|reflexivity].
  destruct (truthy (Client.data r)); [|reflexivity].
  cbn [token_expired negb andb].
  destruct (classify path r); reflexivity.
Qed.

(** *** Requests are only ever added *)

Lemma extends_refl (s : state) : extends s s.
Proof. exists []. now rewrite app_nil_r. Qed.

Lemma extends_trans (s1 s2 s3 : state) : extends s1 s2 -> extends s2 s3 -> extends s1 s3.
Proof.
  intros [m1 H1] [m2 H2]. exists (m1 ++ m2). now rewrite H2, H1, app_assoc.
Qed.

Lemma extends_after_send (c : config) (s : state) : extends s (after_send c s).
Proof. exists [c]. reflexivity. Qed.

Lemma grows_ret {A} (a : A) : grows (ret a).
Proof. intros s. apply extends_refl. Qed.

Lemma grows_throw {A} (e : exn) : grows (@throw A e).
Proof. intros s. apply extends_refl. Qed.

Lemma grows_stuck_on {A} (why : stuck) : grows (@stuck_on A why).
Proof. intros s. exact I. Qed.

Lemma grows_get_this : grows get_this.
Proof. intros s. apply extends_refl. Qed.

Lemma grows_update_this (f : client -> client) : grows (update_this f).
Proof. intros s. exists []. simpl. now rewrite app_nil_r. Qed.

Lemma grows_now : grows (now w).
Proof. intros s. exists []. simpl. now rewrite app_nil_r. Qed.

Lemma grows_axios (c : config) : grows (axios w c).
Proof. intros s. exists [c]. reflexivity. Qed.

Lemma grows_bind {A B} (c : M A) (k : A -> M B) :
  grows c -> (forall a, grows (k a)) -> grows (bind c k).
Proof.
  intros Hc Hk s. unfold bind. specialize (Hc s).
  destruct (c s) as [a s'|e s'|why]; [|assumption|exact I].
  specialize (Hk a s'). destruct (k a s'); try exact I; eapply extends_trans; eassumption.
Qed.

Ltac grows_step :=
  first
    [ apply grows_ret | apply grows_throw | apply grows_stuck_on | apply grows_get_this
    | apply grows_update_this | apply grows_now | apply grows_axios
    | assumption
    | apply grows_bind; [|intros ?]
    | match goal with
      | |- grows (if ?b then _ else _) => destruct b
      | |- grows (match ?x with _ => _ end) => destruct x
      end ].

Lemma grows_checkAndSetAccesToken (tok : value) (exp : timestamp) :
  grows (checkAndSetAccesToken w tok exp).
Proof. unfold checkAndSetAccesToken. repeat grows_step. Qed.

Lemma grows_setToken (authentication : value) : grows (setToken w authentication).
Proof. unfold setToken. repeat grows_step. Qed.

Lemma grows_connect_with (request_rec : string -> string -> value -> value -> bool -> M value)
    (tok rt : value) (exp : timestamp) :
  (forall m p ps d r, grows (request_rec m p ps d r)) ->
  grows (connect_with w request_rec tok rt exp).
Proof.
  intros Hreq. unfold connect_with.
  apply grows_bind; [apply grows_checkAndSetAccesToken|]. intros valid.
  destruct valid; [repeat grows_step|].
  destruct (truthy (or_null rt)).
  - unfold authenticateByRefreshToken_with.
    destruct (negb (truthy (or_null rt))); [apply grows_throw|].
    repeat (apply grows_bind; intros; try apply grows_update_this; try apply grows_get_this;
            try apply Hreq; try apply grows_setToken).
  - unfold authenticateByClientCredentials_with.
    repeat (apply grows_bind; intros; try apply grows_get_this;
            try apply Hreq; try apply grows_setToken).
Qed.

Lemma grows_request (fuel : nat) : forall method path params data isRetry,
    grows (request w fuel method path params data isRetry).
Proof.
  induction fuel as [|fuel IH]; intros method path params data isRetry s;
    rewrite request_unfold.
  - destruct (negb _ && negb _); [apply extends_refl|]. cbv zeta.
    destruct (axios_answer _ _ _) as [d|e]; [apply extends_after_send|].
    destruct (e_response e) as [r|]; [|apply extends_after_send].
    destruct (truthy (Client.data r)); [|apply extends_after_send].
    destruct (token_expired isRetry r); [exact I|].
    destruct (classify path r); apply extends_after_send.
  - destruct (negb _ && negb _); [apply extends_refl|]. cbv zeta.
    destruct (axios_answer _ _ _) as [d|e]; [apply extends_after_send|].
    destruct (e_response e) as [r|]; [|apply extends_after_send].
    destruct (truthy (Client.data r)); [|apply extends_after_send].
    destruct (token_expired isRetry r);
      [|destruct (classify path r); apply extends_after_send].
    assert (Hg : grows (connect w fuel VNull (refreshToken (this s)) (expiresInTimestamp (this s)) ;;;
                        request w fuel method path params data true)).
    { apply grows_bind; [|intros _; apply IH].
      apply grows_connect_with. exact IH. }
    match goal with |- context [bind ?c ?k ?s1] => specialize (Hg s1) end.
    match type of Hg with
    | match ?x with _ => _ end => destruct x as [a s'|e' s'|why]
    end; try exact I;
      (eapply extends_trans; [|exact Hg]; eexists; reflexivity).
Qed.

End ClientFacts.

Section ClientClaims.

Import Client.

Variable w : world.





(** C3. [connect] has three tiers. A truthy access token with an expiry
    after the current time is adopted: the call returns with the token and
    the expiry stored, a truthy refresh token stored as well, and no request
    sent. Otherwise a truthy refresh token gives the refresh-token grant,
    and no refresh token gives the password grant; when the token endpoint
    accepts, the call returns having sent the one request of that grant. *)
Theorem connect_three_tiers (fuel : nat) (accessToken refreshToken : value)
    (expiresInTimestamp : Q) (s : state) :
  let adopted :=
    truthy accessToken = true /\ (Date_now w (clock_reads s) # 1000 < expiresInTimestamp)%Q in
  let s0 := if truthy accessToken then after_clock_read s else s in
  (adopted ->
   connect w fuel accessToken refreshToken (Seconds expiresInTimestamp) s =
     Returned tt
       (mkState
          (mkClient (clientId (this s)) (clientSecret (this s)) (requestConfig (this s))
                    (username (this s)) (password (this s))
                    accessToken
                    (if truthy refreshToken then refreshToken else Client.refreshToken (this s))
                    (Seconds expiresInTimestamp))
          (sent s) (S (clock_reads s)))) /\
  (~ adopted -> truthy refreshToken = true ->
   connect w fuel accessToken refreshToken (Seconds expiresInTimestamp) s =
     authenticateByRefreshToken w fuel refreshToken s0 /\
   forall authentication expires_in,
     let grant := token_request (this s) (refresh_token_form (this s) refreshToken) in
     axios_answer w (length (sent s)) grant = Fulfilled authentication ->
     accepted_authentication authentication expires_in ->
     connect w fuel accessToken refreshToken (Seconds expiresInTimestamp) s =
       Returned tt
         (mkState (token_stored authentication expires_in (Date_now w (clock_reads s0)) (this s))
                  (sent s ++ [grant]) (S (clock_reads s0)))) /\
  (~ adopted -> truthy refreshToken = false ->
   connect w fuel accessToken refreshToken (Seconds expiresInTimestamp) s =
     authenticateByClientCredentials w fuel s0 /\
   forall authentication expires_in,
     let grant := token_request (this s) (password_form (this s)) in
     axios_answer w (length (sent s)) grant = Fulfilled authentication ->
     accepted_authentication authentication expires_in ->
     connect w fuel accessToken refreshToken (Seconds expiresInTimestamp) s =
       Returned tt
         (mkState (token_stored authentication expires_in (Date_now w (clock_reads s0)) (this s))
                  (sent s ++ [grant]) (S (clock_reads s0)))).
Proof.
  intros adopted s0. split; [|split].
  - intros [Ht Hlt]. rewrite connect_adopts by assumption.
    unfold with_this, after_clock_read. cbn [this sent clock_reads].
    destruct (truthy refreshToken); reflexivity.
  - intros Hnot Hr. rewrite connect_not_adopted by exact Hnot. rewrite Hr.
    split; [reflexivity|]. intros authentication expires_in grant Hans Hacc.
    rewrite (authenticateByRefreshToken_fulfilled w fuel _ authentication expires_in);
      try assumption.
    + subst s0. destruct (truthy accessToken); reflexivity.
    + subst s0. destruct (truthy accessToken); exact Hans.
  - intros Hnot Hr. rewrite connect_not_adopted by exact Hnot. rewrite Hr.
    split; [reflexivity|]. intros authentication expires_in grant Hans Hacc.
    rewrite (authenticateByClientCredentials_fulfilled w fuel authentication expires_in);
      try assumption.
    + subst s0. destruct (truthy accessToken); reflexivity.
    + subst s0. destruct (truthy accessToken); exact Hans.
Qed.


(** C5. A [request] to a path other than the token endpoint with a falsy
    access token throws 'Access token must be provided' and leaves the state
    as it was: nothing is sent. With a truthy access token the request
    handed to [axios] carries it as the [Bearer] authorization; it is the
    next request sent, whatever the outcome of the call. *)
Theorem request_requires_access_token (fuel : nat) (method path : string)
    (params data : value) (isRetry : bool) (s : state) :
  path <> PATH_AUTH ->
  (truthy (accessToken (this s)) = false ->
   request w fuel method path params data isRetry s = Threw MissingAccessToken s /\
   error_message MissingAccessToken = Some "Access token must be provided") /\
  (truthy (accessToken (this s)) = true ->
   let cfg := request_config (this s) method path params data in
   Authorization cfg = Some (Bearer (accessToken (this s))) /\
   (forall result_data,
      axios_answer w (length (sent s)) cfg = Fulfilled result_data ->
      request w fuel method path params data isRetry s
        = Returned result_data (mkState (this s) (sent s ++ [cfg]) (clock_reads s))) /\
   match request w fuel method path params data isRetry s with
   | Returned _ s' | Threw _ s' => exists more, sent s' = sent s ++ cfg :: more
   | Stuck _ => True
   end).
Proof.
  intros Hpath. apply String.eqb_neq in Hpath. split.
  - intros Ht. rewrite request_unfold, Hpath, Ht. split; reflexivity.
  - intros Ht cfg. split; [|split].
    + unfold cfg, request_config. now rewrite Hpath.
    + intros d Hans. rewrite request_unfold, Hpath, Ht. cbv zeta.
      fold cfg. now rewrite Hans.
    + assert (Hone : forall s1, extends (after_send cfg s) s1 ->
                               exists more, sent s1 = sent s ++ cfg :: more).
      { intros s1 [more Hmore]. exists more. rewrite Hmore. cbn [after_send sent].
        now rewrite <- app_assoc. }
      rewrite request_unfold, Hpath, Ht. cbn [negb andb]. cbv zeta. fold cfg.
      destruct (axios_answer w (length (sent s)) cfg) as [d|e];
        [apply Hone, extends_refl|].
      destruct (e_response e) as [r|]; [|apply Hone, extends_refl].
      destruct (truthy (Client.data r)); [|apply Hone, extends_refl].
      destruct (token_expired isRetry r);
        [|destruct (classify path r); apply Hone, extends_refl].
      destruct fuel as [|fuel]; [exact I|].
      assert (Hg : grows (connect w fuel VNull (refreshToken (this s)) (expiresInTimestamp (this s)) ;;;
                          request w fuel method path params data true)).
      { apply grows_bind; [|intros _; apply grows_request].
        apply grows_connect_with. apply grows_request. }
      match goal with |- context [bind ?c ?k ?s1] => specialize (Hg s1) end.
      match type of Hg with
      | match ?x with _ => _ end => destruct x as [a s'|e' s'|why]
      end; try exact I; apply Hone;
        destruct Hg as [more Hmore]; exists more; exact Hmore.
Qed.

(** C6. A [request] that is sent and rejected, outside the expired-token
    branch, throws a RequestFailed after that one request. With a response
    whose data is truthy the message and status are chosen in this order:
    a truthy [error_description] gives it with the status; else a truthy
    [error.message] gives it with the status; else a truthy [error] gives
    its JSON text with the status; else the message of the transport error
    alone. Without a response, or with falsy data, it is the message of the
    transport error alone. *)
Theorem request_error_classification (fuel : nat) (method path : string)
    (params data : value) (isRetry : bool) (s : state) (e : axios_error) :
  String.eqb path PATH_AUTH = true \/ truthy (accessToken (this s)) = true ->
  let cfg := request_config (this s) method path params data in
  axios_answer w (length (sent s)) cfg = Rejected e ->
  (forall r,
     e_response e = Some r ->
     truthy (Client.data r) = true ->
     token_expired isRetry r = false ->
     let error_description := get (Client.data r) "error_description" in
     let error := get (Client.data r) "error" in
     request w fuel method path params data isRetry s =
       Threw
         (if truthy error_description then
            RequestFailed path (template error_description) (Some (status r))
          else if truthy error && truthy (get error "message") then
            RequestFailed path (template (get error "message")) (Some (status r))
          else if truthy error then
            RequestFailed path (JSONstringify error) (Some (status r))
          else RequestFailed path (Text (message e)) None)
         (mkState (this s) (sent s ++ [cfg]) (clock_reads s))) /\
  (e_response e = None \/ (exists r, e_response e = Some r /\ truthy (Client.data r) = false) ->
   request w fuel method path params data isRetry s =
     Threw (RequestFailed path (Text (message e)) None)
           (mkState (this s) (sent s ++ [cfg]) (clock_reads s))).
Proof.
  intros Hsend cfg Hans.
  assert (Hpre : negb (String.eqb path PATH_AUTH) && negb (truthy (accessToken (this s))) = false).
  { destruct Hsend as [-> | ->]; [reflexivity | apply andb_false_r]. }
  split.
  - intros r Hresp Hdata Hexp error_description error.
    rewrite request_unfold, Hpre. cbv zeta. fold cfg.
    rewrite Hans, Hresp, Hdata, Hexp. unfold classify.
    fold error_description error.
    destruct (truthy error_description); [reflexivity|].
    destruct (truthy error && truthy (get error "message")); [reflexivity|].
    destruct (truthy error); reflexivity.
  - intros Hnone. rewrite request_unfold, Hpre. cbv zeta. fold cfg. rewrite Hans.
    destruct Hnone as [-> | (r & -> & ->)]; reflexivity.
Qed.

End ClientClaims.

(** ** The properties on the mock adapter of the test suite *)

Section ClientWitnesses.

Import Client Fixtures.

Lemma authResult_accepted : accepted_authentication authResult 10800.
Proof.
  unfold accepted_authentication. repeat split; try reflexivity.
  intros H. discriminate H.
Defined.


Lemma connect_three_tiers_witness :
  (exists s',
     connect (mock_world false) 0 (VStr "2YotnFZFEjr1zCsicMWpAA") VUndefined
             (Seconds 1555681339) fresh_state = Returned tt s' /\
     accessToken (this s') = VStr "2YotnFZFEjr1zCsicMWpAA" /\ sent s' = []) /\
  (exists s',
     connect (mock_world false) 0 VUndefined (VStr "tGzv3JOkF0XG5Qx2TlKWIA") (Seconds 0)
             fresh_state = Returned tt s' /\
     sent s' = [token_request test_client
                  (refresh_token_form test_client (VStr "tGzv3JOkF0XG5Qx2TlKWIA"))]) /\
  (exists s',
     connect (mock_world false) 0 VUndefined VUndefined (Seconds 0) fresh_state
       = Returned tt s' /\
     sent s' = [token_request test_client (password_form test_client)]).
Proof.
  split; [|split].
  - destruct (connect_three_tiers (mock_world false) 0 (VStr "2YotnFZFEjr1zCsicMWpAA")
                VUndefined 1555681339 fresh_state) as (Hadopt & _ & _).
    eexists. split; [apply Hadopt; split; reflexivity|]. split; reflexivity.
  - destruct (connect_three_tiers (mock_world false) 0 VUndefined
                (VStr "tGzv3JOkF0XG5Qx2TlKWIA") 0 fresh_state) as (_ & Hrefresh & _).
    destruct Hrefresh as [_ Hrun].
    + intros [H _]. discriminate H.
    + reflexivity.
    + eexists. split; [apply (Hrun authResult 10800 eq_refl authResult_accepted)|].
      reflexivity.
  - destruct (connect_three_tiers (mock_world false) 0 VUndefined VUndefined 0 fresh_state)
      as (_ & _ & Hpassword).
    destruct Hpassword as [_ Hrun].
    + intros [H _]. discriminate H.
    + reflexivity.
    + eexists. split; [apply (Hrun authResult 10800 eq_refl authResult_accepted)|].
      reflexivity.
Defined.



(** 'should throw error if access token is not set' *)
Lemma request_requires_access_token_witness :
  request (mock_world false) 0 "GET" "/path" (VObj [("type", VStr "params")])
          (VObj [("type", VStr "data")]) false fresh_state
    = Threw MissingAccessToken fresh_state /\
  Authorization (request_config connected_client "GET" "/appError" VNull VNull)
    = Some (Bearer (VStr "2YotnFZFEjr1zCsicMWpAA")).
Proof.
  split.
  - destruct (request_requires_access_token (mock_world false) 0 "GET" "/path"
                (VObj [("type", VStr "params")]) (VObj [("type", VStr "data")])
                false fresh_state) as [Hmissing _].
    + discriminate.
    + apply Hmissing. reflexivity.
  - destruct (request_requires_access_token (mock_world false) 0 "GET" "/appError"
                VNull VNull false connected_state) as [_ Hbearer].
    + discriminate.
    + apply Hbearer. reflexivity.
Defined.

(** 'should throw error in case of OAuth2 bad request' and 'should throw
    error in case of timeout' *)
Lemma request_error_classification_witness :
  request (mock_world false) 0 "GET" "/authError" VNull VNull false connected_state
    = Threw (RequestFailed "/authError"
               (Text "Missing parameters, username and password are required")
               (Some 400%Z))
            (after_send (request_config connected_client "GET" "/authError" VNull VNull)
                        connected_state) /\
  request (mock_world false) 0 "GET" "/timeout" VNull VNull false connected_state
    = Threw (RequestFailed "/timeout" (Text "timeout of 0ms exceeded") None)
            (after_send (request_config connected_client "GET" "/timeout" VNull VNull)
                        connected_state).
Proof.
  split.
  - destruct (request_error_classification (mock_world false) 0 "GET" "/authError"
                VNull VNull false connected_state
                (mkAxiosError "Request failed with status code 400"
                   (Some (mkResponse 400
                      (VObj [ ("error", VStr "invalid_request");
                              ("error_description",
                                VStr "Missing parameters, username and password are required") ])))))
      as [Hclass _].
    + right. reflexivity.
    + reflexivity.
    + apply (Hclass _ eq_refl eq_refl eq_refl).
  - destruct (request_error_classification (mock_world false) 0 "GET" "/timeout"
                VNull VNull false connected_state
                (mkAxiosError "timeout of 0ms exceeded" None))
      as [_ Htransport].
    + right. reflexivity.
    + reflexivity.
    + apply Htransport. left. reflexivity.
Defined.

End ClientWitnesses.

(* ===================================================================== *)
(** * Further properties *)
(* ===================================================================== *)

(** ** The normalizer in closed form *)

Section NormalizerClosedForm.

Import Normalizer.

Lemma obj_set_fresh (k : string) (v : value) (o : obj) :
  obj_lookup k o = None -> obj_set k v o = o ++ [(k, v)].
Proof.
  induction o as [|[k0 v0] rest IH]; simpl; intros Hnone.
  - reflexivity.
  - destruct (String.eqb k k0); [discriminate|]. now rewrite IH.
Qed.

Lemma obj_lookup_app (k : string) (a b : obj) :
  obj_lookup k (a ++ b) =
    match obj_lookup k a with
    | Some v => Some v
    | None => obj_lookup k b
    end.
Proof.
  induction a as [|[k0 v0] rest IH]; simpl.
  - reflexivity.
  - destruct (String.eqb k k0); [reflexivity | exact IH].
Qed.

Lemma fold_copy_closed (o : obj) (table : list (string * string)) :
  NoDup (map snd table) ->
  forall data,
    (forall dst, In dst (map snd table) -> obj_lookup dst data = None) ->
    fold_left (copy_if_present (VObj o)) table data = data ++ present_entries o table.
Proof.
  induction table as [|[src dst] rest IH]; intros Hnd data Hfresh.
  - simpl. now rewrite app_nil_r.
  - inversion Hnd as [|? ? Hnew Hnd']; subst.
    cbn [fold_left copy_if_present hasOwnProperty get present_entries flat_map fst snd].
    destruct (obj_lookup src o) as [v|].
    + rewrite obj_set_fresh by (apply Hfresh; now left).
      rewrite IH; [now rewrite <- app_assoc | assumption |].
      intros d Hd. rewrite obj_lookup_app, Hfresh by (now right). simpl.
      destruct (String.eqb_spec d dst) as [->|_]; [contradiction | reflexivity].
    + rewrite IH; [reflexivity | assumption |].
      intros d Hd. apply Hfresh. now right.
Qed.

Lemma fold_copy_absent (measure : value) (table : list (string * string)) (data : obj) :
  (forall entry, In entry table -> hasOwnProperty measure (fst entry) = false) ->
  fold_left (copy_if_present measure) table data = data.
Proof.
  revert data. induction table as [|[src dst] rest IH]; intros data Hnone; simpl.
  - reflexivity.
  - pose proof (Hnone (src, dst) (or_introl eq_refl)) as Hsrc.
    cbn [fst] in Hsrc. rewrite Hsrc.
    apply IH. intros entry Hin. apply Hnone. now right.
Qed.

(** An index key is a decimal numeral. *)
Lemma is_index_below_numeral (n : nat) (k : string) :
  NilEmpty.uint_of_string k = None -> is_index_below n k = false.
Proof.
  intros Hk. unfold is_index_below.
  apply not_true_is_false. intros Hex. apply existsb_exists in Hex.
  destruct Hex as (i & _ & Heq). apply String.eqb_eq in Heq. subst k.
  unfold index_key in Hk. rewrite NilEmpty.usu in Hk. discriminate Hk.
Qed.

Lemma rename_table_sources_named :
  Forall (fun entry => String.eqb (fst entry) "length" = false /\
                       NilEmpty.uint_of_string (fst entry) = None) rename_table.
Proof. repeat constructor. Qed.

(** X1. On an object, [processMeasure] returns exactly the entries of its
    table whose source key the object has, renamed, in the order of the
    table, whatever the order of the input's keys. *)
Theorem processMeasure_closed_form (o : obj) :
  processMeasure (VObj o) = Normal (present_entries o rename_table).
Proof.
  unfold processMeasure. cbn [nullish]. f_equal.
  rewrite (fold_copy_closed o rename_table rename_table_NoDup []).
  - reflexivity.
  - intros dst _. reflexivity.
Qed.

(** X2. [processMeasure] reads nothing but the source keys of its table:
    two objects that agree on these keys, whatever else they hold and in
    whatever order, give the same record. *)
Theorem processMeasure_ignores_other_keys (o1 o2 : obj) :
  (forall src, In src (map fst rename_table) -> obj_lookup src o1 = obj_lookup src o2) ->
  processMeasure (VObj o1) = processMeasure (VObj o2).
Proof.
  intros Hagree. unfold processMeasure. cbn [nullish]. f_equal.
  rewrite !(fold_copy_closed _ rename_table rename_table_NoDup [])
    by (intros dst _; reflexivity).
  f_equal. unfold present_entries.
  generalize dependent rename_table. intros table.
  induction table as [|[src dst] rest IH]; intros Hagree; simpl.
  - reflexivity.
  - rewrite (Hagree src) by now left.
    f_equal. apply IH. intros s Hs. apply Hagree. now right.
Qed.

Lemma processMeasure_ignores_other_keys_witness :
  processMeasure (VObj [ ("co2", VNum 967); ("Humidity", VNum 41);
                         ("firmware", VNum 137); ("Temperature", VNum (237 # 10)) ])
    = processMeasure (VObj [ ("Temperature", VNum (237 # 10)); ("Humidity", VNum 41) ]).
Proof.
  apply processMeasure_ignores_other_keys.
  intros src Hsrc. simpl in Hsrc.
  repeat (destruct Hsrc as [<-|Hsrc]; [reflexivity|]). destruct Hsrc.
Defined.

(** X3. On a value that is neither null nor an object (a string, a number,
    a boolean, an array) [processMeasure] returns the empty record: none of
    the source keys is an own property of such a value. *)
Theorem processMeasure_of_non_object (measure : value) :
  nullish measure = false ->
  (forall o, measure <> VObj o) ->
  processMeasure measure = Normal [].
Proof.
  intros Hn Hobj. unfold processMeasure. rewrite Hn. f_equal.
  apply fold_copy_absent. intros entry Hin.
  pose proof rename_table_sources_named as Hnamed.
  rewrite Forall_forall in Hnamed. destruct (Hnamed entry Hin) as [Hlen Hnum].
  destruct measure as [| |b|q|s|l|o]; try reflexivity; try discriminate Hn.
  - simpl. now rewrite Hlen, is_index_below_numeral.
  - simpl. now rewrite Hlen, is_index_below_numeral.
  - exfalso. now apply (Hobj o).
Qed.

Lemma processMeasure_of_non_object_witness :
  processMeasure (VStr "unavailable") = Normal [] /\
  processMeasure (VArr [VNum 1; VNum 2]) = Normal [].
Proof.
  split; apply processMeasure_of_non_object; try reflexivity; intros o H; discriminate H.
Defined.

End NormalizerClosedForm.

(** ** Stations and air-quality devices in closed form *)

Ltac not_a_destination :=
  let H := fresh in
  intros H; simpl in H;
  repeat (destruct H as [H|H]; [discriminate H|]); exact H.

Section StationClosedForm.

Import Normalizer.

Lemma normalized_fresh (measure : value) (k : string) :
  ~ In k (map snd rename_table) -> obj_lookup k (normalized measure) = None.
Proof.
  intros Hk. unfold normalized, processMeasure.
  destruct (nullish measure); [reflexivity|].
  now rewrite fold_copy_untouched.
Qed.

Lemma processMeasure_normalized (measure : value) :
  nullish measure = false -> processMeasure measure = Normal (normalized measure).
Proof. intros Hn. unfold normalized, processMeasure. now rewrite Hn. Qed.

Lemma obj_set_after (data fields : obj) (k : string) (v : value) :
  obj_lookup k data = None -> obj_lookup k fields = None ->
  obj_set k v (data ++ fields) = data ++ (fields ++ [(k, v)]).
Proof.
  intros Hd Hf. rewrite obj_set_fresh; [now rewrite app_assoc|].
  now rewrite obj_lookup_app, Hd.
Qed.

Ltac append_fields :=
  rewrite (obj_set_fresh _ _ (normalized _)) by (apply normalized_fresh; not_a_destination);
  repeat (rewrite obj_set_after
            by first [apply normalized_fresh; not_a_destination | reflexivity]);
  reflexivity.

Lemma device_ok_split (device : value) :
  device_ok device = true ->
  nullish device = false /\ nullish (get device "dashboard_data") = false.
Proof.
  unfold device_ok. intros H. apply andb_prop in H. destruct H as [H1 H2].
  now rewrite negb_true_iff in H1, H2.
Qed.

Lemma processModule_run (station module : value) (fx : effects) :
  processModule station module fx =
    if device_ok module
    then (Normal tt, mkEffects (frames fx ++ [module_record station module]) (warnings fx))
    else (Thrown TypeError, fx).
Proof.
  unfold processModule, device_ok.
  destruct (nullish module); [reflexivity|]. cbn [negb andb].
  unfold bind, lift.
  destruct (nullish (get module "dashboard_data")) eqn:Hd; cbn [negb].
  - now rewrite processMeasure_throws.
  - rewrite (processMeasure_normalized _ Hd). unfold emit.
    do 3 f_equal. unfold module_record. append_fields.
Qed.

Lemma processAircare_run (aircare : value) (fx : effects) :
  processAircare aircare fx =
    if device_ok aircare
    then (Normal tt, mkEffects (frames fx ++ [aircare_record aircare]) (warnings fx))
    else (Thrown TypeError, fx).
Proof.
  unfold processAircare, device_ok.
  destruct (nullish aircare); [reflexivity|]. cbn [negb andb].
  unfold bind, lift.
  destruct (nullish (get aircare "dashboard_data")) eqn:Hd; cbn [negb].
  - now rewrite processMeasure_throws.
  - rewrite (processMeasure_normalized _ Hd). unfold emit.
    do 3 f_equal. unfold aircare_record. append_fields.
Qed.

Lemma for_each_modules_run (station : value) (modules : list value) (fx : effects) :
  for_each (processModule station) modules fx =
    (if forallb device_ok modules then Normal tt else Thrown TypeError,
     mkEffects (frames fx ++ map (module_record station) (accepted_prefix modules))
               (warnings fx)).
Proof.
  revert fx. induction modules as [|m rest IH]; intros fx.
  - simpl. rewrite app_nil_r. now destruct fx.
  - cbn [for_each forallb accepted_prefix]. unfold bind at 1.
    rewrite processModule_run. destruct (device_ok m); cbn [andb map].
    + rewrite IH. cbn [frames warnings]. now rewrite <- app_assoc.
    + rewrite app_nil_r. now destruct fx.
Qed.

Lemma processStation_run (station : value) (fx : effects) :
  processStation station fx =
    if device_ok station then
      (if forallb device_ok (modules_of station) then Normal tt else Thrown TypeError,
       mkEffects
         (frames fx ++ station_record station
                       :: map (module_record station) (accepted_prefix (modules_of station)))
         (warnings fx ++ station_warnings station))
    else (Thrown TypeError, fx).
Proof.
  unfold processStation, device_ok.
  destruct (nullish station); [reflexivity|]. cbn [negb andb].
  unfold bind at 1, lift.
  destruct (nullish (get station "dashboard_data")) eqn:Hd; cbn [negb].
  - now rewrite processMeasure_throws.
  - rewrite (processMeasure_normalized _ Hd).
    replace (obj_set "wifistatus" _ _) with (station_record station)
      by (unfold station_record; symmetry; append_fields).
    unfold bind, emit, modules_of, station_warnings.
    destruct (Lodash.isEmpty (get station "modules")).
    + reflexivity.
    + rewrite for_each_modules_run. cbn [frames warnings].
      now rewrite <- app_assoc, app_nil_r.
Qed.

Lemma accepted_prefix_all (modules : list value) :
  forallb device_ok modules = true -> accepted_prefix modules = modules.
Proof.
  induction modules as [|m rest IH]; simpl; [reflexivity|].
  destruct (device_ok m); [|discriminate]. intros H. now rewrite IH.
Qed.


(** X4. A station that carries [dashboard_data] and whose modules, when it
    has any, are an array of modules that each carry [dashboard_data], is
    processed without error into its own record followed by one record per
    module, in order. Each record is the normalized
    measurement followed by the identity fields: they never replace a
    measurement, and a module's [home] is the station's [home_name]. The
    warning is logged exactly when the module list is empty. *)
Theorem processStation_closed_form (station : value) (fx : effects) :
  station_ok station = true ->
  processStation station fx =
    (Normal tt,
     mkEffects (frames fx ++ station_frames station)
               (warnings fx ++ station_warnings station)).
Proof.
  unfold station_ok. intros Hok. apply andb_prop in Hok. destruct Hok as [Hok Hmods].
  apply andb_prop in Hok. destruct Hok as [Hst _].
  rewrite processStation_run, Hst, Hmods.
  rewrite (accepted_prefix_all _ Hmods). reflexivity.
Qed.

Lemma processStation_closed_form_witness :
  processStation Fixtures.two_modules_station no_effects =
    (Normal tt,
     mkEffects [ station_record Fixtures.two_modules_station;
                 module_record Fixtures.two_modules_station Fixtures.rain_module;
                 module_record Fixtures.two_modules_station Fixtures.wind_module ] []) /\
  obj_lookup "home" (module_record Fixtures.two_modules_station Fixtures.rain_module)
    = Some (VStr "Home").
Proof.
  split; [|reflexivity].
  apply (processStation_closed_form Fixtures.two_modules_station no_effects).
  reflexivity.
Defined.



(** X6. [processAircare] emits exactly one record, the normalized
    measurement followed by [id], [name], [type], [module], [online] and
    [wifistatus], when the device is not null and carries [dashboard_data];
    otherwise it throws a TypeError and emits nothing. It never logs. *)
Theorem processAircare_closed_form (aircare : value) (fx : effects) :
  (device_ok aircare = true ->
   processAircare aircare fx =
     (Normal tt, mkEffects (frames fx ++ [aircare_record aircare]) (warnings fx))) /\
  (device_ok aircare = false -> processAircare aircare fx = (Thrown TypeError, fx)) /\
  warnings (snd (processAircare aircare fx)) = warnings fx.
Proof.
  rewrite processAircare_run.
  destruct (device_ok aircare); repeat split; try reflexivity; discriminate.
Qed.

Lemma processAircare_closed_form_witness :
  processAircare (VObj Fixtures.aircare_fields) no_effects =
    (Normal tt,
     mkEffects [ [ ("temperature", VNum (237 # 10)); ("co2", VNum 967);
                   ("id", VStr "70:ee:50:22:a3:00"); ("name", VStr "Bedroom");
                   ("type", VStr "NHC"); ("module", VStr "string");
                   ("online", VNum 0); ("wifistatus", VNum 22) ] ] []) /\
  processAircare VNull no_effects = (Thrown TypeError, no_effects).
Proof.
  destruct (processAircare_closed_form (VObj Fixtures.aircare_fields) no_effects)
    as (Hok & _ & _).
  destruct (processAircare_closed_form VNull no_effects) as (_ & Hbad & _).
  split; [apply Hok | apply Hbad]; reflexivity.
Defined.

Lemma record_identity_keys (fields : obj) (k : string) :
  ~ In k (map snd rename_table) ->
  forall measure, obj_lookup k (normalized measure ++ fields) = obj_lookup k fields.
Proof. intros Hk measure. now rewrite obj_lookup_app, normalized_fresh. Qed.

(** X7. The keys of the emitted records. Every record [processStation]
    emits has the own keys [id], [name], [type], [home] and [online]; the
    station's own record, the first, also has [wifistatus] and neither
    [rfstatus] nor [battery]; every other record is a module's, with
    [rfstatus] and [battery] and without [wifistatus]. This holds for every
    input, also when the call ends in an error. *)
Theorem processStation_record_keys (station : value) (fx : effects) :
  exists records,
    frames (snd (processStation station fx)) = frames fx ++ records /\
    Forall (fun r => forall k, In k ["id"; "name"; "type"; "home"; "online"] ->
                               obj_lookup k r <> None) records /\
    match records with
    | [] => True
    | own :: others =>
        obj_lookup "wifistatus" own <> None /\
        obj_lookup "rfstatus" own = None /\ obj_lookup "battery" own = None /\
        Forall (fun r => obj_lookup "rfstatus" r <> None /\
                         obj_lookup "battery" r <> None /\
                         obj_lookup "wifistatus" r = None) others
    end.
Proof.
  rewrite processStation_run. destruct (device_ok station).
  - eexists. split; [reflexivity|].
    assert (Hmods : forall ms r, In r (map (module_record station) ms) ->
                                 exists m, r = module_record station m).
    { intros ms r Hin. apply in_map_iff in Hin. destruct Hin as (m & <- & _). now exists m. }
    split; [|split; [|split; [|split]]].
    + apply Forall_forall. intros r [<-|Hin].
      * intros k Hk. unfold station_record.
        rewrite (record_identity_keys _ k); simpl in Hk;
          repeat (destruct Hk as [<-|Hk]; [first [discriminate | not_a_destination]|]);
          try destruct Hk.
      * destruct (Hmods _ _ Hin) as [m ->]. intros k Hk. unfold module_record.
        rewrite (record_identity_keys _ k); simpl in Hk;
          repeat (destruct Hk as [<-|Hk]; [first [discriminate | not_a_destination]|]);
          try destruct Hk.
    + unfold station_record. rewrite (record_identity_keys _ "wifistatus");
        [discriminate | not_a_destination].
    + unfold station_record. rewrite (record_identity_keys _ "rfstatus");
        [reflexivity | not_a_destination].
    + unfold station_record. rewrite (record_identity_keys _ "battery");
        [reflexivity | not_a_destination].
    + apply Forall_forall. intros r Hin. destruct (Hmods _ _ Hin) as [m ->].
      unfold module_record.
      rewrite (record_identity_keys _ "rfstatus") by not_a_destination.
      rewrite (record_identity_keys _ "battery") by not_a_destination.
      rewrite (record_identity_keys _ "wifistatus") by not_a_destination.
      repeat split; discriminate.
  - exists []. split; [now rewrite app_nil_r | split; [constructor | exact I]].
Qed.

End StationClosedForm.

(** ** What every run of the client keeps *)

Section ClientInvariants.

Import Client.

Variable w : world.

Lemma sendable_precondition (s : state) (path : string) :
  negb (String.eqb path PATH_AUTH) && negb (truthy (accessToken (this s)))
    = negb (sendable s path).
Proof. unfold sendable. now rewrite negb_orb. Qed.

Lemma request_not_sendable (fuel : nat) (method path : string) (params data : value)
    (isRetry : bool) (s : state) :
  sendable s path = false ->
  request w fuel method path params data isRetry s = Threw MissingAccessToken s.
Proof.
  intros Hs. rewrite request_unfold, sendable_precondition, Hs. reflexivity.
Qed.

Lemma request_fulfilled (fuel : nat) (method path : string) (params data : value)
    (isRetry : bool) (s : state) (result_data : value) :
  sendable s path = true ->
  axios_answer w (length (sent s)) (request_config (this s) method path params data)
    = Fulfilled result_data ->
  request w fuel method path params data isRetry s =
    Returned result_data (after_send (request_config (this s) method path params data) s).
Proof.
  intros Hs Hans. rewrite request_unfold, sendable_precondition, Hs.
  cbn [negb]. cbv zeta. now rewrite Hans.
Qed.

(** A request that is rejected outside the expired-token branch throws a
    RequestFailed for its path after that one request. *)
Lemma request_rejected (fuel : nat) (method path : string) (params data : value)
    (isRetry : bool) (s : state) (e : axios_error) :
  sendable s path = true ->
  axios_answer w (length (sent s)) (request_config (this s) method path params data)
    = Rejected e ->
  (forall r, e_response e = Some r -> truthy (Client.data r) = true ->
             token_expired isRetry r = false) ->
  exists msg status,
    request w fuel method path params data isRetry s =
      Threw (RequestFailed path msg status)
            (after_send (request_config (this s) method path params data) s).
Proof.
  intros Hs Hans Hplain. rewrite request_unfold, sendable_precondition, Hs.
  cbn [negb]. cbv zeta. rewrite Hans.
  destruct (e_response e) as [r|]; [|eauto].
  destruct (truthy (Client.data r)) eqn:Hd; [|eauto].
  rewrite (Hplain r eq_refl Hd). unfold classify.
  destruct (truthy (get (Client.data r) "error_description")); [eauto|].
  destruct (truthy (get (Client.data r) "error") && truthy _); [eauto|].
  destruct (truthy (get (Client.data r) "error")); eauto.
Qed.

Section Ensures.

(** A relation between states that every step of the client keeps, and a
    set of errors that holds the ones the client builds for the paths
    [paths]. *)
Variable R : state -> state -> Prop.
Variable E : exn -> Prop.
Variable paths : string -> Prop.

Hypothesis R_refl : forall s, R s s.
Hypothesis R_trans : forall s1 s2 s3, R s1 s2 -> R s2 s3 -> R s1 s3.
Hypothesis R_this : forall c s, R s (with_this c s).
Hypothesis R_clock : forall s, R s (after_clock_read s).
Hypothesis R_send : forall s method path params data,
    sendable s path = true ->
    R s (after_send (request_config (this s) method path params data) s).

Hypothesis paths_token : paths PATH_AUTH.
Hypothesis E_TypeError : E TypeError.
Hypothesis E_InvalidToken : E InvalidToken.
Hypothesis E_RequestFailed : forall path msg status,
    paths path -> E (RequestFailed path msg status).
Hypothesis E_MissingAccessToken : forall path,
    paths path -> path <> PATH_AUTH -> E MissingAccessToken.

Lemma ensures_ret {A} (a : A) : ensures R E (ret a).
Proof. intros s. apply R_refl. Qed.

Lemma ensures_throw {A} (e : exn) : E e -> ensures R E (@throw A e).
Proof. intros He s. split; [apply R_refl | exact He]. Qed.

Lemma ensures_bind {A B} (c : M A) (k : A -> M B) :
  ensures R E c -> (forall a, ensures R E (k a)) -> ensures R E (bind c k).
Proof.
  intros Hc Hk s. unfold bind. specialize (Hc s).
  destruct (c s) as [a s'|e s'|why]; [|assumption|exact I].
  specialize (Hk a s'). destruct (k a s') as [b s''|e s''|why]; [|destruct Hk; split|exact I];
    eauto.
Qed.

Lemma ensures_update_this (f : client -> client) : ensures R E (update_this f).
Proof. intros s. apply (R_this (f (this s)) s). Qed.

Lemma ensures_get_this : ensures R E get_this.
Proof. intros s. apply R_refl. Qed.

Lemma ensures_now : ensures R E (now w).
Proof. intros s. apply R_clock. Qed.

Lemma ensures_checkAndSetAccesToken (tok : value) (exp : timestamp) :
  ensures R E (checkAndSetAccesToken w tok exp).
Proof.
  unfold checkAndSetAccesToken. destruct (truthy tok); [|apply ensures_ret].
  apply ensures_bind; [apply ensures_now|]. intros ms.
  destruct (timestamp_number exp) as [n|]; [|intros st; exact I].
  destruct (greater n (ms # 1000)); [|apply ensures_ret].
  repeat (apply ensures_bind; [apply ensures_update_this|intros _]). apply ensures_ret.
Qed.

Lemma ensures_setToken (authentication : value) : ensures R E (setToken w authentication).
Proof.
  unfold setToken. destruct (nullish authentication); [now apply ensures_throw|].
  destruct (_ || _); [now apply ensures_throw|].
  repeat (apply ensures_bind; [apply ensures_update_this|intros _]).
  apply ensures_bind; [apply ensures_now|]. intros ms.
  apply ensures_update_this.
Qed.

Lemma ensures_connect_with
    (request_rec : string -> string -> value -> value -> bool -> M value)
    (tok rt : value) (exp : timestamp) :
  (forall m ps d r, ensures R E (request_rec m PATH_AUTH ps d r)) ->
  ensures R E (connect_with w request_rec tok rt exp).
Proof.
  intros Hreq. unfold connect_with.
  apply ensures_bind; [apply ensures_checkAndSetAccesToken|]. intros valid.
  destruct valid.
  - destruct (truthy (or_null rt)); [apply ensures_update_this | apply ensures_ret].
  - destruct (truthy (or_null rt)) eqn:Hrt.
    + unfold authenticateByRefreshToken_with. rewrite Hrt. cbn [negb].
      apply ensures_bind; [apply ensures_update_this|]. intros _.
      apply ensures_bind; [apply ensures_get_this|]. intros c.
      apply ensures_bind; [apply Hreq|]. intros authentication.
      apply ensures_setToken.
    + unfold authenticateByClientCredentials_with.
      apply ensures_bind; [apply ensures_get_this|]. intros c.
      apply ensures_bind; [apply Hreq|]. intros authentication.
      apply ensures_setToken.
Qed.

Lemma ensures_request (fuel : nat) :
  forall method path params data isRetry,
    paths path ->
    ensures R E (request w fuel method path params data isRetry).
Proof.
  induction fuel as [|fuel IH]; intros method path params data isRetry Hpath s;
    rewrite request_unfold, sendable_precondition;
    (destruct (sendable s path) eqn:Hs; cbn [negb];
     [|split; [apply R_refl|];
       apply (E_MissingAccessToken path Hpath);
       intros ->; unfold sendable in Hs; discriminate Hs]);
    cbv zeta;
    pose proof (R_send s method path params data Hs) as Hsent;
    (destruct (axios_answer _ _ _) as [d|e]; [exact Hsent|]);
    (destruct (e_response e) as [r|]; [|split; [exact Hsent | now apply E_RequestFailed]]);
    (destruct (truthy (Client.data r));
     [|split; [exact Hsent | now apply E_RequestFailed]]);
    (destruct (token_expired isRetry r);
     [|unfold classify;
       repeat match goal with
              | |- context [if ?b then _ else _] => destruct b
              end;
       (split; [exact Hsent | now apply E_RequestFailed])]).
  - exact I.
  - assert (Hrun : ensures R E
              (connect w fuel VNull (refreshToken (this s)) (expiresInTimestamp (this s)) ;;;
               request w fuel method path params data true)).
    { apply ensures_bind; [|intros _; now apply IH].
      apply ensures_connect_with. intros m ps d retry. now apply IH. }
    match goal with |- context [bind ?c ?k ?s1] => specialize (Hrun s1) end.
    assert (Hstart : R s (with_this (set_accessToken VNull (this s))
                            (after_send (request_config (this s) method path params data) s))).
    { eapply R_trans; [exact Hsent | apply R_this]. }
    match type of Hrun with
    | match ?x with _ => _ end => destruct x as [a s'|e' s'|why]
    end; [|destruct Hrun; split|exact I]; eauto.
Qed.

Lemma ensures_connect (fuel : nat) (tok rt : value) (exp : timestamp) :
  ensures R E (connect w fuel tok rt exp).
Proof.
  apply ensures_connect_with. intros m ps d r. now apply ensures_request.
Qed.

End Ensures.

End ClientInvariants.

(** ** Errors, authorization and re-authentication *)

Section ClientFurther.

Import Client.

Variable w : world.

(** The first request of a call that sends one stays first in what the
    call sends. *)
Lemma request_first_sent (fuel : nat) (method path : string) (params data : value)
    (isRetry : bool) (s : state) :
  sendable s path = true ->
  match request w fuel method path params data isRetry s with
  | Returned _ s' | Threw _ s' =>
      extends (after_send (request_config (this s) method path params data) s) s'
  | Stuck _ => True
  end.
Proof.
  intros Hs. rewrite request_unfold, sendable_precondition, Hs. cbn [negb]. cbv zeta.
  destruct (axios_answer _ _ _) as [d|e]; [apply extends_refl|].
  destruct (e_response e) as [r|]; [|apply extends_refl].
  destruct (truthy (Client.data r)); [|apply extends_refl].
  destruct (token_expired isRetry r);
    [|destruct (classify path r); apply extends_refl].
  destruct fuel as [|fuel]; [exact I|].
  assert (Hg : grows (connect w fuel VNull (refreshToken (this s)) (expiresInTimestamp (this s)) ;;;
                      request w fuel method path params data true)).
  { apply grows_bind; [|intros _; apply grows_request].
    apply grows_connect_with. apply grows_request. }
  match goal with |- context [bind ?c ?k ?s1] => specialize (Hg s1) end.
  match type of Hg with
  | match ?x with _ => _ end => destruct x as [a s'|e' s'|why]
  end; try exact I; destruct Hg as [more Hmore]; exists more; exact Hmore.
Qed.

(** X8. The errors of the client. [connect] throws nothing but a
    RequestFailed for the token endpoint, 'Invalid Netatmo token' or a
    TypeError; [request] throws nothing but these, 'Access token must be
    provided' and a RequestFailed for its own path. Neither ever throws
    'Refresh token must be provided'. *)
Theorem client_error_taxonomy (fuel : nat) :
  (forall tok rt exp s e s',
      connect w fuel tok rt exp s = Threw e s' ->
      e = TypeError \/ e = InvalidToken \/
      exists msg status, e = RequestFailed PATH_AUTH msg status) /\
  (forall method path params data isRetry s e s',
      request w fuel method path params data isRetry s = Threw e s' ->
      e = MissingAccessToken \/ e = TypeError \/ e = InvalidToken \/
      (exists msg status, e = RequestFailed path msg status) \/
      (exists msg status, e = RequestFailed PATH_AUTH msg status)).
Proof.
  split.
  - intros tok rt exp s e s' Hrun.
    pose proof (ensures_connect w (fun _ _ => True)
                  (fun e => e = TypeError \/ e = InvalidToken \/
                            exists msg status, e = RequestFailed PATH_AUTH msg status)
                  (fun p => p = PATH_AUTH)) as Hens.
    specialize (Hens (fun _ => I) (fun _ _ _ _ _ => I) (fun _ _ => I) (fun _ => I)
                     (fun _ _ _ _ _ _ => I) eq_refl).
    specialize (Hens (or_introl eq_refl) (or_intror (or_introl eq_refl))).
    assert (Hfail : forall path msg status, path = PATH_AUTH ->
               RequestFailed path msg status = TypeError \/
               RequestFailed path msg status = InvalidToken \/
               exists msg' status', RequestFailed path msg status
                                    = RequestFailed PATH_AUTH msg' status').
    { intros path msg status ->. right. right. eauto. }
    specialize (Hens Hfail).
    assert (Hmiss : forall path, path = PATH_AUTH -> path <> PATH_AUTH ->
               MissingAccessToken = TypeError \/ MissingAccessToken = InvalidToken \/
               exists msg status, MissingAccessToken = RequestFailed PATH_AUTH msg status).
    { intros path -> Hne. now contradiction Hne. }
    specialize (Hens Hmiss fuel tok rt exp s). rewrite Hrun in Hens. apply Hens.
  - intros method path params data isRetry s e s' Hrun.
    pose proof (ensures_request w (fun _ _ => True)
                  (fun e => e = MissingAccessToken \/ e = TypeError \/ e = InvalidToken \/
                            (exists msg status, e = RequestFailed path msg status) \/
                            (exists msg status, e = RequestFailed PATH_AUTH msg status))
                  (fun p => p = PATH_AUTH \/ p = path)) as Hens.
    specialize (Hens (fun _ => I) (fun _ _ _ _ _ => I) (fun _ _ => I) (fun _ => I)
                     (fun _ _ _ _ _ _ => I) (or_introl eq_refl)).
    specialize (Hens (or_intror (or_introl eq_refl))
                     (or_intror (or_intror (or_introl eq_refl)))).
    assert (Hfail : forall p msg status, p = PATH_AUTH \/ p = path ->
               RequestFailed p msg status = MissingAccessToken \/
               RequestFailed p msg status = TypeError \/
               RequestFailed p msg status = InvalidToken \/
               (exists msg' status', RequestFailed p msg status
                                     = RequestFailed path msg' status') \/
               (exists msg' status', RequestFailed p msg status
                                     = RequestFailed PATH_AUTH msg' status')).
    { intros p msg status [-> | ->]; [do 4 right | do 3 right; left]; eauto. }
    specialize (Hens Hfail (fun _ _ _ => or_introl eq_refl) fuel method path params data
                     isRetry (or_intror eq_refl) s).
    rewrite Hrun in Hens. apply Hens.
Qed.

(** X9. Every request the client sends, in a call of [request] or of
    [connect] and in the re-authentications nested in it, is authorized as
    its path requires: none to the token endpoint carries an [Authorization]
    header, and every other one carries the bearer of a truthy token. *)
Theorem requests_are_authorized (fuel : nat) :
  (forall method path params data isRetry s,
      match request w fuel method path params data isRetry s with
      | Returned _ s' | Threw _ s' => sends_only authorized s s'
      | Stuck _ => True
      end) /\
  (forall tok rt exp s,
      match connect w fuel tok rt exp s with
      | Returned _ s' | Threw _ s' => sends_only authorized s s'
      | Stuck _ => True
      end).
Proof.
  assert (Hrefl : forall s, sends_only authorized s s).
  { intros s. exists []. split; [now rewrite app_nil_r | constructor]. }
  assert (Htrans : forall s1 s2 s3, sends_only authorized s1 s2 ->
                     sends_only authorized s2 s3 -> sends_only authorized s1 s3).
  { intros s1 s2 s3 (m1 & H1 & F1) (m2 & H2 & F2). exists (m1 ++ m2).
    split; [now rewrite H2, H1, app_assoc | now apply Forall_app]. }
  assert (Hthis : forall c s, sends_only authorized s (with_this c s)).
  { intros c s. exists []. split; [simpl; now rewrite app_nil_r | constructor]. }
  assert (Hclock : forall s, sends_only authorized s (after_clock_read s)).
  { intros s. exists []. split; [simpl; now rewrite app_nil_r | constructor]. }
  assert (Hsend : forall s method path params data,
             sendable s path = true ->
             sends_only authorized s
               (after_send (request_config (this s) method path params data) s)).
  { intros s method path params data Hs. eexists. split; [reflexivity|].
    constructor; [|constructor]. unfold authorized, request_config. cbn [url Authorization].
    unfold sendable in Hs. destruct (String.eqb path PATH_AUTH); [reflexivity|].
    eexists. split; [reflexivity | exact Hs]. }
  pose proof (ensures_request w (sends_only authorized) (fun _ => True) (fun _ => True)
                Hrefl Htrans Hthis Hclock Hsend I I I (fun _ _ _ _ => I) (fun _ _ _ => I))
    as Hreq.
  pose proof (ensures_connect w (sends_only authorized) (fun _ => True) (fun _ => True)
                Hrefl Htrans Hthis Hclock Hsend I I I (fun _ _ _ _ => I) (fun _ _ _ => I))
    as Hcon.
  split.
  - intros method path params data isRetry s.
    specialize (Hreq fuel method path params data isRetry I s).
    destruct (request w fuel method path params data isRetry s); tauto.
  - intros tok rt exp s. specialize (Hcon fuel tok rt exp s).
    destruct (connect w fuel tok rt exp s); tauto.
Qed.

(** X10. A retried request is final. With [isRetry = true], [request]
    needs no fuel and never re-authenticates: it throws at once for want of
    a token, or sends exactly one request; in both cases it leaves the
    client's tokens and expiry as they were. *)
Theorem request_retry_is_final (fuel : nat) (method path : string) (params data : value)
    (s : state) :
  request w fuel method path params data true s
    = request w 0 method path params data true s /\
  match request w fuel method path params data true s with
  | Returned _ s' | Threw _ s' =>
      this s' = this s /\
      (s' = s \/ s' = after_send (request_config (this s) method path params data) s)
  | Stuck _ => False
  end.
Proof.
  assert (Hnever : forall r, token_expired true r = false) by reflexivity.
  split.
  - rewrite !request_unfold.
    destruct (negb _ && negb _); [reflexivity|]. cbv zeta.
    destruct (axios_answer _ _ _) as [d|e]; [reflexivity|].
    destruct (e_response e) as [r|]; [|reflexivity].
    destruct (truthy (Client.data r)); [|reflexivity].
    now rewrite Hnever.
  - rewrite request_unfold.
    destruct (negb _ && negb _); [split; [reflexivity | now left]|]. cbv zeta.
    destruct (axios_answer _ _ _) as [d|e]; [split; [reflexivity | now right]|].
    destruct (e_response e) as [r|]; [|split; [reflexivity | now right]].
    destruct (truthy (Client.data r)); [|split; [reflexivity | now right]].
    rewrite Hnever.
    destruct (classify path r); split; try reflexivity; now right.
Qed.

End ClientFurther.

Section Reauthentication.

Import Client.

Variable w : world.

(** X11. A re-authentication that fails logs the client out. When the
    first attempt meets the expired-token signature and the token request of
    the re-authentication is rejected, [request] throws the RequestFailed of
    the token endpoint after these two requests, without retrying, and the
    access token stays cleared: every later request to another path throws
    'Access token must be provided' without sending anything. *)
Theorem failed_reauthentication_logs_out (fuel : nat) (method path : string)
    (params data : value) (s : state) (e e2 : axios_error) (r : response) :
  sendable s path = true ->
  let first_attempt := request_config (this s) method path params data in
  let token_attempt :=
    token_request (this s)
      (if truthy (refreshToken (this s))
       then refresh_token_form (this s) (refreshToken (this s))
       else password_form (this s)) in
  axios_answer w (length (sent s)) first_attempt = Rejected e ->
  e_response e = Some r ->
  truthy (Client.data r) = true ->
  token_expired false r = true ->
  axios_answer w (S (length (sent s))) token_attempt = Rejected e2 ->
  (forall r2, e_response e2 = Some r2 -> truthy (Client.data r2) = true ->
              token_expired false r2 = false) ->
  exists msg status s',
    request w (S fuel) method path params data false s
      = Threw (RequestFailed PATH_AUTH msg status) s' /\
    accessToken (this s') = VNull /\
    refreshToken (this s') = refreshToken (this s) /\
    sent s' = sent s ++ [first_attempt; token_attempt] /\
    forall fuel' method' path' params' data' isRetry',
      path' <> PATH_AUTH ->
      request w fuel' method' path' params' data' isRetry' s' = Threw MissingAccessToken s'.
Proof.
  intros Hs first_attempt token_attempt Hans Hresp Hdata Hexp Hans2 Hplain.
  rewrite request_unfold, sendable_precondition, Hs. cbn [negb]. cbv zeta.
  fold first_attempt. rewrite Hans, Hresp, Hdata, Hexp.
  unfold bind at 1.
  set (s1 := with_this (set_accessToken VNull (this s)) (after_send first_attempt s)).
  change (refreshToken (this s)) with (refreshToken (this s1)) at 1.
  change (expiresInTimestamp (this s)) with (expiresInTimestamp (this s1)).
  rewrite (reauthentication_grant w fuel s1 eq_refl). unfold bind at 1.
  destruct (request_rejected w fuel HTTP_POST PATH_AUTH VNull
              (if truthy (refreshToken (this s1))
               then refresh_token_form (this s1) (refreshToken (this s1))
               else password_form (this s1)) false s1 e2)
    as (msg & status & Hthrow).
  - reflexivity.
  - subst s1. cbn [sent after_send with_this]. rewrite length_app, Nat.add_comm. exact Hans2.
  - exact Hplain.
  - rewrite Hthrow. exists msg, status. eexists. split; [reflexivity|].
    split; [reflexivity|]. split; [reflexivity|]. split.
    + subst s1. cbn [sent after_send with_this]. now rewrite <- app_assoc.
    + intros fuel' method' path' params' data' isRetry' Hpath.
      apply request_not_sendable. unfold sendable.
      apply String.eqb_neq in Hpath. now rewrite Hpath.
Qed.

(** X12. Without a stored refresh token the re-authentication is the
    password grant: after the expired-token signature, once the token
    endpoint accepts the client's credentials, the tokens of its answer
    replace the client's own and the call is the request retried after
    exactly two requests, with the new access token as its bearer; when the
    retry is fulfilled its data is returned, after three requests. *)
Theorem reauthentication_by_password (fuel : nat) (method path : string)
    (params data : value) (s : state) (e : axios_error) (r : response)
    (authentication : value) :
  sendable s path = true ->
  truthy (refreshToken (this s)) = false ->
  let first_attempt := request_config (this s) method path params data in
  let token_attempt := token_request (this s) (password_form (this s)) in
  axios_answer w (length (sent s)) first_attempt = Rejected e ->
  e_response e = Some r ->
  truthy (Client.data r) = true ->
  token_expired false r = true ->
  axios_answer w (S (length (sent s))) token_attempt = Fulfilled authentication ->
  accepted authentication = true ->
  let renewed :=
    mkClient (clientId (this s)) (clientSecret (this s)) (requestConfig (this s))
             (username (this s)) (password (this s))
             (get authentication "access_token")
             (get authentication "refresh_token")
             (seconds_plus (Date_now w (clock_reads s) / 1000)
                           (get authentication "expires_in")) in
  let retry := request_config renewed method path params data in
  request w (S fuel) method path params data false s =
    request w fuel method path params data true
      (mkState renewed (sent s ++ [first_attempt; token_attempt]) (S (clock_reads s))) /\
  (path <> PATH_AUTH ->
   Authorization retry = Some (Bearer (get authentication "access_token"))) /\
  (forall result_data,
     axios_answer w (S (S (length (sent s)))) retry = Fulfilled result_data ->
     request w (S fuel) method path params data false s =
       Returned result_data
         (mkState renewed (sent s ++ [first_attempt; token_attempt; retry])
                  (S (clock_reads s)))).
Proof.
  intros Hs Hrt first_attempt token_attempt Hans Hresp Hdata Hexp Hans2 Hacc renewed retry.
  assert (Hrun : request w (S fuel) method path params data false s =
            request w fuel method path params data true
              (mkState renewed (sent s ++ [first_attempt; token_attempt]) (S (clock_reads s)))).
  { rewrite request_unfold, sendable_precondition, Hs. cbn [negb]. cbv zeta.
    fold first_attempt. rewrite Hans, Hresp, Hdata, Hexp.
    unfold bind at 1.
    set (s1 := with_this (set_accessToken VNull (this s)) (after_send first_attempt s)).
    pose proof (reauthentication_accepted w fuel s1 authentication eq_refl) as Hgrant.
    cbv zeta in Hgrant.
    cbn [s1 this sent clock_reads with_this after_send set_accessToken
         refreshToken expiresInTimestamp] in Hgrant.
    rewrite Hrt in Hgrant. rewrite Hgrant.
    - unfold authenticated. cbn [clientId clientSecret requestConfig username password].
      now rewrite <- app_assoc.
    - rewrite length_app, Nat.add_comm. exact Hans2.
    - exact Hacc. }
  split; [exact Hrun|]. split.
  - intros Hpath. apply String.eqb_neq in Hpath.
    unfold retry, request_config. cbn [Authorization]. now rewrite Hpath.
  - intros result_data Hans3. rewrite Hrun, request_retry_run.
    + cbv zeta. cbn [this sent clock_reads]. fold retry.
      replace (length (sent s ++ [first_attempt; token_attempt])) with (S (S (length (sent s))))
        by (rewrite length_app, Nat.add_comm; reflexivity).
      rewrite Hans3. unfold after_send. cbn [this sent clock_reads].
      now rewrite <- app_assoc.
    + unfold sendable. cbn [this]. unfold renewed. cbn [accessToken].
      rewrite (accepted_access_token _ Hacc). apply orb_true_r.
Qed.

(** X13. Warm start. The tokens [setToken] stores from an authentication
    whose [expires_in] is a number can be handed back to [connect]: as long
    as the clock has not reached the stored expiry,
    [connect(accessToken, refreshToken, expiresInTimestamp)] with the stored
    values returns without a request and leaves the client as it was. *)
Theorem stored_tokens_warm_start (fuel : nat) (authentication : value) (expires_in : Q)
    (s : state) :
  accepted_authentication authentication expires_in ->
  (Date_now w (S (clock_reads s)) # 1000
     < inject_Z (Date_now w (clock_reads s) / 1000) + expires_in)%Q ->
  (setToken w authentication ;;;
   c <- get_this ;;
   connect w fuel (accessToken c) (refreshToken c) (expiresInTimestamp c)) s =
    Returned tt
      (mkState (token_stored authentication expires_in (Date_now w (clock_reads s)) (this s))
               (sent s) (S (S (clock_reads s)))).
Proof.
  intros Hacc Hlt. unfold bind at 1.
  rewrite (setToken_accepts w authentication expires_in) by exact Hacc.
  unfold bind, get_this. destruct Hacc as (_ & Ha & Hr & _ & _).
  change (expiresInTimestamp
            (this (with_this (token_stored authentication expires_in
                                (Date_now w (clock_reads s)) (this s))
                             (after_clock_read s))))
    with (Seconds (inject_Z (Date_now w (clock_reads s) / 1000) + expires_in)).
  rewrite connect_adopts.
  - cbv beta iota zeta delta
      [with_this after_clock_read token_stored set_expiresInTimestamp set_refreshToken
       set_accessToken this sent clock_reads Client.accessToken Client.refreshToken
       Client.expiresInTimestamp clientId clientSecret requestConfig username password].
    rewrite Hr. reflexivity.
  - exact Ha.
  - exact Hlt.
Qed.

(** X14. [authenticateByRefreshToken] with a falsy refresh token throws
    'Refresh token must be provided' and touches nothing. With a truthy one
    it stores it before the request: when the token request is rejected, the
    RequestFailed of the token endpoint is thrown with the refresh token
    already replaced and the access token and expiry as they were. *)
Theorem authenticateByRefreshToken_failures (fuel : nat) (refreshToken : value) (s : state) :
  (truthy refreshToken = false ->
   authenticateByRefreshToken w fuel refreshToken s = Threw MissingRefreshToken s) /\
  (truthy refreshToken = true ->
   forall e,
     axios_answer w (length (sent s))
       (token_request (this s) (refresh_token_form (this s) refreshToken)) = Rejected e ->
     (forall r, e_response e = Some r -> truthy (Client.data r) = true ->
                token_expired false r = false) ->
     exists msg status,
       authenticateByRefreshToken w fuel refreshToken s =
         Threw (RequestFailed PATH_AUTH msg status)
               (mkState (set_refreshToken refreshToken (this s))
                        (sent s ++ [token_request (this s)
                                      (refresh_token_form (this s) refreshToken)])
                        (clock_reads s))).
Proof.
  split.
  - intros Hrt. unfold authenticateByRefreshToken, authenticateByRefreshToken_with.
    now rewrite Hrt.
  - intros Hrt e Hans Hplain.
    unfold authenticateByRefreshToken, authenticateByRefreshToken_with.
    rewrite Hrt. cbn [negb]. unfold bind at 1, update_this.
    unfold bind at 1, get_this. cbn [this]. unfold bind at 1.
    destruct (request_rejected w fuel HTTP_POST PATH_AUTH VNull
                (refresh_token_form (this s) refreshToken) false
                (mkState (set_refreshToken refreshToken (this s)) (sent s) (clock_reads s)) e)
      as (msg & status & Hthrow); [reflexivity | exact Hans | exact Hplain |].
    exists msg, status.
    change (VObj [ ("grant_type", VStr "refresh_token");
                   ("client_id", clientId (set_refreshToken refreshToken (this s)));
                   ("client_secret", clientSecret (set_refreshToken refreshToken (this s)));
                   ("refresh_token", Client.refreshToken (set_refreshToken refreshToken (this s))) ])
      with (refresh_token_form (this s) refreshToken).
    rewrite Hthrow. reflexivity.
Qed.

(** X15. [checkAndSetAccesToken] on an expiry that is a number never throws
    and sends nothing. It
    answers true exactly when the token is truthy and the expiry lies
    strictly after the current time, an expiry equal to it being refused;
    when it answers false the client is as it was, and with a falsy token
    the clock is not even read. *)
Theorem checkAndSetAccesToken_decides (accessToken : value) (expiresInTimestamp : Q)
    (s : state) :
  exists valid s',
    checkAndSetAccesToken w accessToken (Seconds expiresInTimestamp) s = Returned valid s' /\
    (valid = true <->
     truthy accessToken = true /\
     (Date_now w (clock_reads s) # 1000 < expiresInTimestamp)%Q) /\
    (valid = false -> this s' = this s) /\
    (truthy accessToken = false -> s' = s) /\
    sent s' = sent s.
Proof.
  destruct (truthy accessToken) eqn:Ht.
  - destruct (Qlt_le_dec (Date_now w (clock_reads s) # 1000) expiresInTimestamp) as [Hlt|Hle].
    + exists true. eexists. rewrite checkAndSetAccesToken_valid by assumption.
      split; [reflexivity|]. repeat split; try discriminate; assumption.
    + exists false. eexists.
      rewrite checkAndSetAccesToken_expired by (try assumption; now apply Qle_not_lt).
      split; [reflexivity|]. split; [|repeat split; try discriminate].
      split; [discriminate|]. intros [_ Hlt]. exfalso. exact (Qle_not_lt _ _ Hle Hlt).
  - exists false, s. rewrite checkAndSetAccesToken_falsy by assumption.
    split; [reflexivity|]. split; [|repeat split].
    split; [discriminate | intros [H _]; discriminate H].
Qed.

(** X16. [connect] called without a truthy access token and without a
    refresh token, as [startPolling] calls it, runs the password grant
    whatever tokens the client holds and whatever the expiry it is given:
    the first request it sends is the POST of the client's credentials to
    the token endpoint. *)
Theorem connect_without_tokens_uses_password (fuel : nat) (accessToken refreshToken : value)
    (expiresInTimestamp : timestamp) (s : state) :
  truthy accessToken = false ->
  truthy refreshToken = false ->
  match connect w fuel accessToken refreshToken expiresInTimestamp s with
  | Returned _ s' | Threw _ s' =>
      exists more,
        sent s' = sent s ++ token_request (this s) (password_form (this s)) :: more
  | Stuck _ => True
  end.
Proof.
  intros Ht Hr.
  rewrite connect_without_token by exact Ht.
  rewrite Hr.
  unfold authenticateByClientCredentials, authenticateByClientCredentials_with.
  unfold bind at 1, get_this. unfold bind.
  pose proof (request_first_sent w fuel HTTP_POST PATH_AUTH VNull (password_form (this s))
                false s eq_refl) as Hfirst.
  change (VObj [ ("grant_type", VStr "password"); ("client_id", clientId (this s));
                 ("client_secret", clientSecret (this s)); ("username", username (this s));
                 ("password", password (this s));
                 ("scope", VStr "read_station read_homecoach") ])
    with (password_form (this s)).
  assert (Hone : forall s1,
             extends (after_send (token_request (this s) (password_form (this s))) s) s1 ->
             exists more,
               sent s1 = sent s ++ token_request (this s) (password_form (this s)) :: more).
  { intros s1 [more Hmore]. exists more. rewrite Hmore. cbn [after_send sent].
    now rewrite <- app_assoc. }
  destruct (request w fuel HTTP_POST PATH_AUTH VNull (password_form (this s)) false s)
    as [authentication s1|e s1|why]; [|now apply Hone|exact I].
  pose proof (grows_setToken w authentication s1) as Hset.
  destruct (setToken w authentication s1) as [[] s2|e s2|why]; try exact I;
    apply Hone; eapply extends_trans; eassumption.
Qed.

End Reauthentication.

(** ** Construction and the domain API *)

Section ApiFacts.

Import Client Api.

Variable w : world.

(** X17. The constructor. Without a truthy client id and client secret it
    fails with the client-credentials error, whatever the user credentials;
    with them and without a truthy username and password it fails with the
    user-credentials error. The client it returns holds the four credentials
    and no token: until it has authenticated, every request to a path other
    than the token endpoint throws 'Access token must be provided' without
    sending anything. *)
Theorem new_NetatmoClient_checks_credentials
    (clientId clientSecret username password : value) (requestConfig : obj) :
  let constructed :=
    new_NetatmoClient clientId clientSecret username password requestConfig in
  (constructed = inr MissingClientCredentials <->
   truthy clientId && truthy clientSecret = false) /\
  (constructed = inr MissingUserCredentials <->
   truthy clientId && truthy clientSecret = true /\
   truthy username && truthy password = false) /\
  (forall c, constructed = inl c ->
     c = mkClient clientId clientSecret requestConfig username password
                  VNull VNull (Seconds 0) /\
     truthy clientId && truthy clientSecret && truthy username && truthy password = true /\
     forall fuel method path params data isRetry requests clock,
       path <> PATH_AUTH ->
       request w fuel method path params data isRetry (mkState c requests clock)
         = Threw MissingAccessToken (mkState c requests clock)).
Proof.
  unfold new_NetatmoClient. cbv zeta.
  destruct (truthy clientId), (truthy clientSecret), (truthy username), (truthy password);
    cbn [negb orb andb];
    (split;
     [ split; intros H; first [discriminate H | reflexivity]
     | split;
       [ split; [ intros H; first [discriminate H | split; reflexivity]
                | intros [H1 H2]; first [discriminate H1 | discriminate H2 | reflexivity] ]
       | intros c H; try discriminate H ] ]).
  injection H as <-. split; [reflexivity|]. split; [reflexivity|].
  intros fuel method path params data isRetry requests clock Hpath.
  apply request_not_sendable. unfold sendable. cbn [this accessToken truthy].
  apply String.eqb_neq in Hpath. now rewrite Hpath.
Qed.

Lemma unwrap_body (result_data : value) (k : string) (s : state) :
  (body <- member result_data "body" ;; member body k) s = unwrapped result_data k s.
Proof.
  unfold unwrapped, bind, member.
  destruct (nullish result_data); [reflexivity|]. cbn [orb]. unfold ret.
  destruct (nullish (get result_data "body")); reflexivity.
Qed.

(** A wrapper that unwraps [body.k] from the request to [path]. *)
Lemma wrapper_run (fuel : nat) (path : string) (params : value) (k : string) (s : state) :
  path <> PATH_AUTH ->
  (truthy (accessToken (this s)) = false ->
   (result <- request w fuel HTTP_GET path params VNull false ;;
    body <- member result "body" ;; member body k) s = Threw MissingAccessToken s) /\
  (truthy (accessToken (this s)) = true ->
   forall result_data,
     axios_answer w (length (sent s)) (request_config (this s) HTTP_GET path params VNull)
       = Fulfilled result_data ->
     (result <- request w fuel HTTP_GET path params VNull false ;;
      body <- member result "body" ;; member body k) s
       = unwrapped result_data k
           (after_send (request_config (this s) HTTP_GET path params VNull) s)).
Proof.
  intros Hpath. apply String.eqb_neq in Hpath. split.
  - intros Ht. unfold bind at 1. rewrite request_not_sendable; [reflexivity|].
    unfold sendable. now rewrite Hpath, Ht.
  - intros Ht result_data Hans. unfold bind at 1.
    rewrite (request_fulfilled w fuel HTTP_GET path params VNull false s result_data);
      [apply unwrap_body | unfold sendable; now rewrite Hpath, Ht | exact Hans].
Qed.

(** X18. The wrappers without precondition, [getStationsData],
    [getHomeCoachData] and [getHomesData], send one GET with their
    parameters (the defaults filled in) and return [body.devices],
    [body.devices] and [body.homes] of the answer. An answer that is null
    or has no [body] makes them throw a TypeError after the request, not a
    RequestFailed; without an access token they throw 'Access token must be
    provided' and send nothing. *)
Theorem wrappers_unwrap_the_envelope (fuel : nat) (s : state) :
  let answered cfg result_data :=
    axios_answer w (length (sent s)) cfg = Fulfilled result_data in
  (truthy (accessToken (this s)) = false ->
   forall deviceId getFavorites homeId gatewayTypes,
     getStationsData w fuel deviceId getFavorites s = Threw MissingAccessToken s /\
     getHomeCoachData w fuel deviceId s = Threw MissingAccessToken s /\
     getHomesData w fuel homeId gatewayTypes s = Threw MissingAccessToken s) /\
  (truthy (accessToken (this s)) = true ->
   (forall deviceId getFavorites result_data,
      let cfg := request_config (this s) HTTP_GET "/api/getstationsdata"
                   (VObj [ ("device_id", deviceId);
                           ("get_favorites", or_default getFavorites (VBool false)) ])
                   VNull in
      answered cfg result_data ->
      getStationsData w fuel deviceId getFavorites s
        = unwrapped result_data "devices" (after_send cfg s)) /\
   (forall deviceId result_data,
      let cfg := request_config (this s) HTTP_GET "/api/gethomecoachsdata"
                   (VObj [ ("device_id", deviceId) ]) VNull in
      answered cfg result_data ->
      getHomeCoachData w fuel deviceId s
        = unwrapped result_data "devices" (after_send cfg s)) /\
   (forall homeId gatewayTypes result_data,
      let cfg := request_config (this s) HTTP_GET "/api/homesdata"
                   (VObj [ ("home_id", homeId);
                           ("gateway_types", or_default gatewayTypes (VObj [])) ])
                   VNull in
      answered cfg result_data ->
      getHomesData w fuel homeId gatewayTypes s
        = unwrapped result_data "homes" (after_send cfg s))).
Proof.
  intros answered. split.
  - intros Ht deviceId getFavorites homeId gatewayTypes.
    unfold getStationsData, getHomeCoachData, getHomesData.
    repeat split; apply wrapper_run; solve [discriminate | exact Ht].
  - intros Ht. unfold getStationsData, getHomeCoachData, getHomesData, answered.
    repeat split; intros; apply wrapper_run; solve [discriminate | assumption].
Qed.

(** X19. [getHomeStatus] checks its home id before anything else: with a
    falsy one it throws 'Home id must be provided' in every state, with or
    without an access token, and nothing is sent. With a truthy one it is a
    request like the others: 'Access token must be provided' without a
    token, else one GET to '/api/homestatus' whose answer's [body.home] is
    returned. *)
Theorem getHomeStatus_requires_home_id (fuel : nat) (homeId gatewayTypes : value)
    (s : state) :
  (truthy homeId = false ->
   getHomeStatus w fuel homeId gatewayTypes s = inl MissingHomeId) /\
  (truthy homeId = true ->
   (truthy (accessToken (this s)) = false ->
    getHomeStatus w fuel homeId gatewayTypes s = inr (Threw MissingAccessToken s)) /\
   (truthy (accessToken (this s)) = true ->
    forall result_data,
      let cfg := request_config (this s) HTTP_GET "/api/homestatus"
                   (VObj [ ("home_id", homeId);
                           ("gateway_types", or_default gatewayTypes (VObj [])) ])
                   VNull in
      axios_answer w (length (sent s)) cfg = Fulfilled result_data ->
      getHomeStatus w fuel homeId gatewayTypes s
        = inr (unwrapped result_data "home" (after_send cfg s)))).
Proof.
  unfold getHomeStatus. split.
  - intros Hh. now rewrite Hh.
  - intros Hh. rewrite Hh. cbn [negb].
    destruct (wrapper_run fuel "/api/homestatus"
                (VObj [ ("home_id", homeId);
                        ("gateway_types", or_default gatewayTypes (VObj [])) ])
                "home" s) as [Hmissing Hsent]; [discriminate|].
    split.
    + intros Ht. f_equal. now apply Hmissing.
    + intros Ht result_data Hans. f_equal. now apply Hsent.
Qed.

(** X20. [getMeasure] requires a truthy device id, scale and type, and
    nothing else: when one of the three is falsy it throws 'Device id, Scale
    and Type must be provided' before the token is looked at; otherwise the
    module id, the dates and the limit may be anything, the defaults
    [optimize = true] and [real_time = false] are filled in, and the [body]
    of the answer is returned as it is. *)
Theorem getMeasure_requires_parameters (fuel : nat)
    (deviceId moduleId mScale mType dBegin dEnd mLimit rOptimize rTime : value)
    (s : state) :
  let call :=
    getMeasure w fuel deviceId moduleId mScale mType dBegin dEnd mLimit rOptimize rTime s in
  (call = inl MissingMeasureParams <->
   truthy deviceId && truthy mScale && truthy mType = false) /\
  (truthy deviceId && truthy mScale && truthy mType = true ->
   truthy (accessToken (this s)) = true ->
   forall result_data,
     let cfg := request_config (this s) HTTP_GET "/api/getmeasure"
                  (VObj [ ("device_id", deviceId); ("module_id", moduleId);
                          ("scale", mScale); ("type", mType);
                          ("date_begin", dBegin); ("date_end", dEnd);
                          ("limit", mLimit);
                          ("optimize", or_default rOptimize (VBool true));
                          ("real_time", or_default rTime (VBool false)) ])
                  VNull in
     axios_answer w (length (sent s)) cfg = Fulfilled result_data ->
     call = inr (if nullish result_data then Threw TypeError (after_send cfg s)
                 else Returned (get result_data "body") (after_send cfg s))).
Proof.
  intros call. unfold call, getMeasure. split.
  - destruct (truthy deviceId), (truthy mScale), (truthy mType); cbn [negb orb andb];
      split; intros H; try discriminate H; reflexivity.
  - intros Hreq Ht result_data Hans.
    apply andb_prop in Hreq. destruct Hreq as [Hreq Htype].
    apply andb_prop in Hreq. destruct Hreq as [Hdev Hscale].
    rewrite Hdev, Hscale, Htype. cbn [negb orb]. f_equal.
    unfold bind at 1.
    rewrite (request_fulfilled w fuel HTTP_GET "/api/getmeasure" _ VNull false s result_data);
      [|unfold sendable; now rewrite Ht, orb_true_r|exact Hans].
    unfold member. destruct (nullish result_data); reflexivity.
Qed.

End ApiFacts.

Section ApiWitnesses.

Import Client Api.

Lemma new_NetatmoClient_checks_credentials_witness :
  new_NetatmoClient VNull VNull VNull VNull [] = inr MissingClientCredentials /\
  new_NetatmoClient (VStr "clientId") (VStr "clientSecret") (VStr "user") VNull []
    = inr MissingUserCredentials /\
  request (Fixtures.mock_world false) 0 "GET" "/path" VNull VNull false Fixtures.fresh_state
    = Threw MissingAccessToken Fixtures.fresh_state.
Proof.
  split; [|split].
  - apply (new_NetatmoClient_checks_credentials (Fixtures.mock_world false) VNull VNull VNull VNull []). reflexivity.
  - apply (new_NetatmoClient_checks_credentials (Fixtures.mock_world false)
             (VStr "clientId") (VStr "clientSecret") (VStr "user") VNull []).
    split; reflexivity.
  - destruct (new_NetatmoClient_checks_credentials (Fixtures.mock_world false)
                (VStr "clientId") (VStr "clientSecret") (VStr "user") (VStr "password") [])
      as (_ & _ & Hnew).
    destruct (Hnew Fixtures.test_client eq_refl) as (_ & _ & Hrequest).
    apply (Hrequest 0%nat "GET" "/path" VNull VNull false [] 0%nat). discriminate.
Defined.

Lemma getHomeStatus_requires_home_id_witness :
  getHomeStatus (Fixtures.mock_world false) 0 VUndefined VUndefined Fixtures.fresh_state
    = inl MissingHomeId /\
  getHomeStatus (Fixtures.mock_world false) 0 (VStr "1") VUndefined Fixtures.fresh_state
    = inr (Threw MissingAccessToken Fixtures.fresh_state).
Proof.
  split.
  - apply (getHomeStatus_requires_home_id (Fixtures.mock_world false) 0 VUndefined VUndefined
             Fixtures.fresh_state). reflexivity.
  - destruct (getHomeStatus_requires_home_id (Fixtures.mock_world false) 0 (VStr "1")
                VUndefined Fixtures.fresh_state) as [_ Htruthy].
    destruct (Htruthy eq_refl) as [Hmissing _]. apply Hmissing. reflexivity.
Defined.

Lemma getMeasure_requires_parameters_witness :
  getMeasure (Fixtures.mock_world false) 0 VUndefined VUndefined (VStr "max") (VStr "type")
             (VNum 1) (VNum 2) (VNum 5) (VBool true) (VBool false) Fixtures.fresh_state
    = inl MissingMeasureParams.
Proof.
  apply (getMeasure_requires_parameters (Fixtures.mock_world false) 0 VUndefined VUndefined
           (VStr "max") (VStr "type") (VNum 1) (VNum 2) (VNum 5) (VBool true) (VBool false)
           Fixtures.fresh_state).
  reflexivity.
Defined.

End ApiWitnesses.

(** ** The poller *)

Section PollerFacts.

#[local] Set Warnings "-notation-overridden".
Import Client Normalizer Poller.

Variable w : world.

Lemma get_array_not_nullish (v : value) (k : string) (items : list value) :
  get v k = VArr items -> nullish v = false.
Proof. destruct v; simpl; intros H; try discriminate H; reflexivity. Qed.

Lemma runtime_unchanged (rt : runtime) :
  mkRuntime (client_state rt)
            (mkEffects (frames (emitted rt) ++ []) (warnings (emitted rt) ++ []))
            (debug_log rt ++ []) (registered rt) = rt.
Proof. destruct rt as [s [f wn] d r]. simpl. now rewrite !app_nil_r. Qed.

(** One turn of the station loop of [pollData]. *)
Lemma poll_station_run (station : value) (rt : runtime) :
  (Poller.debug (StationData station) ;;;
   lift_normalizer (processStation station)) rt =
    if device_ok station then
      (if forallb device_ok (modules_of station)
       then Done tt else Failed TypeError)
        (mkRuntime (client_state rt)
           (mkEffects
              (frames (emitted rt) ++ station_record station
                 :: map (module_record station) (accepted_prefix (modules_of station)))
              (warnings (emitted rt) ++ station_warnings station))
           (debug_log rt ++ [StationData station]) (registered rt))
    else
      Failed TypeError
        (mkRuntime (client_state rt) (emitted rt)
                   (debug_log rt ++ [StationData station]) (registered rt)).
Proof.
  unfold Poller.bind, Poller.debug, lift_normalizer. cbn [emitted client_state debug_log registered].
  rewrite processStation_run.
  destruct (device_ok station); [|reflexivity].
  destruct (forallb device_ok (modules_of station)); reflexivity.
Qed.

Lemma poll_aircare_run (aircare : value) (rt : runtime) :
  (Poller.debug (AircareData aircare) ;;;
   lift_normalizer (processAircare aircare)) rt =
    if device_ok aircare then
      Done tt
        (mkRuntime (client_state rt)
           (mkEffects (frames (emitted rt) ++ [aircare_record aircare])
                      (warnings (emitted rt)))
           (debug_log rt ++ [AircareData aircare]) (registered rt))
    else
      Failed TypeError
        (mkRuntime (client_state rt) (emitted rt)
                   (debug_log rt ++ [AircareData aircare]) (registered rt)).
Proof.
  unfold Poller.bind, Poller.debug, lift_normalizer. cbn [emitted client_state debug_log registered].
  rewrite processAircare_run.
  destruct (device_ok aircare); reflexivity.
Qed.

Lemma poll_stations_all (stations : list value) (rt : runtime) :
  forallb station_ok stations = true ->
  Poller.for_each (fun station =>
      Poller.debug (StationData station) ;;;
      lift_normalizer (processStation station)) stations rt =
    Done tt
      (mkRuntime (client_state rt)
         (mkEffects (frames (emitted rt) ++ flat_map station_frames stations)
                    (warnings (emitted rt) ++ flat_map station_warnings stations))
         (debug_log rt ++ map StationData stations) (registered rt)).
Proof.
  revert rt. induction stations as [|station rest IH]; intros rt Hall.
  - simpl. unfold Poller.ret. now rewrite runtime_unchanged.
  - cbn [forallb] in Hall. apply andb_prop in Hall. destruct Hall as [Hok Hrest].
    unfold station_ok in Hok. apply andb_prop in Hok. destruct Hok as [Hok Hmods].
    apply andb_prop in Hok. destruct Hok as [Hst _].
    cbn [Poller.for_each]. unfold Poller.bind at 1.
    rewrite poll_station_run, Hst, Hmods, (accepted_prefix_all _ Hmods).
    rewrite (IH _ Hrest). cbn [client_state emitted debug_log registered frames warnings].
    cbn [flat_map map]. unfold station_frames.
    now rewrite <- !app_assoc.
Qed.

Lemma poll_stations_stop (good rest : list value) (bad : value) (rt : runtime) :
  forallb station_ok good = true ->
  device_ok bad = false ->
  Poller.for_each (fun station =>
      Poller.debug (StationData station) ;;;
      lift_normalizer (processStation station)) (good ++ bad :: rest) rt =
    Failed TypeError
      (mkRuntime (client_state rt)
         (mkEffects (frames (emitted rt) ++ flat_map station_frames good)
                    (warnings (emitted rt) ++ flat_map station_warnings good))
         (debug_log rt ++ map StationData good ++ [StationData bad]) (registered rt)).
Proof.
  intros Hgood Hbad. revert rt. induction good as [|station more IH]; intros rt.
  - cbn [app Poller.for_each flat_map map]. unfold Poller.bind at 1.
    rewrite poll_station_run, Hbad. rewrite !app_nil_r. now destruct rt as [s [f wn] d r].
  - cbn [forallb] in Hgood. apply andb_prop in Hgood. destruct Hgood as [Hok Hmore].
    unfold station_ok in Hok. apply andb_prop in Hok. destruct Hok as [Hok Hmods].
    apply andb_prop in Hok. destruct Hok as [Hst _].
    cbn [app Poller.for_each]. unfold Poller.bind at 1.
    rewrite poll_station_run, Hst, Hmods, (accepted_prefix_all _ Hmods).
    rewrite (IH Hmore). cbn [client_state emitted debug_log registered frames warnings].
    cbn [flat_map map]. unfold station_frames.
    now rewrite <- !app_assoc.
Qed.

Lemma poll_aircares_all (aircares : list value) (rt : runtime) :
  forallb device_ok aircares = true ->
  Poller.for_each (fun aircare =>
      Poller.debug (AircareData aircare) ;;;
      lift_normalizer (processAircare aircare)) aircares rt =
    Done tt
      (mkRuntime (client_state rt)
         (mkEffects (frames (emitted rt) ++ map aircare_record aircares)
                    (warnings (emitted rt)))
         (debug_log rt ++ map AircareData aircares) (registered rt)).
Proof.
  revert rt. induction aircares as [|aircare rest IH]; intros rt Hall.
  - simpl. unfold Poller.ret. rewrite !app_nil_r. now destruct rt as [s [f wn] d r].
  - cbn [forallb] in Hall. apply andb_prop in Hall. destruct Hall as [Hok Hrest].
    cbn [Poller.for_each]. unfold Poller.bind at 1.
    rewrite poll_aircare_run, Hok.
    rewrite (IH _ Hrest). cbn [client_state emitted debug_log registered frames warnings map].
    now rewrite <- !app_assoc.
Qed.

(** The device list a wrapper returns from a fulfilled request. *)
Lemma unwrapped_devices (result_data : value) (devices : list value) (s : state) :
  get (get result_data "body") "devices" = VArr devices ->
  unwrapped result_data "devices" s = Returned (VArr devices) s.
Proof.
  intros Hdev. unfold unwrapped.
  rewrite (get_array_not_nullish _ _ _ Hdev).
  assert (Hres : nullish result_data = false).
  { destruct result_data; try reflexivity; simpl in Hdev; discriminate Hdev. }
  now rewrite Hres, Hdev.
Qed.

Lemma getStationsData_devices (fuel : nat) (s : state) (result_data : value)
    (stations : list value) :
  truthy (accessToken (this s)) = true ->
  axios_answer w (length (sent s)) (stations_request (this s)) = Fulfilled result_data ->
  get (get result_data "body") "devices" = VArr stations ->
  Api.getStationsData w fuel VUndefined VUndefined s =
    Returned (VArr stations) (after_send (stations_request (this s)) s).
Proof.
  intros Ht Hans Hdev. unfold Api.getStationsData.
  destruct (wrapper_run w fuel "/api/getstationsdata"
              (VObj [ ("device_id", VUndefined);
                      ("get_favorites", Api.or_default VUndefined (VBool false)) ])
              "devices" s) as [_ Hrun]; [discriminate|].
  rewrite (Hrun Ht result_data Hans). now apply unwrapped_devices.
Qed.

Lemma getHomeCoachData_devices (fuel : nat) (s : state) (result_data : value)
    (aircares : list value) :
  truthy (accessToken (this s)) = true ->
  axios_answer w (length (sent s)) (homecoach_request (this s)) = Fulfilled result_data ->
  get (get result_data "body") "devices" = VArr aircares ->
  Api.getHomeCoachData w fuel VUndefined s =
    Returned (VArr aircares) (after_send (homecoach_request (this s)) s).
Proof.
  intros Ht Hans Hdev. unfold Api.getHomeCoachData.
  destruct (wrapper_run w fuel "/api/gethomecoachsdata"
              (VObj [ ("device_id", VUndefined) ]) "devices" s) as [_ Hrun]; [discriminate|].
  rewrite (Hrun Ht result_data Hans). now apply unwrapped_devices.
Qed.

Lemma pollData_run (fuel : nat) (rt : runtime) (stations_data aircares_data : value)
    (stations aircares : list value) :
  let s := client_state rt in
  truthy (accessToken (this s)) = true ->
  axios_answer w (length (sent s)) (stations_request (this s)) = Fulfilled stations_data ->
  get (get stations_data "body") "devices" = VArr stations ->
  forallb station_ok stations = true ->
  axios_answer w (S (length (sent s))) (homecoach_request (this s))
    = Fulfilled aircares_data ->
  get (get aircares_data "body") "devices" = VArr aircares ->
  forallb device_ok aircares = true ->
  pollData w fuel rt = Done tt (polled rt stations aircares).
Proof.
  intros s Ht Hans1 Hdev1 Hok1 Hans2 Hdev2 Hok2. unfold pollData.
  unfold Poller.bind at 1, lift_client. fold s.
  rewrite (getStationsData_devices fuel s stations_data stations Ht Hans1 Hdev1).
  unfold Poller.bind at 1, for_loop. cbn [nullish array_like_items].
  rewrite (poll_stations_all stations _ Hok1).
  unfold Poller.bind at 1. cbn [client_state emitted debug_log registered].
  rewrite (getHomeCoachData_devices fuel _ aircares_data aircares).
  - cbn [nullish array_like_items].
    rewrite (poll_aircares_all aircares _ Hok2).
    unfold polled, after_send. fold s.
    cbn [client_state emitted debug_log registered frames warnings this sent clock_reads].
    rewrite <- !app_assoc. reflexivity.
  - exact Ht.
  - cbn [after_send sent this]. rewrite length_app, Nat.add_comm. exact Hans2.
  - exact Hdev2.
Qed.

End PollerFacts.

Section PollerClaims.

#[local] Set Warnings "-notation-overridden".
Import Client Normalizer Poller.

Variable w : world.

Lemma length_flat_map_station_frames (stations : list value) :
  length (flat_map station_frames stations)
    = list_sum (map (fun station => S (length (modules_of station))) stations).
Proof.
  induction stations as [|station rest IH]; simpl; [reflexivity|].
  now rewrite length_app, length_map, IH.
Qed.

(** X21. One pass of [pollData] over well-formed answers. With a truthy
    access token, an array of stations and an array of air-quality devices
    that arrive, every device carrying [dashboard_data] and the modules of
    each station being an array, or absent, [pollData] returns having sent
    exactly two requests, the stations' then the air-quality devices', and
    emitted, in this order, the records of each station (its own, then its
    modules') and one record per air-quality device: one frame per physical
    device and module. *)
Theorem pollData_emits_every_device (fuel : nat) (rt : runtime)
    (stations_data aircares_data : value) (stations aircares : list value) :
  let s := client_state rt in
  truthy (accessToken (this s)) = true ->
  axios_answer w (length (sent s)) (stations_request (this s)) = Fulfilled stations_data ->
  get (get stations_data "body") "devices" = VArr stations ->
  forallb station_ok stations = true ->
  axios_answer w (S (length (sent s))) (homecoach_request (this s))
    = Fulfilled aircares_data ->
  get (get aircares_data "body") "devices" = VArr aircares ->
  forallb device_ok aircares = true ->
  exists rt',
    pollData w fuel rt = Done tt rt' /\
    sent (client_state rt')
      = sent s ++ [stations_request (this s); homecoach_request (this s)] /\
    this (client_state rt') = this s /\
    frames (emitted rt')
      = frames (emitted rt) ++ flat_map station_frames stations
                            ++ map aircare_record aircares /\
    length (frames (emitted rt'))
      = (length (frames (emitted rt))
         + list_sum (map (fun station => S (length (modules_of station))) stations)
         + length aircares)%nat /\
    warnings (emitted rt')
      = warnings (emitted rt) ++ flat_map station_warnings stations /\
    registered rt' = registered rt.
Proof.
  intros s Ht Hans1 Hdev1 Hok1 Hans2 Hdev2 Hok2.
  exists (polled rt stations aircares). split.
  - now apply (pollData_run w fuel rt stations_data aircares_data).
  - unfold polled. cbn [client_state emitted sent this frames warnings registered].
    repeat split.
    rewrite !length_app, length_map, length_flat_map_station_frames. apply Nat.add_assoc.
Qed.

(** X22. A station that is null or lacks [dashboard_data] ends the pass.
    After stations that are well formed (their modules in an array, or
    absent, and [dashboard_data] everywhere), [pollData] throws a TypeError
    at the first such station: the records of the stations before it stay
    emitted, the stations after it are not processed, and the request for
    the air-quality devices is never sent. *)
Theorem pollData_aborts_at_bad_station (fuel : nat) (rt : runtime)
    (stations_data : value) (good rest : list value) (bad : value) :
  let s := client_state rt in
  truthy (accessToken (this s)) = true ->
  axios_answer w (length (sent s)) (stations_request (this s)) = Fulfilled stations_data ->
  get (get stations_data "body") "devices" = VArr (good ++ bad :: rest) ->
  forallb station_ok good = true ->
  device_ok bad = false ->
  pollData w fuel rt =
    Failed TypeError
      (mkRuntime
         (mkState (this s) (sent s ++ [stations_request (this s)]) (clock_reads s))
         (mkEffects (frames (emitted rt) ++ flat_map station_frames good)
                    (warnings (emitted rt) ++ flat_map station_warnings good))
         (debug_log rt ++ map StationData good ++ [StationData bad])
         (registered rt)).
Proof.
  intros s Ht Hans Hdev Hgood Hbad. unfold pollData.
  unfold Poller.bind at 1, lift_client. fold s.
  rewrite (getStationsData_devices w fuel s stations_data _ Ht Hans Hdev).
  unfold Poller.bind at 1, for_loop. cbn [nullish array_like_items].
  rewrite (poll_stations_stop good rest bad _ Hgood Hbad). reflexivity.
Qed.

(** X23. Without an access token [pollData] does nothing: it throws
    'Access token must be provided' before any request, frame or log
    entry. The pass does not authenticate by itself. *)
Theorem pollData_requires_access_token (fuel : nat) (rt : runtime) :
  truthy (accessToken (this (client_state rt))) = false ->
  pollData w fuel rt = Failed MissingAccessToken rt.
Proof.
  intros Ht. unfold pollData. unfold Poller.bind at 1, lift_client.
  unfold Api.getStationsData.
  destruct (wrapper_run w fuel "/api/getstationsdata"
              (VObj [ ("device_id", VUndefined);
                      ("get_favorites", Api.or_default VUndefined (VBool false)) ])
              "devices" (client_state rt)) as [Hmissing _]; [discriminate|].
  rewrite (Hmissing Ht). now destruct rt.
Qed.

Lemma keeps_registered_bind {A B} (c : P A) (k : A -> P B) :
  keeps_registered c -> (forall a, keeps_registered (k a)) ->
  keeps_registered (Poller.bind c k).
Proof.
  intros Hc Hk rt. unfold Poller.bind. specialize (Hc rt).
  destruct (c rt) as [a rt'|e rt'|why]; [|assumption|exact I].
  specialize (Hk a rt'). destruct (k a rt'); try exact I; congruence.
Qed.

Lemma keeps_registered_lift_client {A} (c : Client.M A) : keeps_registered (lift_client c).
Proof. intros rt. unfold lift_client. destruct (c (client_state rt)); try exact I; reflexivity. Qed.

Lemma keeps_registered_lift_normalizer {A} (c : Normalizer.M A) :
  keeps_registered (lift_normalizer c).
Proof.
  intros rt. unfold lift_normalizer. destruct (c (emitted rt)) as [[a|e] fx]; reflexivity.
Qed.

Lemma keeps_registered_for_loop (items : value) (body : value -> P unit) :
  (forall x, keeps_registered (body x)) -> keeps_registered (for_loop items body).
Proof.
  intros Hbody. unfold for_loop. destruct (nullish items); [intros rt; reflexivity|].
  induction (array_like_items items) as [|x rest IH]; [intros rt; reflexivity|].
  cbn [Poller.for_each]. apply keeps_registered_bind; [apply Hbody | intros _; exact IH].
Qed.

Lemma keeps_registered_pollData (fuel : nat) : keeps_registered (pollData w fuel).
Proof.
  unfold pollData.
  apply keeps_registered_bind; [apply keeps_registered_lift_client|]. intros stations.
  apply keeps_registered_bind.
  { apply keeps_registered_for_loop. intros station.
    apply keeps_registered_bind; [intros rt; reflexivity|]. intros _.
    apply keeps_registered_lift_normalizer. }
  intros _.
  apply keeps_registered_bind; [apply keeps_registered_lift_client|]. intros aircares.
  apply keeps_registered_for_loop. intros aircare.
  apply keeps_registered_bind; [intros rt; reflexivity|]. intros _.
  apply keeps_registered_lift_normalizer.
Qed.

(** X24. [startPolling] schedules only after a first pass that succeeded.
    When it returns, the interval of 60000 ms and the two signal handlers
    are registered, in this order and once; when the authentication or the
    first [pollData] throws, nothing is registered: no later pass will
    run. *)
Theorem startPolling_registers_on_success_only (fuel : nat) (rt : runtime) :
  match startPolling w fuel rt with
  | Done _ rt' => registered rt' = registered rt ++ polling_registrations
  | Failed _ rt' => registered rt' = registered rt
  | NoResult _ => True
  end.
Proof.
  unfold startPolling. unfold Poller.bind at 1.
  pose proof (keeps_registered_lift_client
                (connect w fuel VUndefined VUndefined (Seconds 0)) rt) as Hconnect.
  destruct (lift_client (connect w fuel VUndefined VUndefined (Seconds 0)) rt)
    as [[] rt1|e rt1|why]; [|assumption|exact I].
  unfold Poller.bind at 1.
  pose proof (keeps_registered_pollData fuel rt1) as Hpoll.
  destruct (pollData w fuel rt1) as [[] rt2|e rt2|why]; [|congruence|exact I].
  unfold Poller.bind, register. cbn [registered].
  rewrite Hpoll, Hconnect. unfold polling_registrations.
  now rewrite <- !app_assoc.
Qed.

(** X25. [startPolling] from any client whose credentials the token
    endpoint accepts. Whatever tokens the client holds, it authenticates
    with the password grant, stores the tokens of the answer in place of its
    own, polls with the new access token and schedules the next passes:
    three requests are sent (the token request, the stations, the
    air-quality devices), every device of the two arrays, all well formed,
    is emitted once, and the interval and the signal handlers are
    registered. *)
Theorem startPolling_runs (fuel : nat) (rt : runtime)
    (authentication stations_data aircares_data : value)
    (stations aircares : list value) :
  let s := client_state rt in
  let token_attempt := token_request (this s) (password_form (this s)) in
  let c :=
    mkClient (clientId (this s)) (clientSecret (this s)) (requestConfig (this s))
             (username (this s)) (password (this s))
             (get authentication "access_token")
             (get authentication "refresh_token")
             (seconds_plus (Date_now w (clock_reads s) / 1000)
                           (get authentication "expires_in")) in
  axios_answer w (length (sent s)) token_attempt = Fulfilled authentication ->
  accepted authentication = true ->
  axios_answer w (S (length (sent s))) (stations_request c) = Fulfilled stations_data ->
  get (get stations_data "body") "devices" = VArr stations ->
  forallb station_ok stations = true ->
  axios_answer w (S (S (length (sent s)))) (homecoach_request c) = Fulfilled aircares_data ->
  get (get aircares_data "body") "devices" = VArr aircares ->
  forallb device_ok aircares = true ->
  startPolling w fuel rt =
    Done tt
      (mkRuntime
         (mkState c (sent s ++ [token_attempt; stations_request c; homecoach_request c])
                  (S (clock_reads s)))
         (mkEffects
            (frames (emitted rt) ++ flat_map station_frames stations
                                 ++ map aircare_record aircares)
            (warnings (emitted rt) ++ flat_map station_warnings stations))
         (debug_log rt ++ map StationData stations ++ map AircareData aircares)
         (registered rt ++ polling_registrations)).
Proof.
  intros s token_attempt c Htoken Hacc Hans1 Hdev1 Hok1 Hans2 Hdev2 Hok2.
  unfold startPolling. unfold Poller.bind at 1, lift_client. fold s.
  rewrite connect_without_token by reflexivity.
  cbn [truthy].
  rewrite (authenticateByClientCredentials_accepted w fuel authentication s)
    by assumption.
  fold token_attempt. change (authenticated _ _ _) with c. unfold Poller.bind at 1.
  rewrite (pollData_run w fuel _ stations_data aircares_data stations aircares).
  - unfold Poller.bind, register, polled, polling_registrations.
    cbn [client_state emitted debug_log registered this sent clock_reads].
    rewrite <- !app_assoc. reflexivity.
  - cbn [client_state this]. unfold c. cbn [accessToken].
    now apply accepted_access_token.
  - cbn [client_state this sent]. rewrite length_app, Nat.add_comm. exact Hans1.
  - exact Hdev1.
  - exact Hok1.
  - cbn [client_state this sent]. rewrite length_app, Nat.add_comm. exact Hans2.
  - exact Hdev2.
  - exact Hok2.
Qed.

End PollerClaims.

(** ** The further properties on the fixtures *)

Section FurtherWitnesses.

#[local] Set Warnings "-notation-overridden".
Import Client Normalizer Poller Fixtures.

Lemma processStation_record_keys_witness :
  exists records,
    frames (snd (processStation two_modules_station no_effects)) = records /\
    Forall (fun r => obj_lookup "id" r <> None) records.
Proof.
  destruct (processStation_record_keys two_modules_station no_effects)
    as (records & Hframes & Hkeys & _).
  exists records. split; [exact Hframes|].
  apply Forall_forall. intros r Hr. rewrite Forall_forall in Hkeys.
  apply (Hkeys r Hr "id"). left. reflexivity.
Defined.

(** 'should retry in case of HTTP 401 expired token' against a server that
    answers the retry with the same error. *)
Lemma client_error_taxonomy_witness :
  exists e s',
    request (mock_world true) 1 "GET" "/tokenExpired401" VNull VNull false connected_state
      = Threw e s' /\
    (e = MissingAccessToken \/ e = TypeError \/ e = InvalidToken \/
     (exists msg status, e = RequestFailed "/tokenExpired401" msg status) \/
     (exists msg status, e = RequestFailed PATH_AUTH msg status)).
Proof.
  destruct (client_error_taxonomy (mock_world true) 1) as [_ Hrequest].
  destruct (request (mock_world true) 1 "GET" "/tokenExpired401" VNull VNull false
              connected_state) as [a s'|e s'|why] eqn:Hrun.
  - vm_compute in Hrun. discriminate Hrun.
  - exists e, s'. split; [reflexivity|].
    exact (Hrequest "GET" "/tokenExpired401" VNull VNull false connected_state e s' Hrun).
  - vm_compute in Hrun. discriminate Hrun.
Defined.

Lemma failed_reauthentication_logs_out_witness :
  exists msg status s',
    request outage_world 1 "GET" "/tokenExpired401" VNull VNull false connected_state
      = Threw (RequestFailed PATH_AUTH msg status) s' /\
    accessToken (this s') = VNull /\
    length (sent s') = 2%nat /\
    request outage_world 0 "GET" "/api/getstationsdata" VNull VNull false s'
      = Threw MissingAccessToken s'.
Proof.
  destruct (failed_reauthentication_logs_out outage_world 0 "GET" "/tokenExpired401"
              VNull VNull connected_state expired_error
              (mkAxiosError "Request failed with status code 500"
                 (Some (mkResponse 500 (VObj [ ("error", VObj [ ("code", VNum 99) ]) ]))))
              expired_response)
    as (msg & status & s' & Hrun & Hnull & _ & Hsent & Hlater);
    try reflexivity.
  - intros r2 Hr2 _. injection Hr2 as <-. reflexivity.
  - exists msg, status, s'. split; [exact Hrun|]. split; [exact Hnull|].
    split; [now rewrite Hsent|]. apply Hlater. discriminate.
Defined.

Lemma reauthentication_by_password_witness :
  exists s',
    request (mock_world false) 1 "GET" "/tokenExpired401" VNull VNull false
            connected_without_refresh
      = Returned (VObj [ ("body", VStr "401") ]) s' /\
    length (sent s') = 3%nat /\
    refreshToken (this s') = VStr "tGzv3JOkF0XG5Qx2TlKWIA" /\
    option_map Authorization (nth_error (sent s') 2)
      = Some (Some (Bearer (VStr "2YotnFZFEjr1zCsicMWpAA"))).
Proof.
  destruct (reauthentication_by_password (mock_world false) 0 "GET" "/tokenExpired401"
              VNull VNull connected_without_refresh expired_error expired_response
              authResult)
    as (_ & _ & Hfulfilled); try reflexivity.
  eexists. split; [apply Hfulfilled; reflexivity|]. repeat split.
Defined.

Lemma stored_tokens_warm_start_witness :
  exists s',
    Client.bind (setToken (mock_world false) authResult)
      (fun _ =>
         Client.bind get_this
           (fun c => connect (mock_world false) 0
                       (accessToken c) (refreshToken c) (expiresInTimestamp c)))
      fresh_state = Returned tt s' /\
    sent s' = [] /\
    accessToken (this s') = VStr "2YotnFZFEjr1zCsicMWpAA".
Proof.
  eexists. split.
  - apply (stored_tokens_warm_start (mock_world false) 0 authResult 10800 fresh_state).
    + exact authResult_accepted.
    + reflexivity.
  - split; reflexivity.
Defined.

Lemma authenticateByRefreshToken_failures_witness :
  authenticateByRefreshToken outage_world 0 VUndefined fresh_state
    = Threw MissingRefreshToken fresh_state /\
  exists msg status s',
    authenticateByRefreshToken outage_world 0 (VStr "tGzv3JOkF0XG5Qx2TlKWIA") fresh_state
      = Threw (RequestFailed PATH_AUTH msg status) s' /\
    refreshToken (this s') = VStr "tGzv3JOkF0XG5Qx2TlKWIA" /\
    accessToken (this s') = VNull.
Proof.
  split.
  - destruct (authenticateByRefreshToken_failures outage_world 0 VUndefined fresh_state)
      as [Hfalsy _]. apply Hfalsy. reflexivity.
  - destruct (authenticateByRefreshToken_failures outage_world 0
                (VStr "tGzv3JOkF0XG5Qx2TlKWIA") fresh_state) as [_ Htruthy].
    destruct (Htruthy eq_refl
                (mkAxiosError "Request failed with status code 500"
                   (Some (mkResponse 500 (VObj [ ("error", VObj [ ("code", VNum 99) ]) ])))))
      as (msg & status & Hrun).
    + reflexivity.
    + intros r Hr _. injection Hr as <-. reflexivity.
    + exists msg, status. eexists. split; [exact Hrun|]. split; reflexivity.
Defined.

(** A token that expires at the very second of the clock is refused. *)
Lemma checkAndSetAccesToken_decides_witness :
  exists s',
    checkAndSetAccesToken (mock_world false) (VStr "2YotnFZFEjr1zCsicMWpAA")
                          (Seconds 1555677739) fresh_state = Returned false s' /\
    this s' = this fresh_state.
Proof.
  destruct (checkAndSetAccesToken_decides (mock_world false)
              (VStr "2YotnFZFEjr1zCsicMWpAA") 1555677739 fresh_state)
    as (valid & s' & Hrun & Hvalid & Hsame & _).
  destruct valid.
  - destruct Hvalid as [Hlt _]. destruct (Hlt eq_refl) as [_ Habs].
    vm_compute in Habs. discriminate Habs.
  - exists s'. split; [exact Hrun | exact (Hsame eq_refl)].
Defined.

Lemma connect_without_tokens_uses_password_witness :
  exists s' more,
    connect (mock_world false) 0 VUndefined VUndefined (Seconds 0) connected_state
      = Returned tt s' /\
    sent s' = token_request connected_client (password_form connected_client) :: more.
Proof.
  pose proof (connect_without_tokens_uses_password (mock_world false) 0 VUndefined VUndefined
                (Seconds 0) connected_state eq_refl eq_refl) as Hfirst.
  destruct (connect (mock_world false) 0 VUndefined VUndefined (Seconds 0) connected_state)
    as [[] s'|e s'|why] eqn:Hrun; try discriminate Hrun.
  destruct Hfirst as [more Hmore].
  exists s', more. split; [reflexivity | exact Hmore].
Defined.

Lemma wrappers_unwrap_the_envelope_witness :
  Api.getStationsData poll_world 0 VUndefined VUndefined connected_state
    = Returned (VArr [two_modules_station; noModules_station])
               (after_send (stations_request connected_client) connected_state) /\
  Api.getHomesData poll_world 0 (VStr "1") VUndefined fresh_state
    = Threw MissingAccessToken fresh_state.
Proof.
  split.
  - destruct (wrappers_unwrap_the_envelope poll_world 0 connected_state) as [_ Hsent].
    destruct (Hsent eq_refl) as (Hstations & _ & _).
    apply (Hstations VUndefined VUndefined
             (devices_envelope (VArr [two_modules_station; noModules_station]))).
    reflexivity.
  - destruct (wrappers_unwrap_the_envelope poll_world 0 fresh_state) as [Hmissing _].
    apply (Hmissing eq_refl VUndefined VUndefined (VStr "1") VUndefined).
Defined.

Lemma pollData_emits_every_device_witness :
  exists rt',
    pollData poll_world 0 connected_runtime = Done tt rt' /\
    length (frames (emitted rt')) = 5%nat /\
    warnings (emitted rt') = [WarnNoModules (VStr "Casa")] /\
    length (sent (client_state rt')) = 2%nat.
Proof.
  destruct (pollData_emits_every_device poll_world 0 connected_runtime
              (devices_envelope (VArr [two_modules_station; noModules_station]))
              (devices_envelope (VArr [VObj aircare_fields]))
              [two_modules_station; noModules_station] [VObj aircare_fields])
    as (rt' & Hrun & Hsent & _ & _ & Hcount & Hwarn & _); try reflexivity.
  exists rt'. split; [exact Hrun|]. split; [exact Hcount|].
  split; [exact Hwarn | now rewrite Hsent].
Defined.

Lemma pollData_aborts_at_bad_station_witness :
  exists rt',
    pollData broken_poll_world 0 connected_runtime = Failed TypeError rt' /\
    length (frames (emitted rt')) = 1%nat /\
    sent (client_state rt') = [stations_request connected_client].
Proof.
  eexists. split.
  - apply (pollData_aborts_at_bad_station broken_poll_world 0 connected_runtime
             (devices_envelope
                (VArr [noModules_station; station_without_dashboard; two_modules_station]))
             [noModules_station] [two_modules_station] station_without_dashboard);
      reflexivity.
  - split; reflexivity.
Defined.

Lemma pollData_requires_access_token_witness :
  pollData poll_world 0 fresh_runtime = Failed MissingAccessToken fresh_runtime.
Proof. apply pollData_requires_access_token. reflexivity. Defined.

Lemma startPolling_runs_witness :
  exists rt',
    startPolling poll_world 0 fresh_runtime = Done tt rt' /\
    length (sent (client_state rt')) = 3%nat /\
    length (frames (emitted rt')) = 5%nat /\
    registered rt' = polling_registrations.
Proof.
  eexists. split.
  - apply (startPolling_runs poll_world 0 fresh_runtime authResult
             (devices_envelope (VArr [two_modules_station; noModules_station]))
             (devices_envelope (VArr [VObj aircare_fields]))
             [two_modules_station; noModules_station] [VObj aircare_fields]);
      reflexivity.
  - repeat split.
Defined.

End FurtherWitnesses.
